(** * CodeSnap for VS Code: a shallow embedding of [extension.ts]

    The extension renders the text of an editor as a themed HTML card inside
    a webview panel and saves a PNG produced by the webview.  This file
    embeds the TypeScript functions of [src/extension.ts] as Rocq functions
    and proves the properties the specification states about them.

    Conventions of the embedding.
    - A JavaScript string is modelled by the [string] of its UTF-8 bytes.
      Every character the code looks for (the five HTML specials, the line
      feed, the dot and the slash of the extension pattern, the double quote
      and the backslash of JSON) is ASCII, and no byte of a multi-byte
      UTF-8 sequence is ASCII, so the operations below commute with the
      encoding.
    - A JavaScript number is a double.  A number that holds an integer is
      modelled by that integer in [Z], a value of [Math.random] by the
      rational in [Q] it is; an addition or a multiplication returns the
      double nearest to the exact result (module [Double]), and [String(n)]
      writes the shortest decimal that reads back as the double.
    - Calls into the host (VS Code, Node, shiki) are recorded as events of a
      trace; what the host answers is read from an explicit environment.

    The repository also holds an earlier revision of the same file, without
    the highlighter, the policy declaration and the nonce; its [escapeHtml]
    and its line-number gutter are the ones embedded here, character for
    character. *)

From Stdlib Require Import String Ascii List ZArith NArith QArith Qround Lia Bool.
From Stdlib Require Import DecimalString DecimalPos DecimalZ.
Import ListNotations.

Close Scope Q_scope.
Open Scope string_scope.
Open Scope list_scope.

(** ** Doubles

    The arithmetic of JavaScript numbers: binary64, round to nearest, ties
    to even.  A positive double is written [(m, e)] for [m * 2^e], with
    [m] below [2^53] and [e] at least [-1074]; the results below stay under
    [2^1024], so no operation overflows. *)

Module Double.

Definition precision : Z := 53.
Definition leastExponent : Z := (-1074)%Z.

(** The integer nearest to [a / b], the even one of two that are equally
    near; for [0 <= a] and [0 < b]. *)
Definition roundHalfEven (a b : Z) : Z :=
  let fl := (a / b)%Z in
  let rem := (a mod b)%Z in
  if (2 * rem <? b)%Z then fl
  else if (b <? 2 * rem)%Z then (fl + 1)%Z
  else if Z.even fl then fl else (fl + 1)%Z.

(** The [k] with [2^k <= n / d < 2^(k+1)]; for [0 < n] and [0 < d]. *)
Definition floorLog2 (n d : Z) : Z :=
  let k := (Z.log2 n - Z.log2 d)%Z in
  let reached :=
    if (0 <=? k)%Z then (d * 2 ^ k <=? n)%Z else (d <=? n * 2 ^ (- k))%Z in
  if reached then k else (k - 1)%Z.

(** The double nearest to the positive rational [n / d]: fifty-three
    significant bits, or a multiple of [2^-1074] below the normal range. *)
Definition nearest (n d : Z) : Z * Z :=
  let e := Z.max (floorLog2 n d - (precision - 1)) leastExponent in
  let m :=
    if (0 <=? e)%Z then roundHalfEven n (d * 2 ^ e)
    else roundHalfEven (n * 2 ^ (- e)) d in
  (m, e).

(** The double nearest to a rational. *)
Definition round (x : Q) : Z * Z :=
  match Qnum x with
  | Z0 => (0%Z, 0%Z)
  | Zpos n => nearest (Zpos n) (Zpos (Qden x))
  | Zneg n =>
      let y := nearest (Zpos n) (Zpos (Qden x)) in ((- fst y)%Z, snd y)
  end.

(** [Math.floor] of a double. *)
Definition floor (x : Z * Z) : Z := Z.shiftl (fst x) (snd x).

(** The double nearest to an integer; it is an integer.  Up to [2^53]
    every integer is a double. *)
Definition nearestInteger (n : Z) : Z :=
  if (Z.abs n <=? 2 ^ precision)%Z then n
  else floor (round (inject_Z n)).

(** The decimal digits of an integer. *)
Definition decimal (n : Z) : string := NilEmpty.string_of_int (Z.to_int n).

(** [Number::toString] of the specification of the language looks for
    integers [n], [k] and [s] with [10^(k-1) <= s < 10^k], such that
    [s * 10^(n-k)] rounds to the number, [k] as small as possible, and
    [s * 10^(n-k)] as near to the number as possible.  [denotes v s n k]
    says that [s * 10^(n-k)] rounds to the integer [v]. *)
Definition denotes (v s n k : Z) : bool :=
  let y := if (k <=? n)%Z then nearest (s * 10 ^ (n - k)) 1
           else nearest s (10 ^ (k - n)) in
  (0 <=? snd y)%Z && (fst y * 2 ^ snd y =? v)%Z.

(** The pairs [(s, n)] that denote [v] with [k] digits. *)
Definition candidates (v k : Z) : list (Z * Z) :=
  let digits := Z.of_nat (String.length (decimal v)) in
  flat_map
    (fun n =>
       let lo := if (k <=? n)%Z then (v / 10 ^ (n - k))%Z
                 else (v * 10 ^ (k - n))%Z in
       filter (fun c => (10 ^ (k - 1) <=? fst c)%Z && (fst c <? 10 ^ k)%Z
                          && denotes v (fst c) n k)
              [(lo, n); ((lo + 1)%Z, n)])
    [digits; (digits + 1)%Z].

(** The distance of [s * 10^(n-k)] to [v], in units of [10^-17]. *)
Definition distance (v k : Z) (c : Z * Z) : Z :=
  Z.abs (fst c * 10 ^ (snd c - k + 17) - v * 10 ^ 17).

Definition closer (v k : Z) (c best : Z * Z) : Z * Z :=
  if (distance v k c <? distance v k best)%Z then c
  else if (distance v k c =? distance v k best)%Z && Z.even (fst c) then c
  else best.

(** Seventeen digits denote every double. *)
Fixpoint shortestFrom (fuel : nat) (v k : Z) : Z * Z * Z :=
  match candidates v k with
  | c :: rest => (fold_right (closer v k) c rest, k)
  | [] =>
      match fuel with
      | O => let digits := Z.of_nat (String.length (decimal v)) in
             (v, digits, digits)
      | S fuel' => shortestFrom fuel' v (k + 1)
      end
  end.

Definition shortest (v : Z) : Z * Z * Z := shortestFrom 17 v 1.

Definition zeros (n : Z) : string :=
  String.concat EmptyString (repeat "0" (Z.to_nat n)).

(** The digits as [Number::toString] lays them out: plain up to twenty-one
    digits, with an exponent from [1e21]. *)
Definition format (v : Z) : string :=
  let '(s, n, k) := shortest v in
  let digits := decimal s in
  if (k <=? n)%Z && (n <=? 21)%Z then digits ++ zeros (n - k)
  else if (n <=? 21)%Z then
    substring 0 (Z.to_nat n) digits ++ "."
      ++ substring (Z.to_nat n) (Z.to_nat (k - n)) digits
  else if (k =? 1)%Z then digits ++ "e+" ++ decimal (n - 1)
  else substring 0 1 digits ++ "." ++ substring 1 (Z.to_nat (k - 1)) digits
         ++ "e+" ++ decimal (n - 1).

(** [String(n)] for a double that is an integer.  Up to [2^53] the
    shortest decimal that reads back is the decimal of the integer. *)
Definition toString (n : Z) : string :=
  if (Z.abs n <=? 2 ^ precision)%Z then decimal n
  else if (n <? 0)%Z then "-" ++ format (- n)
  else format n.

End Double.

(** ** JavaScript string primitives *)

Module Js.

(** The double quote, which a string literal of this file cannot hold. *)
Definition dq : string := String "034"%char EmptyString.

(** The line feed ['\n']. *)
Definition nl : ascii := "010"%char.

(** [s.replace(/c/g, r)] for a one-character pattern [c] and a replacement
    text [r] without [$]. *)
Fixpoint replaceAll (c : ascii) (r : string) (s : string) : string :=
  match s with
  | EmptyString => EmptyString
  | String a rest =>
      if Ascii.eqb a c then r ++ replaceAll c r rest
      else String a (replaceAll c r rest)
  end.

(** [s.split(sep)] for a one-character separator: never an empty array,
    [''.split('\n')] is [['']]. *)
Fixpoint split (sep : ascii) (s : string) : list string :=
  match s with
  | EmptyString => [EmptyString]
  | String a rest =>
      if Ascii.eqb a sep then EmptyString :: split sep rest
      else match split sep rest with
           | piece :: pieces => String a piece :: pieces
           | [] => [String a EmptyString]
           end
  end.

(** [xs.map((x, i) => f(x, i))], the index counted from [i]. *)
Fixpoint mapi_from {A B : Type} (i : nat) (f : A -> nat -> B) (xs : list A)
  : list B :=
  match xs with
  | [] => []
  | x :: rest => f x i :: mapi_from (S i) f rest
  end.

Definition mapi {A B : Type} (f : A -> nat -> B) (xs : list A) : list B :=
  mapi_from 0 f xs.

(** [xs.join('')]. *)
Definition join (xs : list string) : string :=
  fold_right String.append EmptyString xs.

(** [String(n)] (the text a template literal inserts) for an integer. *)
Definition numberToString (n : Z) : string := Double.toString n.

(** [a + b] for two numbers that are integers. *)
Definition add (a b : Z) : Z := Double.nearestInteger (a + b).

(** [s.charAt(i)]: the empty string out of range. *)
Definition charAt (s : string) (i : nat) : string :=
  match String.get i s with
  | Some c => String c EmptyString
  | None => EmptyString
  end.

(** Truthiness of a string: only [''] is falsy. *)
Definition truthy (s : string) : bool :=
  match s with EmptyString => false | _ => true end.

End Js.

(** ** [escapeHtml] *)

Definition escapeHtml (text : string) : string :=
  let s1 := Js.replaceAll "&" "&amp;" text in
  let s2 := Js.replaceAll "<" "&lt;" s1 in
  let s3 := Js.replaceAll ">" "&gt;" s2 in
  let s4 := Js.replaceAll "034" "&quot;" s3 in
  Js.replaceAll "'" "&#039;" s4.

(** The table of the five substitutions, character by character: what a
    single simultaneous pass over the text would write. *)
Definition escapeChar (c : ascii) : string :=
  if Ascii.eqb c "&" then "&amp;"
  else if Ascii.eqb c "<" then "&lt;"
  else if Ascii.eqb c ">" then "&gt;"
  else if Ascii.eqb c "034" then "&quot;"
  else if Ascii.eqb c "'" then "&#039;"
  else String c EmptyString.

Fixpoint escapeEach (s : string) : string :=
  match s with
  | EmptyString => EmptyString
  | String c rest => escapeChar c ++ escapeEach rest
  end.

(** ** The line-number gutter of [buildWebviewHtml] *)

(** The element the arrow function of [lines.map] builds for one line. *)
Definition lineNumberEntry (n : Z) : string :=
  "<div class=" ++ Js.dq ++ "line-number" ++ Js.dq ++ ">"
    ++ Js.numberToString n ++ "</div>".

(** [const lines = code.split('\n')] and the array [lines.map(...)] builds. *)
Definition lineNumberEntries (code : string) (startLine : Z) : list string :=
  let lines := Js.split Js.nl code in
  Js.mapi (fun _ i => lineNumberEntry (Js.add startLine (Z.of_nat i))) lines.

Definition lineNumbersHtml (code : string) (startLine : Z)
  (showLineNumbers : bool) : string :=
  if showLineNumbers
  then Js.join (lineNumberEntries code startLine)
  else EmptyString.

(** The interpolation of the gutter in the body of the document. *)
Definition gutterSlot (code : string) (startLine : Z)
  (showLineNumbers : bool) : string :=
  if showLineNumbers
  then "<div class=" ++ Js.dq ++ "line-numbers" ++ Js.dq ++ ">"
         ++ lineNumbersHtml code startLine showLineNumbers ++ "</div>"
  else EmptyString.

(** ** The theme table *)

Record ThemeConfig : Type := mkTheme {
  bg : string;
  headerBg : string;
  lineNumColor : string;
  borderColor : string;
  titleColor : string;
  shikiTheme : string
}.

Definition darkTheme : ThemeConfig :=
  mkTheme "#1e1e1e" "#2d2d2d" "#858585" "#333333" "#999999" "dark-plus".
Definition lightTheme : ThemeConfig :=
  mkTheme "#ffffff" "#e8e8e8" "#999999" "#dddddd" "#666666" "light-plus".
Definition monokaiTheme : ThemeConfig :=
  mkTheme "#272822" "#1e1f1c" "#75715e" "#3e3d32" "#a6a28c" "monokai".
Definition nordTheme : ThemeConfig :=
  mkTheme "#2e3440" "#3b4252" "#4c566a" "#4c566a" "#7b88a1" "nord".
Definition draculaTheme : ThemeConfig :=
  mkTheme "#282a36" "#21222c" "#6272a4" "#44475a" "#6272a4" "dracula".

(** The own properties of the object literal [themeConfigs], in source
    order (the order [Object.values] follows). *)
Definition themeConfigs : list (string * ThemeConfig) :=
  [ ("dark", darkTheme); ("light", lightTheme); ("monokai", monokaiTheme);
    ("nord", nordTheme); ("dracula", draculaTheme) ].

(** [themeConfigs] is written as an object literal, so its prototype is
    [Object.prototype]: a property read that finds no own property goes on
    to the members every object inherits. *)
Definition objectPrototypeMembers : list string :=
  [ "constructor"; "hasOwnProperty"; "isPrototypeOf"; "propertyIsEnumerable";
    "toLocaleString"; "toString"; "valueOf"; "__proto__";
    "__defineGetter__"; "__defineSetter__";
    "__lookupGetter__"; "__lookupSetter__" ].

(** What a property read on [themeConfigs] evaluates to. *)
Inductive PropertyValue : Type :=
| PTheme (c : ThemeConfig)      (* one of the rows of the table *)
| PInherited (member : string)  (* a function or object of Object.prototype *)
| PUndefined.

Fixpoint ownProperty (name : string) (table : list (string * ThemeConfig))
  : option ThemeConfig :=
  match table with
  | [] => None
  | (key, c) :: rest =>
      if String.eqb key name then Some c else ownProperty name rest
  end.

Fixpoint includes (x : string) (xs : list string) : bool :=
  match xs with
  | [] => false
  | y :: rest => String.eqb y x || includes x rest
  end.

(** [themeConfigs[name]]. *)
Definition getProperty (name : string) : PropertyValue :=
  match ownProperty name themeConfigs with
  | Some c => PTheme c
  | None =>
      if includes name objectPrototypeMembers then PInherited name
      else PUndefined
  end.

(** [themeConfigs[theme] || themeConfigs.dark]: objects and functions are
    truthy, [undefined] is not. *)
Definition resolveConfig (theme : string) : PropertyValue :=
  match getProperty theme with
  | PUndefined => getProperty "dark"
  | v => v
  end.

(** [config.f] for one of the six field names of [ThemeConfig]; [None] is
    [undefined] (no member of Object.prototype has such a property). *)
Definition readField (f : ThemeConfig -> string) (config : PropertyValue)
  : option string :=
  match config with
  | PTheme c => Some (f c)
  | PInherited _ | PUndefined => None
  end.

(** A value interpolated into a template literal. *)
Definition interpolate (v : option string) : string :=
  match v with
  | Some s => s
  | None => "undefined"
  end.

(** The five names of the specification's profile table. *)
Definition themeNames : list string :=
  [ "dark"; "light"; "monokai"; "nord"; "dracula" ].

(** ** Outcomes of calls that may throw *)

Inductive outcome (A : Type) : Type :=
| Returns (a : A)
| Throws (err : string).
Arguments Returns {A} a.
Arguments Throws {A} err.

(** ** The shiki library, as far as the extension uses it

    Nothing is assumed about what the library answers: each call returns a
    value or throws.  [loadLanguage] changes the highlighter it is called
    on, whether it succeeds or not; [codeToHtml] is the synchronous method
    of a highlighter instance. *)

Record Shiki : Type := mkShiki {
  Highlighter : Type;
  (* require('shiki') *)
  requireShiki : outcome unit;
  (* shiki.createHighlighter({themes, langs}) *)
  createHighlighter : list string -> list string -> outcome Highlighter;
  (* highlighter.getLoadedLanguages() *)
  getLoadedLanguages : Highlighter -> outcome (list string);
  (* highlighter.loadLanguage(lang): updates the highlighter in place *)
  loadLanguage : Highlighter -> string -> Highlighter * outcome unit;
  (* highlighter.codeToHtml(code, {lang, theme}) *)
  codeToHtml : Highlighter -> string -> string -> option string
               -> outcome string
}.

(** ** The host: editor, settings, dialogs, file system, random source *)

Record Editor : Type := mkEditor {
  documentText : string;          (* editor.document.getText() *)
  selectionIsEmpty : bool;        (* editor.selection.isEmpty *)
  selectionText : string;         (* editor.document.getText(selection) *)
  selectionStartLine : Z;         (* editor.selection.start.line *)
  languageId : string;            (* editor.document.languageId *)
  documentFileName : string       (* editor.document.fileName *)
}.

(** The [codesnap] section of the settings; a missing key is [None]. *)
Record Settings : Type := mkSettings {
  cfgTheme : option string;
  cfgShowLineNumbers : option bool;
  cfgWindowControls : option bool;
  cfgShadow : option bool
}.

(** [vsConfig.get(key, defaultValue)]. *)
Definition get {A : Type} (value : option A) (defaultValue : A) : A :=
  match value with
  | Some v => v
  | None => defaultValue
  end.

Record Host : Type := mkHost {
  activeTextEditor : option Editor;
  configuration : Settings;
  basename : string -> string;             (* path.basename *)
  pathJoin : string -> string -> string;   (* path.join *)
  html2canvasUri : string;   (* asWebviewUri(...html2canvas.min.js).toString() *)
  cspSource : string;                      (* webview.cspSource *)
  workspaceFolder : option string;   (* workspaceFolders?.[0]?.uri.fsPath *)
  homedir : string;                        (* os.homedir() *)
  saveDialogAnswer : string -> option string;  (* the path the user picks *)
  writeFileOutcome : string -> list Z -> outcome unit;
  random : nat -> Q                   (* the k-th value of Math.random() *)
}.

(** Calls into the host that the user or the file system can observe. *)
Inductive Event : Type :=
| ShowErrorMessage (msg : string)
| ShowInformationMessage (msg : string)
| ConsoleError (msg : string) (err : string)
| CreateWebviewPanel
| RevealPanel
| ShowSaveDialog (defaultUri : string)
| WriteFile (uri : string) (bytes : list Z).

(** The panel object [currentPanel] refers to. *)
Record Panel : Type := mkPanel {
  webviewHtml : string
}.

(** ** Node and JavaScript library functions the extension calls *)

Module Node.

Definition code (c : ascii) : Z := Z.of_N (N_of_ascii c).

(** [s.replace(/^data:image\/png;base64,/, '')]: the prefix is dropped
    when the text starts with it. *)
Fixpoint stripPrefix (prefix s : string) : option string :=
  match prefix, s with
  | EmptyString, _ => Some s
  | String p prefix', String c s' =>
      if Ascii.eqb p c then stripPrefix prefix' s' else None
  | String _ _, EmptyString => None
  end.

Definition replacePrefix (prefix s : string) : string :=
  match stripPrefix prefix s with
  | Some rest => rest
  | None => s
  end.

(** The value of a character in the base64 alphabet; Node accepts the
    URL-safe characters [-] and [_] as well. *)
Definition unbase64 (c : ascii) : option Z :=
  let n := code c in
  if (65 <=? n)%Z && (n <=? 90)%Z then Some (n - 65)%Z
  else if (97 <=? n)%Z && (n <=? 122)%Z then Some (n - 71)%Z
  else if (48 <=? n)%Z && (n <=? 57)%Z then Some (n + 4)%Z
  else if (n =? 43)%Z || (n =? 45)%Z then Some 62%Z
  else if (n =? 47)%Z || (n =? 95)%Z then Some 63%Z
  else None.

(** The decoder skips characters outside the alphabet and stops at the
    first padding character. *)
Fixpoint sextets (s : string) : list Z :=
  match s with
  | EmptyString => []
  | String c rest =>
      if Ascii.eqb c "=" then []
      else match unbase64 c with
           | Some v => v :: sextets rest
           | None => sextets rest
           end
  end.

Fixpoint bytesOfSextets (xs : list Z) : list Z :=
  match xs with
  | a :: b :: c :: d :: rest =>
      Z.lor (Z.shiftl a 2) (Z.shiftr b 4)
      :: Z.lor (Z.shiftl (Z.land b 15) 4) (Z.shiftr c 2)
      :: Z.lor (Z.shiftl (Z.land c 3) 6) d
      :: bytesOfSextets rest
  | [a; b; c] =>
      [ Z.lor (Z.shiftl a 2) (Z.shiftr b 4);
        Z.lor (Z.shiftl (Z.land b 15) 4) (Z.shiftr c 2) ]
  | [a; b] => [ Z.lor (Z.shiftl a 2) (Z.shiftr b 4) ]
  | _ => []
  end.

(** [Buffer.from(s, 'base64')], as a list of octets. *)
Definition bufferFromBase64 (s : string) : list Z :=
  bytesOfSextets (sextets s).

(** [s.replace(/\.[^/.]+$/, '')]: the leftmost position where a dot is
    followed, up to the end of the text, by one or more characters that
    are neither a slash nor a dot. *)
Fixpoint noSlashNoDot (s : string) : bool :=
  match s with
  | EmptyString => true
  | String c rest =>
      negb (Ascii.eqb c "/") && negb (Ascii.eqb c ".") && noSlashNoDot rest
  end.

Fixpoint stripExtension (s : string) : string :=
  match s with
  | EmptyString => EmptyString
  | String c rest =>
      if Ascii.eqb c "." && Js.truthy rest && noSlashNoDot rest
      then EmptyString
      else String c (stripExtension rest)
  end.

Definition hexDigit (n : Z) : ascii :=
  ascii_of_N (Z.to_N (if (n <? 10)%Z then n + 48 else n + 87)%Z).

(** The escape [JSON.stringify] writes for one character of a string. *)
Definition jsonEscape (c : ascii) : string :=
  let n := code c in
  if (n =? 34)%Z then "\" ++ Js.dq
  else if (n =? 92)%Z then "\\"
  else if (n =? 8)%Z then "\b"
  else if (n =? 12)%Z then "\f"
  else if (n =? 10)%Z then "\n"
  else if (n =? 13)%Z then "\r"
  else if (n =? 9)%Z then "\t"
  else if (n <? 32)%Z
       then "\u00" ++ String (hexDigit (n / 16)) (String (hexDigit (n mod 16)) "")
  else String c EmptyString.

Fixpoint jsonEscapeAll (s : string) : string :=
  match s with
  | EmptyString => EmptyString
  | String c rest => jsonEscape c ++ jsonEscapeAll rest
  end.

(** [JSON.stringify(s)] for a string. *)
Definition jsonStringify (s : string) : string :=
  Js.dq ++ jsonEscapeAll s ++ Js.dq.

End Node.

(** ** The document template of [buildWebviewHtml] *)

Record WebviewParams : Type := mkParams {
  p_highlightedHtml : string;
  p_code : string;
  p_fileName : string;
  p_startLine : Z;
  p_theme : string;
  p_showLineNumbers : bool;
  p_windowControls : bool;
  p_shadow : bool;
  p_html2canvasUri : string;
  p_nonce : string;
  p_cspSource : string
}.

(** The template literal is a sequence of literal text and interpolated
    expressions; the expressions that occur are listed here. *)
Inductive Fragment : Type :=
| Lit (text : string)
| Nonce                               (* ${nonce} *)
| CspSource                           (* ${cspSource} *)
| Html2canvasUri                      (* ${html2canvasUri} *)
| IsDark (dark light : string)        (* ${isDark ? dark : light} *)
| Config (field : ThemeConfig -> string)   (* ${config.field} *)
| Shadow (css : string)               (* ${shadow ? css : ''} *)
| WindowHeader                        (* ${windowControls ? ... : ''} *)
| Gutter                              (* ${showLineNumbers ? ... : ''} *)
| HighlightedHtml                     (* ${highlightedHtml} *)
| FileNameForJs.                      (* ${fileNameForJs} *)

(** In the literal text below a backquote stands for a double quote; the
    template of the source holds no backquote of its own. *)
Definition q (s : string) : string :=
  Js.replaceAll "`" Js.dq s.

(** The nested template of the window header. *)
Definition windowHeader (fileName : string) (windowControls : bool) : string :=
  if windowControls
  then q "
      <div class=`window-header`>
        <div class=`window-dot dot-red`></div>
        <div class=`window-dot dot-yellow`></div>
        <div class=`window-dot dot-green`></div>
        <span class=`window-title`>" ++ escapeHtml fileName ++ q "</span>
      </div>
      "
  else EmptyString.

(** [JSON.stringify(fileName.replace(/\.[^/.]+$/, '') + '-codesnap')]. *)
Definition fileNameForJs (fileName : string) : string :=
  Node.jsonStringify (Node.stripExtension fileName ++ "-codesnap").

Definition documentTemplate : list Fragment :=
  [ Lit (q "<!DOCTYPE html>
<html>
<head>
  <meta charset=`UTF-8`>
  <meta name=`viewport` content=`width=device-width, initial-scale=1.0`>
  <meta http-equiv=`Content-Security-Policy` content=`default-src 'none'; script-src 'nonce-");
    Nonce;
    Lit (q "' ");
    CspSource;
    Lit (q "; style-src 'unsafe-inline'; img-src data:;`>
  <script nonce=`");
    Nonce;
    Lit (q "` src=`");
    Html2canvasUri;
    Lit (q "`></script>
  <style>
    * { margin: 0; padding: 0; box-sizing: border-box; }

    body {
      padding: 40px;
      background: ");
    IsDark "#0d1117" "#f5f5f5";
    Lit (q ";
      font-family: -apple-system, BlinkMacSystemFont, 'Segoe UI', Roboto, sans-serif;
      min-height: 100vh;
    }

    .toolbar {
      display: flex;
      gap: 12px;
      margin-bottom: 24px;
    }

    .btn {
      padding: 10px 20px;
      border: none;
      border-radius: 6px;
      cursor: pointer;
      font-size: 14px;
      font-weight: 500;
      transition: all 0.2s;
    }

    .btn-primary { background: #238636; color: white; }
    .btn-primary:hover { background: #2ea043; }
    .btn-secondary {
      background: ");
    IsDark "#21262d" "#e1e4e8";
    Lit (q ";
      color: ");
    IsDark "#c9d1d9" "#24292e";
    Lit (q ";
      border: 1px solid ");
    IsDark "#30363d" "#d1d5da";
    Lit (q ";
    }
    .btn-secondary:hover { background: ");
    IsDark "#30363d" "#d1d5da";
    Lit (q "; }

    .preview-container { display: inline-block; }

    .code-container {
      display: inline-block;
      background: ");
    Config bg;
    Lit (q ";
      border-radius: 12px;
      overflow: hidden;
      ");
    Shadow "box-shadow: 0 20px 68px rgba(0,0,0,0.55);";
    Lit (q "
    }

    .window-header {
      padding: 12px 16px;
      background: ");
    Config headerBg;
    Lit (q ";
      display: flex;
      align-items: center;
      gap: 8px;
    }

    .window-dot { width: 12px; height: 12px; border-radius: 50%; }
    .dot-red { background: #ff5f56; }
    .dot-yellow { background: #ffbd2e; }
    .dot-green { background: #27c93f; }
    .window-title { margin-left: 12px; color: ");
    Config titleColor;
    Lit (q "; font-size: 13px; }

    .code-wrapper {
      display: flex;
      padding: 20px;
      font-family: 'SF Mono', Monaco, 'Cascadia Code', Menlo, Consolas, 'Liberation Mono', monospace;
      font-size: 14px;
      line-height: 1.6;
    }

    .line-numbers {
      padding-right: 16px;
      text-align: right;
      color: ");
    Config lineNumColor;
    Lit (q ";
      user-select: none;
      border-right: 1px solid ");
    Config borderColor;
    Lit (q ";
      margin-right: 16px;
      flex-shrink: 0;
    }

    .line-number { line-height: 1.6; }

    .code-content { white-space: pre; overflow-x: auto; flex: 1; }

    .code-content pre {
      margin: 0 !important;
      padding: 0 !important;
      background: transparent !important;
      font-family: inherit;
      font-size: inherit;
      line-height: inherit;
    }

    .code-content code {
      font-family: inherit;
      font-size: inherit;
      line-height: inherit;
    }

    .code-content .line {
      display: block;
      line-height: 1.6;
      min-height: 1em;
    }

    .hint { margin-top: 20px; color: #8b949e; font-size: 12px; }
  </style>
</head>
<body>
  <div class=`toolbar`>
    <button class=`btn btn-primary` onclick=`saveImage()`>Save as PNG</button>
    <button class=`btn btn-secondary` onclick=`copyImage()`>Copy to Clipboard</button>
  </div>

  <div class=`preview-container`>
    <div class=`code-container` id=`capture`>
      ");
    WindowHeader;
    Lit (q "
      <div class=`code-wrapper`>
        ");
    Gutter;
    Lit (q "
        <div class=`code-content`>");
    HighlightedHtml;
    Lit (q "</div>
      </div>
    </div>
  </div>

  <p class=`hint`>Tip: Adjust theme, line numbers, and more in VS Code Settings &rarr; Extensions &rarr; CodeSnap</p>

  <script nonce=`");
    Nonce;
    Lit (q "`>
    const vscode = acquireVsCodeApi();

    async function captureElement() {
      const element = document.getElementById('capture');
      return html2canvas(element, { backgroundColor: null, scale: 2 });
    }

    async function saveImage() {
      try {
        const canvas = await captureElement();
        const dataUrl = canvas.toDataURL('image/png');
        vscode.postMessage({
          command: 'save',
          data: dataUrl,
          fileName: ");
    FileNameForJs;
    Lit (q "
        });
      } catch (err) {
        vscode.postMessage({ command: 'error', text: 'Failed to capture image: ' + err.message });
      }
    }

    async function copyImage() {
      try {
        const canvas = await captureElement();
        canvas.toBlob(async (blob) => {
          if (blob) {
            try {
              await navigator.clipboard.write([
                new ClipboardItem({ 'image/png': blob })
              ]);
              vscode.postMessage({ command: 'copy' });
            } catch (clipErr) {
              vscode.postMessage({ command: 'error', text: 'Clipboard access denied. Use Save as PNG instead.' });
            }
          }
        });
      } catch (err) {
        vscode.postMessage({ command: 'error', text: 'Failed to capture image: ' + err.message });
      }
    }
  </script>
</body>
</html>") ].

Definition renderFragment (params : WebviewParams) (f : Fragment) : string :=
  let config := resolveConfig (p_theme params) in
  let isDark := negb (String.eqb (p_theme params) "light") in
  match f with
  | Lit text => text
  | Nonce => p_nonce params
  | CspSource => p_cspSource params
  | Html2canvasUri => p_html2canvasUri params
  | IsDark dark light => if isDark then dark else light
  | Config field => interpolate (readField field config)
  | Shadow css => if p_shadow params then css else EmptyString
  | WindowHeader => windowHeader (p_fileName params) (p_windowControls params)
  | Gutter =>
      gutterSlot (p_code params) (p_startLine params) (p_showLineNumbers params)
  | HighlightedHtml => p_highlightedHtml params
  | FileNameForJs => fileNameForJs (p_fileName params)
  end.

Definition render (params : WebviewParams) (template : list Fragment) : string :=
  Js.join (map (renderFragment params) template).

Definition buildWebviewHtml (params : WebviewParams) : string :=
  render params documentTemplate.

(** ** The extension's state and its commands *)

(** A message the webview posts; a field that is not set is [None]. *)
Record Message : Type := mkMessage {
  command : option string;
  data : option string;
  fileName : option string;
  text : option string
}.

(** [value || fallback] for an optional string: [undefined] and [''] are
    falsy. *)
Definition orElse (value : option string) (fallback : string) : string :=
  match value with
  | Some s => if Js.truthy s then s else fallback
  | None => fallback
  end.

Definition isTruthy (value : option string) : bool :=
  match value with
  | Some s => Js.truthy s
  | None => false
  end.

(** [value === literal]. *)
Definition strictEq (value : option string) (literal : string) : bool :=
  match value with
  | Some s => String.eqb s literal
  | None => false
  end.

Definition possible : string :=
  "ABCDEFGHIJKLMNOPQRSTUVWXYZabcdefghijklmnopqrstuvwxyz0123456789".

(** [Math.floor(r * possible.length)]: the product is the double nearest
    to the exact product, and that double is floored. *)
Definition randomIndex (r : Q) : Z :=
  Double.floor
    (Double.round (r * inject_Z (Z.of_nat (String.length possible)))%Q).

(** [possible.charAt(i)]. *)
Definition possibleCharAt (i : Z) : string :=
  if (i <? 0)%Z then EmptyString else Js.charAt possible (Z.to_nat i).

(** The fallback markup of [getHighlightedHtml]. *)
Definition plainCodeBlock (code : string) : string :=
  q "<pre style=`margin:0`><code>" ++ escapeHtml code ++ "</code></pre>".

(** The languages [createHighlighter] is asked to preload. *)
Definition initialLangs : list string :=
  [ "javascript"; "typescript"; "python"; "json"; "html"; "css";
    "markdown"; "bash" ].

Section Extension.

Context (lib : Shiki) (host : Host).

(** The module-level variables, the number of values drawn from
    [Math.random] so far, and the host calls made so far (oldest first). *)
Record World : Type := mkWorld {
  currentPanel : option Panel;
  shikiHighlighter : option (Highlighter lib);
  randomCalls : nat;
  trace : list Event
}.

(** A computation reads and updates the world and returns or throws. *)
Definition M (A : Type) : Type := World -> World * outcome A.

Definition ret {A : Type} (a : A) : M A := fun w => (w, Returns a).

Definition bind {A B : Type} (m : M A) (k : A -> M B) : M B :=
  fun w =>
    match m w with
    | (w', Returns a) => k a w'
    | (w', Throws err) => (w', Throws err)
    end.

(** [try { body } catch (err) { handler }]. *)
Definition tryCatch {A : Type} (body : M A) (handler : string -> M A) : M A :=
  fun w =>
    match body w with
    | (w', Returns a) => (w', Returns a)
    | (w', Throws err) => handler err w'
    end.

(** The result of a library call that may throw. *)
Definition call {A : Type} (r : outcome A) : M A := fun w => (w, r).

Definition emit (e : Event) : M unit :=
  fun w =>
    (mkWorld (currentPanel w) (shikiHighlighter w) (randomCalls w)
             (trace w ++ [e]),
     Returns tt).

Definition setHighlighter (h : Highlighter lib) : M unit :=
  fun w =>
    (mkWorld (currentPanel w) (Some h) (randomCalls w) (trace w), Returns tt).

Definition setPanel (p : option Panel) : M unit :=
  fun w =>
    (mkWorld p (shikiHighlighter w) (randomCalls w) (trace w), Returns tt).

(** [Math.random()]. *)
Definition mathRandom : M Q :=
  fun w =>
    (mkWorld (currentPanel w) (shikiHighlighter w) (S (randomCalls w))
             (trace w),
     Returns (random host (randomCalls w))).

Notation "x <- m ;; k" := (bind m (fun x => k))
  (at level 61, m at next level, right associativity).
Notation "m ;;; k" := (bind m (fun _ => k))
  (at level 61, right associativity).

(** *** [getHighlightedHtml] *)

(** [if (!shikiHighlighter) { shikiHighlighter = await createHighlighter(..) }] *)
Definition ensureHighlighter : M (Highlighter lib) :=
  fun w =>
    match shikiHighlighter w with
    | Some h => (w, Returns h)
    | None =>
        (h <- call (createHighlighter lib
                      (map (fun t => shikiTheme (snd t)) themeConfigs)
                      initialLangs) ;;
         setHighlighter h ;;;
         ret h) w
    end.

(** The inner [try]: [inr html] is the early [return] of its [catch],
    [inl h] means the function goes on to [codeToHtml] with the highlighter
    as [loadLanguage] left it. *)
Definition loadIfMissing (h : Highlighter lib) (loadedLangs : list string)
  (lang code : string) : M (Highlighter lib + string) :=
  if includes lang loadedLangs then ret (inl h)
  else
    let (h', loaded) := loadLanguage lib h lang in
    setHighlighter h' ;;;
    tryCatch
      (call loaded ;;; ret (inl h'))
      (fun _ => ret (inr (plainCodeBlock code))).

Definition getHighlightedHtml (code language themeName : string) : M string :=
  let config := resolveConfig themeName in
  tryCatch
    (call (requireShiki lib) ;;;
     h <- ensureHighlighter ;;
     loadedLangs <- call (getLoadedLanguages lib h) ;;
     let lang := language in
     next <- loadIfMissing h loadedLangs lang code ;;
     match next with
     | inr html => ret html
     | inl h' =>
         call (codeToHtml lib h' code lang (readField shikiTheme config))
     end)
    (fun err =>
       emit (ConsoleError "CodeSnap: Shiki highlighting failed:" err) ;;;
       ret (plainCodeBlock code)).

(** *** [getNonce] *)

Fixpoint getNonceLoop (iterations : nat) (text : string) : M string :=
  match iterations with
  | O => ret text
  | S n =>
      r <- mathRandom ;;
      getNonceLoop n (text ++ possibleCharAt (randomIndex r))
  end.

Definition getNonce : M string := getNonceLoop 32 EmptyString.

(** *** [showCodeSnapPanel]

    When the panel is created the source also registers [onDidDispose]
    and the message handler on it, once; these registrations make no call
    a user can observe.  The handler is [onDidReceiveMessage] below. *)

Definition showCodeSnapPanel (code language fileName : string) (startLine : Z)
  : M unit :=
  let vsConfig := configuration host in
  let theme := get (cfgTheme vsConfig) "dark" in
  let showLineNumbers := get (cfgShowLineNumbers vsConfig) true in
  let windowControls := get (cfgWindowControls vsConfig) true in
  let shadow := get (cfgShadow vsConfig) true in
  highlightedHtml <- getHighlightedHtml code language theme ;;
  (fun w =>
     match currentPanel w with
     | None =>
         (emit CreateWebviewPanel ;;;
          setPanel (Some (mkPanel EmptyString))) w
     | Some _ => emit RevealPanel w
     end) ;;;
  nonce <- getNonce ;;
  setPanel
    (Some (mkPanel
       (buildWebviewHtml
          (mkParams highlightedHtml code fileName startLine theme
                    showLineNumbers windowControls shadow
                    (html2canvasUri host) nonce (cspSource host))))).

(** *** The two commands registered by [activate] *)

Definition captureSelection : M unit :=
  match activeTextEditor host with
  | None => emit (ShowErrorMessage "No active editor")
  | Some editor =>
      if selectionIsEmpty editor
      then emit (ShowErrorMessage "No code selected. Select some code first.")
      else
        let code := selectionText editor in
        let language := languageId editor in
        let fileName := basename host (documentFileName editor) in
        let startLine := Js.add (selectionStartLine editor) 1 in
        showCodeSnapPanel code language fileName startLine
  end.

Definition captureFile : M unit :=
  match activeTextEditor host with
  | None => emit (ShowErrorMessage "No active editor")
  | Some editor =>
      let code := documentText editor in
      let language := languageId editor in
      let fileName := basename host (documentFileName editor) in
      showCodeSnapPanel code language fileName 1
  end.

(** *** The message handler registered on the panel's webview *)

Definition onDidReceiveMessage (message : Message) : M unit :=
  if strictEq (command message) "copy"
  then emit (ShowInformationMessage "Screenshot copied to clipboard!")
  else if strictEq (command message) "save" && isTruthy (data message)
  then
    let defaultDir := orElse (workspaceFolder host) (homedir host) in
    let defaultUri :=
      pathJoin host defaultDir (orElse (fileName message) "codesnap" ++ ".png") in
    emit (ShowSaveDialog defaultUri) ;;;
    match saveDialogAnswer host defaultUri with
    | Some uri =>
        let base64 :=
          Node.replacePrefix "data:image/png;base64,"
                             (get (data message) EmptyString) in
        let bytes := Node.bufferFromBase64 base64 in
        emit (WriteFile uri bytes) ;;;
        call (writeFileOutcome host uri bytes) ;;;
        emit (ShowInformationMessage ("Screenshot saved to " ++ uri))
    | None => ret tt
    end
  else if strictEq (command message) "error"
  then emit (ShowErrorMessage ("CodeSnap: " ++ interpolate (text message)))
  else ret tt.

End Extension.

Arguments mkWorld {lib} _ _ _ _.
Arguments currentPanel {lib} _.
Arguments shikiHighlighter {lib} _.
Arguments randomCalls {lib} _.
Arguments trace {lib} _.

(** ** Notions the properties are stated with *)

(** The number of lines of a text: one more than its line feeds. *)
Fixpoint countNewlines (s : string) : nat :=
  match s with
  | EmptyString => O
  | String c rest =>
      if Ascii.eqb c Js.nl then S (countNewlines rest) else countNewlines rest
  end.

Definition lineCount (s : string) : nat := S (countNewlines s).

(** [start, start + 1, ..., start + n - 1]. *)
Fixpoint consecutive (start : Z) (n : nat) : list Z :=
  match n with
  | O => []
  | S n' => start :: consecutive (start + 1) n'
  end.

(** The template around one of its interpolations. *)
Fixpoint beforeFragment (isIt : Fragment -> bool) (t : list Fragment)
  : list Fragment :=
  match t with
  | [] => []
  | f :: rest => if isIt f then [] else f :: beforeFragment isIt rest
  end.

Fixpoint afterFragment (isIt : Fragment -> bool) (t : list Fragment)
  : list Fragment :=
  match t with
  | [] => []
  | f :: rest => if isIt f then rest else afterFragment isIt rest
  end.

Definition isGutter (f : Fragment) : bool :=
  match f with Gutter => true | _ => false end.

Definition isNonce (f : Fragment) : bool :=
  match f with Nonce => true | _ => false end.

Definition isCspSource (f : Fragment) : bool :=
  match f with CspSource => true | _ => false end.

(** The template read as a sequence of literal characters and holes. *)
Inductive Symbol : Type :=
| Chr (c : ascii)
| Hole (f : Fragment).

Fixpoint chars (s : string) : list Symbol :=
  match s with
  | EmptyString => []
  | String c rest => Chr c :: chars rest
  end.

Fixpoint symbols (t : list Fragment) : list Symbol :=
  match t with
  | [] => []
  | Lit text :: rest => chars text ++ symbols rest
  | f :: rest => Hole f :: symbols rest
  end.

(** [expect s syms] is what follows the literal text [s] at the head of
    [syms], if [syms] starts with it. *)
Fixpoint expect (s : string) (syms : list Symbol) : option (list Symbol) :=
  match s, syms with
  | EmptyString, _ => Some syms
  | String c rest, Chr d :: syms' =>
      if Ascii.eqb c d then expect rest syms' else None
  | String _ _, _ => None
  end.

Definition expectHole (isIt : Fragment -> bool) (syms : list Symbol)
  : option (list Symbol) :=
  match syms with
  | Hole f :: rest => if isIt f then Some rest else None
  | _ => None
  end.

(** Whether an opening tag that starts at the head of [syms] goes on with
    the attribute [nonce="${nonce}"]. *)
Definition carriesNonce (tag : string) (syms : list Symbol) : bool :=
  match expect (tag ++ q " nonce=`") syms with
  | Some rest =>
      match expectHole isNonce rest with
      | Some rest' =>
          match expect Js.dq rest' with Some _ => true | None => false end
      | None => false
      end
  | None => false
  end.

(** For every place of the template where the text [tag] starts, whether
    the tag carries the nonce. *)
Fixpoint tagOpenings (tag : string) (syms : list Symbol) : list bool :=
  match syms with
  | [] => []
  | sym :: rest =>
      match expect tag syms with
      | Some _ => carriesNonce tag syms :: tagOpenings tag rest
      | None => tagOpenings tag rest
      end
  end.

(** The policy declaration: what follows [script-src] and [style-src] in
    the template. *)
Fixpoint policyAfter (directive : string) (syms : list Symbol)
  : option (list Symbol) :=
  match syms with
  | [] => None
  | sym :: rest =>
      match expect directive syms with
      | Some after => Some after
      | None => policyAfter directive rest
      end
  end.

Definition scriptSrcCarriesNonce (syms : list Symbol) : bool :=
  match policyAfter "script-src " syms with
  | Some after =>
      match expect "'nonce-" after with
      | Some rest =>
          match expectHole isNonce rest with
          | Some rest' =>
              match expect "' " rest' with
              | Some rest'' =>
                  match expectHole isCspSource rest'' with
                  | Some rest3 =>
                      match expect ";" rest3 with
                      | Some _ => true
                      | None => false
                      end
                  | None => false
                  end
              | None => false
              end
          | None => false
          end
      | None => false
      end
  | None => false
  end.

Definition styleSrcIsUnsafeInline (syms : list Symbol) : bool :=
  match policyAfter "style-src " syms with
  | Some after =>
      match expect "'unsafe-inline';" after with
      | Some _ => true
      | None => false
      end
  | None => false
  end.

(** The same questions asked of a composed document. *)
Fixpoint startsWith (prefix s : string) : bool :=
  match prefix, s with
  | EmptyString, _ => true
  | String p prefix', String c s' => Ascii.eqb p c && startsWith prefix' s'
  | String _ _, EmptyString => false
  end.

Fixpoint contains (sub s : string) : bool :=
  startsWith sub s
  || match s with
     | EmptyString => false
     | String _ rest => contains sub rest
     end.

(** Every place of [doc] where the text [tag] starts goes on with
    [nonce="token"]. *)
Fixpoint openingsTagged (tag token doc : string) : bool :=
  match doc with
  | EmptyString => true
  | String _ rest =>
      (if startsWith tag doc
       then startsWith (tag ++ q " nonce=`" ++ token ++ Js.dq) doc
       else true)
      && openingsTagged tag token rest
  end.

(** The token is shared between the policy declaration and every script
    and style fragment of the document. *)
Definition tokenShared (token doc : string) : bool :=
  contains ("script-src 'nonce-" ++ token ++ "'") doc
  && openingsTagged "<script" token doc
  && openingsTagged "<style" token doc.

(** The token [getNonce] builds from the draws [k, k+1, ..., k+31] of the
    random source. *)
Definition nonceAt (host : Host) (k : nat) : string :=
  Js.join
    (map (fun i => possibleCharAt (randomIndex (random host (k + i))))
         (seq 0 32)).

(** A value of [Math.random]: a double that is at least 0 and below 1,
    that is [m / 2^e] for an integer [m] of at most fifty-three bits. *)
Definition isUnitDouble (r : Q) : Prop :=
  exists m e : Z,
    (0 <= m < 2 ^ 53)%Z /\ (0 <= e <= 1074)%Z
    /\ (r == Qmake m (Z.to_pos (2 ^ e)))%Q
    /\ (r < 1)%Q.

(** Every value of the random source is a value of [Math.random]. *)
Definition randomInRange (host : Host) : Prop :=
  forall k, isUnitDouble (random host k).

Fixpoint allIn (alphabet s : string) : bool :=
  match s with
  | EmptyString => true
  | String c rest =>
      match String.index 0 (String c EmptyString) alphabet with
      | Some _ => allIn alphabet rest
      | None => false
      end
  end.

(** The highlighter [getHighlightedHtml] works with: the memoized one, or
    the one [createHighlighter] returns when none is memoized. *)
Definition highlighterInUse (lib : Shiki) (w : World lib) (h : Highlighter lib)
  : Prop :=
  shikiHighlighter w = Some h
  \/ (shikiHighlighter w = None
      /\ createHighlighter lib (map (fun t => shikiTheme (snd t)) themeConfigs)
                           initialLangs = Returns h).

(** The ways highlighting can fail: the library cannot be loaded, the
    highlighter cannot be created, it cannot list or load the language, or
    it fails on the text. *)
Inductive HighlightFailure (lib : Shiki) (w : World lib)
  (code language themeName : string) : Prop :=
| RequireFails (err : string) :
    requireShiki lib = Throws err ->
    HighlightFailure lib w code language themeName
| CreateFails (err : string) :
    shikiHighlighter w = None ->
    createHighlighter lib (map (fun t => shikiTheme (snd t)) themeConfigs)
                      initialLangs = Throws err ->
    HighlightFailure lib w code language themeName
| ListFails (h : Highlighter lib) (err : string) :
    highlighterInUse lib w h ->
    getLoadedLanguages lib h = Throws err ->
    HighlightFailure lib w code language themeName
| LoadFails (h : Highlighter lib) (loadedLangs : list string) (err : string) :
    highlighterInUse lib w h ->
    getLoadedLanguages lib h = Returns loadedLangs ->
    includes language loadedLangs = false ->
    snd (loadLanguage lib h language) = Throws err ->
    HighlightFailure lib w code language themeName
| RenderFails (h : Highlighter lib) (loadedLangs : list string) (err : string) :
    highlighterInUse lib w h ->
    getLoadedLanguages lib h = Returns loadedLangs ->
    codeToHtml lib
      (if includes language loadedLangs then h
       else fst (loadLanguage lib h language))
      code language (readField shikiTheme (resolveConfig themeName))
    = Throws err ->
    HighlightFailure lib w code language themeName.

(** A highlighter that lists a language once it has loaded it and that a
    failed load leaves as it was. *)
Definition loadsConsistently (lib : Shiki) : Prop :=
  (forall h lang h',
      loadLanguage lib h lang = (h', Returns tt) ->
      exists loadedLangs,
        getLoadedLanguages lib h' = Returns loadedLangs
        /\ includes lang loadedLangs = true)
  /\ (forall h lang h' err,
         loadLanguage lib h lang = (h', Throws err) -> h' = h).

(** The events one run appends to the trace. *)
Definition appended (lib : Shiki) (w w' : World lib) (log : list Event) : Prop :=
  trace w' = trace w ++ log.

Fixpoint countCreated (log : list Event) : nat :=
  match log with
  | [] => O
  | CreateWebviewPanel :: rest => S (countCreated rest)
  | _ :: rest => countCreated rest
  end.

Fixpoint countRevealed (log : list Event) : nat :=
  match log with
  | [] => O
  | RevealPanel :: rest => S (countRevealed rest)
  | _ :: rest => countRevealed rest
  end.

(** The markup shown by the panel, if there is one. *)
Definition shownHtml (lib : Shiki) (w : World lib) : option string :=
  match currentPanel w with
  | Some p => Some (webviewHtml p)
  | None => None
  end.

(** The parameters [showCodeSnapPanel] hands to [buildWebviewHtml]. *)
Definition paramsOf (host : Host) (highlightedHtml code fileName : string)
  (startLine : Z) (nonce : string) : WebviewParams :=
  mkParams highlightedHtml code fileName startLine
           (get (cfgTheme (configuration host)) "dark")
           (get (cfgShowLineNumbers (configuration host)) true)
           (get (cfgWindowControls (configuration host)) true)
           (get (cfgShadow (configuration host)) true)
           (html2canvasUri host) nonce (cspSource host).

(** What [showCodeSnapPanel] does about the panel: it creates one when
    there is none and reveals the one there is. *)
Definition panelEvent (lib : Shiki) (w : World lib) : Event :=
  match currentPanel w with
  | None => CreateWebviewPanel
  | Some _ => RevealPanel
  end.

(** ** The policy declaration, as a browser reads it *)

(** A source expression of a directive. *)
Inductive Source : Type :=
| NoneSource          (* 'none' *)
| NonceSource         (* 'nonce-${nonce}' *)
| CspSourceHost       (* ${cspSource} *)
| UnsafeInline        (* 'unsafe-inline' *)
| DataScheme          (* data: *)
| OtherSource.

(** The symbols up to the first occurrence of a character. *)
Fixpoint upTo (c : ascii) (syms : list Symbol) : list Symbol :=
  match syms with
  | [] => []
  | Chr d :: rest => if Ascii.eqb c d then [] else Chr d :: upTo c rest
  | Hole f :: rest => Hole f :: upTo c rest
  end.

(** The pieces between the occurrences of a separator. *)
Fixpoint pieces (sep : ascii) (syms : list Symbol) : list (list Symbol) :=
  match syms with
  | [] => [[]]
  | sym :: rest =>
      let isSep := match sym with Chr d => Ascii.eqb sep d | Hole _ => false end in
      if isSep then [] :: pieces sep rest
      else match pieces sep rest with
           | piece :: others => (sym :: piece) :: others
           | [] => [[sym]]
           end
  end.

Definition isText (s : string) (syms : list Symbol) : bool :=
  match expect s syms with
  | Some [] => true
  | _ => false
  end.

Definition isNonceSource (token : list Symbol) : bool :=
  match expect "'nonce-" token with
  | Some rest =>
      match expectHole isNonce rest with
      | Some rest' => isText "'" rest'
      | None => false
      end
  | None => false
  end.

Definition sourceOf (token : list Symbol) : Source :=
  if isText "'none'" token then NoneSource
  else if isText "'unsafe-inline'" token then UnsafeInline
  else if isText "data:" token then DataScheme
  else if isNonceSource token then NonceSource
  else match expectHole isCspSource token with
       | Some [] => CspSourceHost
       | _ => OtherSource
       end.

(** The literal text of a name; an interpolation is no part of a name. *)
Fixpoint textOf (syms : list Symbol) : string :=
  match syms with
  | [] => EmptyString
  | Chr c :: rest => String c (textOf rest)
  | Hole _ :: rest => String "?" (textOf rest)
  end.

Definition nonEmpty (piece : list Symbol) : bool :=
  match piece with [] => false | _ => true end.

(** A directive: its name and its source expressions. *)
Definition directiveOf (syms : list Symbol)
  : list (string * list Source) :=
  match filter nonEmpty (pieces " " syms) with
  | [] => []
  | name :: sources => [(textOf name, map sourceOf sources)]
  end.

(** The directives of the policy declared by the [meta] element of the
    template. *)
Definition policyOf (syms : list Symbol)
  : option (list (string * list Source)) :=
  match policyAfter
          (q "<meta http-equiv=`Content-Security-Policy` content=`") syms with
  | Some after => Some (flat_map directiveOf (pieces ";" (upTo "034" after)))
  | None => None
  end.

Fixpoint directive (name : string) (policy : list (string * list Source))
  : option (list Source) :=
  match policy with
  | [] => None
  | (n, sources) :: rest =>
      if String.eqb n name then Some sources else directive name rest
  end.

(** The sources that govern scripts: those of [script-src], of
    [default-src] without it; [None] when the policy restricts nothing. *)
Definition scriptSources (policy : list (string * list Source))
  : option (list Source) :=
  match directive "script-src" policy with
  | Some sources => Some sources
  | None => directive "default-src" policy
  end.

Definition isNonceSourceExpr (s : Source) : bool :=
  match s with NonceSource => true | _ => false end.

Definition isUnsafeInline (s : Source) : bool :=
  match s with UnsafeInline => true | _ => false end.

Definition isHostSource (s : Source) : bool :=
  match s with CspSourceHost | OtherSource | DataScheme => true | _ => false end.

(** What a policy lets run.  A script element that carries the token of a
    nonce source runs.  A script element without it runs only if it is
    inline and the policy says ['unsafe-inline'] and names no nonce, or if
    it is loaded from one of the hosts the policy names.  An event handler
    written as an attribute counts as inline script without a token. *)
Definition admitsTokenScripts (sources : option (list Source)) : bool :=
  match sources with
  | Some l => existsb isNonceSourceExpr l
  | None => true
  end.

Definition admitsUntaggedInline (sources : option (list Source)) : bool :=
  match sources with
  | Some l => existsb isUnsafeInline l && negb (existsb isNonceSourceExpr l)
  | None => true
  end.

Definition hostsAdmitted (sources : option (list Source))
  : option (list Source) :=
  option_map (filter isHostSource) sources.

(** The number of places of the template where a text starts. *)
Fixpoint countOccurrences (s : string) (syms : list Symbol) : nat :=
  match syms with
  | [] => O
  | sym :: rest =>
      match expect s syms with
      | Some _ => S (countOccurrences s rest)
      | None => countOccurrences s rest
      end
  end.

(** Whether an interpolation stands inside a script element: between an
    opening [<script] and the next [</script>]. *)
Fixpoint insideScriptAt (isIt : Fragment -> bool) (inside : bool)
  (syms : list Symbol) : option bool :=
  match syms with
  | [] => None
  | Hole f :: rest =>
      if isIt f then Some inside else insideScriptAt isIt inside rest
  | Chr _ :: rest =>
      let inside' :=
        match expect "<script" syms with
        | Some _ => true
        | None =>
            match expect "</script>" syms with
            | Some _ => false
            | None => inside
            end
        end in
      insideScriptAt isIt inside' rest
  end.

Definition isFileNameForJs (f : Fragment) : bool :=
  match f with FileNameForJs => true | _ => false end.

(** The literal text that stands right before an interpolation. *)
Fixpoint literalBefore (isIt : Fragment -> bool) (previous : string)
  (t : list Fragment) : option string :=
  match t with
  | [] => None
  | f :: rest =>
      if isIt f then Some previous
      else literalBefore isIt
             (match f with Lit text => text | _ => EmptyString end) rest
  end.

Fixpoint endsWith (suffix s : string) : bool :=
  String.eqb suffix s
  || match s with
     | EmptyString => false
     | String _ rest => endsWith suffix rest
     end.

(** The highlighter a run of [getHighlightedHtml] that works with [h]
    leaves memoized: [h], or [h] as [loadLanguage] leaves it when the
    language is not listed. *)
Definition memoizedAfter (lib : Shiki) (h : Highlighter lib)
  (language : string) : Highlighter lib :=
  match getLoadedLanguages lib h with
  | Returns loadedLangs =>
      if includes language loadedLangs then h
      else fst (loadLanguage lib h language)
  | Throws _ => h
  end.

(** ** A concrete library and host, to run the definitions on *)

Module Demo.

(** A highlighter that is the list of its loaded languages, knows [rust]
    besides the preloaded ones and marks up nothing. *)
Definition shiki : Shiki :=
  mkShiki (list string)
    (Returns tt)
    (fun _ langs => Returns langs)
    (fun h => Returns h)
    (fun h lang =>
       if String.eqb lang "rust" then ((h ++ [lang])%list, Returns tt)
       else (h, Throws "Language not found"))
    (fun h code lang theme =>
       match theme with
       | Some t =>
           if includes lang h
           then Returns ("<pre class=" ++ Js.dq ++ "shiki " ++ t ++ Js.dq
                           ++ "><code>" ++ escapeHtml code
                           ++ "</code></pre>")%string
           else Throws "Language not loaded"
       | None => Throws "Theme not found"
       end).

Definition editor : Editor :=
  mkEditor "const x = 1;" false "const x = 1;" 9 "typescript"
           "/home/dev/project/main.ts".

Definition cobolEditor : Editor :=
  mkEditor "DISPLAY 'A < B'." false "DISPLAY 'A < B'." 0 "cobol"
           "/home/dev/project/main.cob".

Definition emptySelectionEditor : Editor :=
  mkEditor "const x = 1;" true "" 0 "typescript" "/home/dev/project/main.ts".

Definition settings : Settings := mkSettings None None None None.

(** The part of the path after the last slash. *)
Fixpoint afterLastSlash (s : string) : string :=
  match s with
  | EmptyString => EmptyString
  | String c rest =>
      if contains "/" rest then afterLastSlash rest
      else if Ascii.eqb c "/" then rest else s
  end.

(** The first thirty-two draws are [0], the later ones [1/2]. *)
Definition draws (k : nat) : Q :=
  if Nat.ltb k 32 then 0%Q else (1 # 2)%Q.

Definition hostWith (e : option Editor) : Host :=
  mkHost e settings afterLastSlash
         (fun dir name => (dir ++ "/" ++ name)%string)
         "https://file.vscode-resource/html2canvas.min.js"
         "https://file.vscode-resource"
         (Some "/home/dev/project") "/home/dev"
         (fun defaultUri => Some "/home/dev/shots/foo.png")
         (fun _ _ => Returns tt)
         draws.

Definition host : Host := hostWith (Some editor).
Definition cobolHost : Host := hostWith (Some cobolEditor).
Definition hostWithoutEditor : Host := hostWith None.
Definition hostWithEmptySelection : Host := hostWith (Some emptySelectionEditor).

Definition world0 : World shiki := mkWorld None None 0 [].

Definition params : WebviewParams :=
  mkParams "<pre><code>const x = 1;</code></pre>" "const x = 1;" "main.ts" 10
           "dark" true true true
           "https://file.vscode-resource/html2canvas.min.js"
           "AAAAAAAAAAAAAAAAAAAAAAAAAAAAAAAA"
           "https://file.vscode-resource".

Definition saveMessage : Message :=
  mkMessage (Some "save") (Some "data:image/png;base64,AAAA")
            (Some "foo-codesnap") None.

End Demo.

(** ** Further functions of the extension *)

(** The handler registered with [currentPanel.onDidDispose]. *)
Definition onDidDispose (lib : Shiki) : M lib unit :=
  setPanel lib None.

(** [deactivate]; [dispose] is what [shikiHighlighter.dispose()] answers. *)
Definition deactivate (lib : Shiki) (dispose : Highlighter lib -> outcome unit)
  : M lib unit :=
  fun w =>
    match shikiHighlighter w with
    | Some h =>
        bind lib
          (tryCatch lib (call lib (dispose h)) (fun _ => ret lib tt))
          (fun _ w' =>
             (mkWorld (currentPanel w') None (randomCalls w') (trace w'),
              Returns tt))
          w
    | None => (w, Returns tt)
    end.

(** ** Readers for what the code writes *)

(** The five characters [escapeHtml] replaces. *)
Definition isHtmlSpecial (c : ascii) : bool :=
  Ascii.eqb c "&" || Ascii.eqb c "<" || Ascii.eqb c ">"
  || Ascii.eqb c "034" || Ascii.eqb c "'".

(** The characters that can open or close a tag or an attribute value. *)
Definition isMarkup (c : ascii) : bool :=
  Ascii.eqb c "<" || Ascii.eqb c ">" || Ascii.eqb c "034" || Ascii.eqb c "'".

Fixpoint existsChar (p : ascii -> bool) (s : string) : bool :=
  match s with
  | EmptyString => false
  | String c rest => p c || existsChar p rest
  end.

(** How an HTML parser reads character data: the five entities
    [escapeHtml] writes stand for their characters. *)
Fixpoint unescapeHtml (s : string) : string :=
  match s with
  | EmptyString => EmptyString
  | String c rest =>
      if Ascii.eqb c "&" then
        match rest with
        | String c1 (String c2 (String c3 rest3)) =>
            if Ascii.eqb c1 "l" && Ascii.eqb c2 "t" && Ascii.eqb c3 ";"
            then String "<" (unescapeHtml rest3)
            else if Ascii.eqb c1 "g" && Ascii.eqb c2 "t" && Ascii.eqb c3 ";"
            then String ">" (unescapeHtml rest3)
            else
              match rest3 with
              | String c4 rest4 =>
                  if Ascii.eqb c1 "a" && Ascii.eqb c2 "m" && Ascii.eqb c3 "p"
                     && Ascii.eqb c4 ";"
                  then String "&" (unescapeHtml rest4)
                  else
                    match rest4 with
                    | String c5 rest5 =>
                        if Ascii.eqb c1 "q" && Ascii.eqb c2 "u"
                           && Ascii.eqb c3 "o" && Ascii.eqb c4 "t"
                           && Ascii.eqb c5 ";"
                        then String "034" (unescapeHtml rest5)
                        else if Ascii.eqb c1 "#" && Ascii.eqb c2 "0"
                                && Ascii.eqb c3 "3" && Ascii.eqb c4 "9"
                                && Ascii.eqb c5 ";"
                        then String "'" (unescapeHtml rest5)
                        else String c (unescapeHtml rest)
                    | EmptyString => String c (unescapeHtml rest)
                    end
              | EmptyString => String c (unescapeHtml rest)
              end
        | _ => String c (unescapeHtml rest)
        end
      else String c (unescapeHtml rest)
  end.

(** The value of a lower-case hexadecimal digit. *)
Definition hexValue (c : ascii) : Z :=
  let n := Node.code c in
  if (n <? 58)%Z then (n - 48)%Z else (n - 87)%Z.

(** The character a one-letter escape of a string literal stands for. *)
Definition unescapeLetter (c : ascii) : ascii :=
  if Ascii.eqb c "b" then "008"%char
  else if Ascii.eqb c "f" then "012"%char
  else if Ascii.eqb c "n" then "010"%char
  else if Ascii.eqb c "r" then "013"%char
  else if Ascii.eqb c "t" then "009"%char
  else c.

(** How the script reads a string literal after its opening quote: up to
    the first quote that is not escaped.  The result is the text of the
    literal and what follows it; a raw control character or the end of the
    input before the closing quote is an error. *)
Fixpoint readStringBody (s : string) : option (string * string) :=
  match s with
  | EmptyString => None
  | String c rest =>
      if Ascii.eqb c "034" then Some (EmptyString, rest)
      else if Ascii.eqb c "\" then
        match rest with
        | String e rest1 =>
            if Ascii.eqb e "u" then
              match rest1 with
              | String _ (String _ (String h (String l rest5))) =>
                  match readStringBody rest5 with
                  | Some (body, tail) =>
                      Some (String (ascii_of_N
                                      (Z.to_N (16 * hexValue h + hexValue l)))
                                   body, tail)
                  | None => None
                  end
              | _ => None
              end
            else
              match readStringBody rest1 with
              | Some (body, tail) => Some (String (unescapeLetter e) body, tail)
              | None => None
              end
        | EmptyString => None
        end
      else if (Node.code c <? 32)%Z then None
      else
        match readStringBody rest with
        | Some (body, tail) => Some (String c body, tail)
        | None => None
        end
  end.

Definition readStringLiteral (s : string) : option (string * string) :=
  match s with
  | String c rest => if Ascii.eqb c "034" then readStringBody rest else None
  | EmptyString => None
  end.

(** The base64 text of a list of octets (RFC 4648, with padding): what
    [canvas.toDataURL] writes after the prefix of the data URL. *)
Definition encodeChar (v : Z) : ascii :=
  ascii_of_N
    (Z.to_N (if (v <? 26)%Z then v + 65
             else if (v <? 52)%Z then v + 71
             else if (v <? 62)%Z then v - 4
             else if (v =? 62)%Z then 43
             else 47)%Z).

Fixpoint base64Encode (bytes : list Z) : string :=
  match bytes with
  | b0 :: b1 :: b2 :: rest =>
      String (encodeChar (Z.shiftr b0 2))
        (String (encodeChar (Z.lor (Z.shiftl (Z.land b0 3) 4) (Z.shiftr b1 4)))
           (String (encodeChar
                      (Z.lor (Z.shiftl (Z.land b1 15) 2) (Z.shiftr b2 6)))
              (String (encodeChar (Z.land b2 63)) (base64Encode rest))))
  | [b0; b1] =>
      String (encodeChar (Z.shiftr b0 2))
        (String (encodeChar (Z.lor (Z.shiftl (Z.land b0 3) 4) (Z.shiftr b1 4)))
           (String (encodeChar (Z.shiftl (Z.land b1 15) 2)) "="))
  | [b0] =>
      String (encodeChar (Z.shiftr b0 2))
        (String (encodeChar (Z.shiftl (Z.land b0 3) 4)) "==")
  | [] => EmptyString
  end.

Definition isOctet (b : Z) : Prop := (0 <= b < 256)%Z.

(** The integers [0, 1, ..., n - 1]. *)
Definition below (n : nat) : list Z := map Z.of_nat (seq 0 n).

(** The template around the window header. *)
Definition isWindowHeader (f : Fragment) : bool :=
  match f with WindowHeader => true | _ => false end.

(** The decimal digit a character is. *)
Definition digitOf (c : ascii) : option (Decimal.uint -> Decimal.uint) :=
  if Ascii.eqb c "0" then Some Decimal.D0
  else if Ascii.eqb c "1" then Some Decimal.D1
  else if Ascii.eqb c "2" then Some Decimal.D2
  else if Ascii.eqb c "3" then Some Decimal.D3
  else if Ascii.eqb c "4" then Some Decimal.D4
  else if Ascii.eqb c "5" then Some Decimal.D5
  else if Ascii.eqb c "6" then Some Decimal.D6
  else if Ascii.eqb c "7" then Some Decimal.D7
  else if Ascii.eqb c "8" then Some Decimal.D8
  else if Ascii.eqb c "9" then Some Decimal.D9
  else None.

(** The longest run of digits at the head of a text, and what follows
    it. *)
Fixpoint readDigits (s : string) : Decimal.uint * string :=
  match s with
  | EmptyString => (Decimal.Nil, EmptyString)
  | String c rest =>
      match digitOf c with
      | Some d => let (ds, tail) := readDigits rest in (d ds, tail)
      | None => (Decimal.Nil, s)
      end
  end.

(** The number a reader sees at the head of a text: the value of its run
    of digits, if there is one. *)
Definition readNumber (s : string) : option (Z * string) :=
  match readDigits s with
  | (Decimal.Nil, _) => None
  | (ds, tail) => Some (Z.of_uint ds, tail)
  end.

(** How the gutter is read: a [line-number] element displays the number
    between its tags. *)
Definition readEntry (s : string) : option (Z * string) :=
  match Node.stripPrefix (q "<div class=`line-number`>") s with
  | Some rest =>
      match readNumber rest with
      | Some (n, tail) =>
          match Node.stripPrefix "</div>" tail with
          | Some after => Some (n, after)
          | None => None
          end
      | None => None
      end
  | None => None
  end.

(** The entries up to the closing tag of the gutter. *)
Fixpoint readEntries (fuel : nat) (s : string) : option (list Z) :=
  match fuel with
  | O => None
  | S fuel' =>
      if String.eqb s "</div>" then Some []
      else
        match readEntry s with
        | Some (n, rest) => option_map (cons n) (readEntries fuel' rest)
        | None => None
        end
  end.

(** The numbers a gutter displays, top to bottom: the [line-numbers]
    element around [line-number] elements and nothing else.  A text that is
    not such an element, the empty text for one, displays no gutter. *)
Definition readGutter (s : string) : option (list Z) :=
  match Node.stripPrefix (q "<div class=`line-numbers`>") s with
  | Some rest => readEntries (S (String.length rest)) rest
  | None => None
  end.

(** The host calls a run appends that are shown to the user. *)
Fixpoint countShown (log : list Event) : nat :=
  match log with
  | [] => O
  | ShowErrorMessage _ :: rest => S (countShown rest)
  | ShowInformationMessage _ :: rest => S (countShown rest)
  | _ :: rest => countShown rest
  end.

(** The four six-bit groups of three octets, as [base64Encode] cuts them. *)
Definition group0 (b0 : Z) : Z := Z.shiftr b0 2.
Definition group1 (b0 b1 : Z) : Z :=
  Z.lor (Z.shiftl (Z.land b0 3) 4) (Z.shiftr b1 4).
Definition group2 (b1 b2 : Z) : Z :=
  Z.lor (Z.shiftl (Z.land b1 15) 2) (Z.shiftr b2 6).
Definition group3 (b2 : Z) : Z := Z.land b2 63.

Definition inSextet (v : Z) : bool := (0 <=? v)%Z && (v <? 64)%Z.

(** ** A session: what the user does, one thing after the other *)

Inductive Action : Type :=
| RunCaptureSelection          (* the command codesnap.captureSelection *)
| RunCaptureFile               (* the command codesnap.captureFile *)
| ClosePanel                   (* the user closes the preview *)
| Post (message : Message).    (* the webview posts a message *)

(** One action; the second component counts the panels closed so far.  A
    panel can only be closed, and can only post, while it is open. *)
Definition runAction (lib : Shiki) (host : Host) (a : Action)
  (state : World lib * nat) : World lib * nat :=
  let (w, closed) := state in
  match a with
  | RunCaptureSelection => (fst (captureSelection lib host w), closed)
  | RunCaptureFile => (fst (captureFile lib host w), closed)
  | ClosePanel =>
      match currentPanel w with
      | Some _ => (fst (onDidDispose lib w), S closed)
      | None => (w, closed)
      end
  | Post message =>
      match currentPanel w with
      | Some _ => (fst (onDidReceiveMessage lib host message w), closed)
      | None => (w, closed)
      end
  end.

Definition runSession (lib : Shiki) (host : Host) (actions : list Action)
  (state : World lib * nat) : World lib * nat :=
  fold_left (fun s a => runAction lib host a s) actions state.

(** The panels created so far are the ones closed so far and, if a panel
    is open, that one. *)
Definition onePanel (lib : Shiki) (state : World lib * nat) : Prop :=
  countCreated (trace (fst state))
  = snd state + match currentPanel (fst state) with
                | Some _ => 1
                | None => 0
                end.

(** The characters [JSON.stringify] writes an escape for: the double
    quote, the backslash and the control characters. *)
Definition isJsonEscaped (c : ascii) : bool :=
  Ascii.eqb c "034" || Ascii.eqb c "\" || (Node.code c <? 32)%Z.

(** ** The earlier revision of the extension

    The second source file is an earlier revision of [extension.ts]: no
    highlighter, no policy declaration and no nonce; the document shows the
    escaped text itself; the message handler is registered again on every
    capture and its [save] branch writes no file.  Its [escapeHtml], its
    line-number gutter and the nested template of its window header are,
    character for character, the ones above and are reused here. *)

Module Legacy.

(** The interpolations of the template of [getWebviewContent]. *)
Inductive Fragment : Type :=
| Lit (text : string)
| BgColor                             (* ${bgColor} *)
| TextColor                           (* ${textColor} *)
| LineNumColor                        (* ${lineNumColor} *)
| IsDark (dark light : string)        (* ${isDark ? dark : light} *)
| Shadow (css : string)               (* ${shadow ? css : ''} *)
| WindowHeader                        (* ${windowControls ? ... : ''} *)
| Gutter                              (* ${showLineNumbers ? ... : ''} *)
| CodeHtml                            (* ${codeHtml} *)
| DownloadName.            (* ${fileName.replace(/\.[^/.]+$/, '')} *)

Definition documentTemplate : list Fragment :=
  [ Lit (q "<!DOCTYPE html>
<html>
<head>
  <meta charset=`UTF-8`>
  <meta name=`viewport` content=`width=device-width, initial-scale=1.0`>
  <script src=`https://cdnjs.cloudflare.com/ajax/libs/html2canvas/1.4.1/html2canvas.min.js`></script>
  <style>
    * {
      margin: 0;
      padding: 0;
      box-sizing: border-box;
    }

    body {
      padding: 40px;
      background: #0d1117;
      font-family: -apple-system, BlinkMacSystemFont, 'Segoe UI', Roboto, sans-serif;
      min-height: 100vh;
    }

    .toolbar {
      display: flex;
      gap: 12px;
      margin-bottom: 24px;
    }

    .btn {
      padding: 10px 20px;
      border: none;
      border-radius: 6px;
      cursor: pointer;
      font-size: 14px;
      font-weight: 500;
      transition: all 0.2s;
    }

    .btn-primary {
      background: #238636;
      color: white;
    }

    .btn-primary:hover {
      background: #2ea043;
    }

    .btn-secondary {
      background: #21262d;
      color: #c9d1d9;
      border: 1px solid #30363d;
    }

    .btn-secondary:hover {
      background: #30363d;
    }

    .preview-container {
      display: inline-block;
    }

    .code-container {
      display: inline-block;
      background: ");
    BgColor;
    Lit (q ";
      border-radius: 12px;
      overflow: hidden;
      ");
    Shadow "box-shadow: 0 20px 68px rgba(0,0,0,0.55);";
    Lit (q "
    }

    .window-header {
      padding: 12px 16px;
      background: ");
    IsDark "#2d2d2d" "#e8e8e8";
    Lit (q ";
      display: flex;
      align-items: center;
      gap: 8px;
    }

    .window-dot {
      width: 12px;
      height: 12px;
      border-radius: 50%;
    }

    .dot-red { background: #ff5f56; }
    .dot-yellow { background: #ffbd2e; }
    .dot-green { background: #27c93f; }

    .window-title {
      margin-left: 12px;
      color: ");
    IsDark "#999" "#666";
    Lit (q ";
      font-size: 13px;
    }

    .code-wrapper {
      display: flex;
      padding: 20px;
      font-family: 'SF Mono', Monaco, 'Cascadia Code', Menlo, Consolas, 'Liberation Mono', monospace;
      font-size: 14px;
      line-height: 1.5;
    }

    .line-numbers {
      padding-right: 20px;
      text-align: right;
      color: ");
    LineNumColor;
    Lit (q ";
      user-select: none;
      border-right: 1px solid ");
    IsDark "#333" "#ddd";
    Lit (q ";
      margin-right: 20px;
    }

    .line-number {
      height: 21px;
    }

    .code-content {
      color: ");
    TextColor;
    Lit (q ";
      white-space: pre;
      overflow-x: auto;
    }

    .hint {
      margin-top: 20px;
      color: #8b949e;
      font-size: 12px;
    }
  </style>
</head>
<body>
  <div class=`toolbar`>
    <button class=`btn btn-primary` onclick=`saveImage()`>💾 Save as PNG</button>
    <button class=`btn btn-secondary` onclick=`copyImage()`>📋 Copy to Clipboard</button>
  </div>

  <div class=`preview-container`>
    <div class=`code-container` id=`capture`>
      ");
    WindowHeader;
    Lit (q "
      <div class=`code-wrapper`>
        ");
    Gutter;
    Lit (q "
        <div class=`code-content`>");
    CodeHtml;
    Lit (q "</div>
      </div>
    </div>
  </div>

  <p class=`hint`>Tip: Adjust settings in VS Code Settings → Extensions → CodeSnap</p>

  <script>
    const vscode = acquireVsCodeApi();

    async function captureElement() {
      const element = document.getElementById('capture');
      const canvas = await html2canvas(element, {
        backgroundColor: null,
        scale: 2,
      });
      return canvas;
    }

    async function saveImage() {
      const canvas = await captureElement();
      const link = document.createElement('a');
      link.download = '");
    DownloadName;
    Lit (q "-codesnap.png';
      link.href = canvas.toDataURL('image/png');
      link.click();
    }

    async function copyImage() {
      try {
        const canvas = await captureElement();
        canvas.toBlob(async (blob) => {
          if (blob) {
            await navigator.clipboard.write([
              new ClipboardItem({ 'image/png': blob })
            ]);
            vscode.postMessage({ command: 'copy' });
          }
        });
      } catch (err) {
        console.error('Failed to copy:', err);
      }
    }
  </script>
</body>
</html>") ].

(** [getWebviewContent]; the parameter [language] is not used. *)
Definition renderFragment (code fileName : string) (startLine : Z)
  (theme : string) (showLineNumbers windowControls shadow : bool)
  (f : Fragment) : string :=
  let isDark := negb (String.eqb theme "light") in
  let bgColor := if isDark then "#1e1e1e" else "#ffffff" in
  let textColor := if isDark then "#d4d4d4" else "#333333" in
  let lineNumColor := if isDark then "#858585" else "#999999" in
  let codeHtml := escapeHtml code in
  match f with
  | Lit text => text
  | BgColor => bgColor
  | TextColor => textColor
  | LineNumColor => lineNumColor
  | IsDark dark light => if isDark then dark else light
  | Shadow css => if shadow then css else EmptyString
  | WindowHeader => windowHeader fileName windowControls
  | Gutter => gutterSlot code startLine showLineNumbers
  | CodeHtml => codeHtml
  | DownloadName => Node.stripExtension fileName
  end.

Definition render (code fileName : string) (startLine : Z) (theme : string)
  (showLineNumbers windowControls shadow : bool) (template : list Fragment)
  : string :=
  Js.join (map (renderFragment code fileName startLine theme showLineNumbers
                               windowControls shadow) template).

Definition getWebviewContent (code language fileName : string) (startLine : Z)
  (theme : string) (showLineNumbers windowControls shadow : bool) : string :=
  render code fileName startLine theme showLineNumbers windowControls shadow
         documentTemplate.

(** The panel and the handlers registered on its webview; a handler is
    the closure of the arrow function over the [fileName] of the capture
    that registered it. *)
Record Panel : Type := mkPanel {
  webviewHtml : string;
  handlers : list string
}.

Record World : Type := mkWorld {
  currentPanel : option Panel;
  trace : list Event
}.

Definition emit (e : Event) (w : World) : World :=
  mkWorld (currentPanel w) (trace w ++ [e]).

(** [showCodeSnapPanel]: reveal or create the panel, set the document,
    register one more message handler. *)
Definition showCodeSnapPanel (host : Host) (code language fileName : string)
  (startLine : Z) (w : World) : World :=
  let config := configuration host in
  let theme := get (cfgTheme config) "dark" in
  let showLineNumbers := get (cfgShowLineNumbers config) true in
  let windowControls := get (cfgWindowControls config) true in
  let shadow := get (cfgShadow config) true in
  let html :=
    getWebviewContent code language fileName startLine theme showLineNumbers
                      windowControls shadow in
  match currentPanel w with
  | Some panel =>
      mkWorld (Some (mkPanel html (handlers panel ++ [fileName])))
              (trace w ++ [RevealPanel])
  | None =>
      mkWorld (Some (mkPanel html [fileName]))
              (trace w ++ [CreateWebviewPanel])
  end.

Definition captureSelection (host : Host) (w : World) : World :=
  match activeTextEditor host with
  | None => emit (ShowErrorMessage "No active editor") w
  | Some editor =>
      if selectionIsEmpty editor
      then emit (ShowErrorMessage "No code selected. Select some code first.") w
      else
        showCodeSnapPanel host (selectionText editor) (languageId editor)
                          (basename host (documentFileName editor))
                          (Js.add (selectionStartLine editor) 1) w
  end.

Definition captureFile (host : Host) (w : World) : World :=
  match activeTextEditor host with
  | None => emit (ShowErrorMessage "No active editor") w
  | Some editor =>
      showCodeSnapPanel host (documentText editor) (languageId editor)
                        (basename host (documentFileName editor)) 1 w
  end.

(** One registered handler, on one message. *)
Definition onDidReceiveMessage (host : Host) (fileName : string)
  (message : Message) (w : World) : World :=
  if strictEq (command message) "copy"
  then emit (ShowInformationMessage "Screenshot copied to clipboard!") w
  else if strictEq (command message) "save"
  then
    let defaultUri := (Node.stripExtension fileName ++ "-codesnap.png")%string in
    let w' := emit (ShowSaveDialog defaultUri) w in
    match saveDialogAnswer host defaultUri with
    | Some uri =>
        emit (ShowInformationMessage ("Screenshot saved to " ++ uri)) w'
    | None => w'
    end
  else w.

(** A message posted by the webview reaches every handler registered on
    it, in the order of registration. *)
Definition postMessage (host : Host) (message : Message) (w : World) : World :=
  match currentPanel w with
  | Some panel =>
      fold_left (fun w' name => onDidReceiveMessage host name message w')
                (handlers panel) w
  | None => w
  end.

(** The captures of a session with the panel left open. *)
Fixpoint captureFiles (host : Host) (n : nat) (w : World) : World :=
  match n with
  | O => w
  | S n' => captureFiles host n' (captureFile host w)
  end.

Fixpoint countWritten (log : list Event) : nat :=
  match log with
  | [] => O
  | WriteFile _ _ :: rest => S (countWritten rest)
  | _ :: rest => countWritten rest
  end.

Definition isCodeHtml (f : Fragment) : bool :=
  match f with CodeHtml => true | _ => false end.

Fixpoint before (isIt : Fragment -> bool) (t : list Fragment)
  : list Fragment :=
  match t with
  | [] => []
  | f :: rest => if isIt f then [] else f :: before isIt rest
  end.

Fixpoint after (isIt : Fragment -> bool) (t : list Fragment)
  : list Fragment :=
  match t with
  | [] => []
  | f :: rest => if isIt f then rest else after isIt rest
  end.

End Legacy.

(** ** Further hosts to run the definitions on *)

Module Sample.

(** A user who dismisses the save dialog. *)
Definition cancellingHost : Host :=
  mkHost (Some Demo.editor) Demo.settings Demo.afterLastSlash
         (fun dir name => (dir ++ "/" ++ name)%string)
         "https://file.vscode-resource/html2canvas.min.js"
         "https://file.vscode-resource"
         (Some "/home/dev/project") "/home/dev"
         (fun _ => None)
         (fun _ _ => Returns tt)
         Demo.draws.

(** A file system that refuses the write. *)
Definition readOnlyHost : Host :=
  mkHost (Some Demo.editor) Demo.settings Demo.afterLastSlash
         (fun dir name => (dir ++ "/" ++ name)%string)
         "https://file.vscode-resource/html2canvas.min.js"
         "https://file.vscode-resource"
         (Some "/home/dev/project") "/home/dev"
         (fun _ => Some "/etc/shot.png")
         (fun _ _ => Throws "EACCES")
         Demo.draws.

Definition params : WebviewParams :=
  mkParams "<pre><code>x</code></pre>" "x" "a<b>.ts" 1 "dark" true false true
           "https://file.vscode-resource/html2canvas.min.js"
           "AAAAAAAAAAAAAAAAAAAAAAAAAAAAAAAA"
           "https://file.vscode-resource".

(** A text of three lines, numbered from the last start line whose
    successor is a double. *)
Definition threeLines : string :=
  "a" ++ String Js.nl ("b" ++ String Js.nl "c").

Definition lastExactParams : WebviewParams :=
  mkParams "<pre><code>a</code></pre>" threeLines "a.ts" (2 ^ 53 - 1) "dark"
           true true true
           "https://file.vscode-resource/html2canvas.min.js"
           "AAAAAAAAAAAAAAAAAAAAAAAAAAAAAAAA"
           "https://file.vscode-resource".
(** A highlighter that cannot load a language and yet lists it after the
    attempt, and a host whose random source always answers [0]. *)
Definition flakyShiki : Shiki :=
  mkShiki bool
    (Returns tt)
    (fun _ _ => Returns false)
    (fun h => Returns (if h : bool then ["cobol"] else []))
    (fun _ _ => (true, Throws "Language not found"))
    (fun _ code _ _ => Returns ("<pre>" ++ escapeHtml code ++ "</pre>")%string).

Definition constantHost : Host :=
  mkHost (Some Demo.cobolEditor) Demo.settings Demo.afterLastSlash
         (fun dir name => (dir ++ "/" ++ name)%string)
         "https://file.vscode-resource/html2canvas.min.js"
         "https://file.vscode-resource"
         (Some "/home/dev/project") "/home/dev"
         (fun _ => None)
         (fun _ _ => Returns tt)
         (fun _ => 0%Q).

End Sample.

(** * Properties *)

(** ** Strings *)

Lemma append_nil_r (s : string) : (s ++ "")%string = s.
Proof. induction s; simpl; congruence. Qed.

Lemma append_assoc (a b c : string) :
  ((a ++ b) ++ c)%string = (a ++ (b ++ c))%string.
Proof. induction a; simpl; congruence. Qed.

Lemma replaceAll_app (c : ascii) (r a b : string) :
  Js.replaceAll c r (a ++ b)
  = (Js.replaceAll c r a ++ Js.replaceAll c r b)%string.
Proof.
  induction a as [|x a IH]; simpl; [reflexivity|].
  destruct (Ascii.eqb x c); rewrite IH; simpl;
    [now rewrite append_assoc | reflexivity].
Qed.

Lemma escapeHtml_app (a b : string) :
  escapeHtml (a ++ b) = (escapeHtml a ++ escapeHtml b)%string.
Proof.
  unfold escapeHtml; cbv zeta.
  now rewrite !replaceAll_app.
Qed.

Lemma escapeHtml_one (c : ascii) :
  escapeHtml (String c EmptyString) = escapeChar c.
Proof.
  destruct c as [[] [] [] [] [] [] [] []]; reflexivity.
Qed.

Lemma escapeHtml_each (s : string) : escapeHtml s = escapeEach s.
Proof.
  induction s as [|c s IH]; [reflexivity|].
  change (String c s) with (String c EmptyString ++ s)%string.
  rewrite escapeHtml_app, escapeHtml_one, IH.
  reflexivity.
Qed.

(** Why the ampersand goes first: replaced last, it would escape the
    ampersands the other substitutions have just written. *)
Example ampersand_last_escapes_twice :
  Js.replaceAll "&" "&amp;" (Js.replaceAll "<" "&lt;" "a < b") = "a &amp;lt; b"
  /\ escapeHtml "a < b" = "a &lt; b".
Proof. split; reflexivity. Qed.

(** C1. [escapeHtml] applies the five substitutions one after the other,
    the ampersand first; the result is what one pass that rewrites each
    character by the table (ampersand, less-than, greater-than, double
    quote, single quote) gives, so no entity written by an earlier
    substitution is escaped again, and the text 5 > 3 && (dq)ok(dq) < 'yes'
    becomes 5 &gt; 3 &amp;&amp; &quot;ok&quot; &lt; &#039;yes&#039;. *)
Theorem escapeHtml_substitutions :
  (forall text,
      escapeHtml text
      = Js.replaceAll "'" "&#039;"
          (Js.replaceAll "034" "&quot;"
             (Js.replaceAll ">" "&gt;"
                (Js.replaceAll "<" "&lt;"
                   (Js.replaceAll "&" "&amp;" text)))))
  /\ (forall text, escapeHtml text = escapeEach text)
  /\ escapeHtml (q "5 > 3 && `ok` < 'yes'")
     = "5 &gt; 3 &amp;&amp; &quot;ok&quot; &lt; &#039;yes&#039;".
Proof.
  split; [reflexivity|].
  split; [exact escapeHtml_each|].
  reflexivity.
Qed.

Lemma length_append (a b : string) :
  String.length (a ++ b) = String.length a + String.length b.
Proof. induction a as [|c a IH]; simpl; [reflexivity | now rewrite IH]. Qed.

Lemma stripPrefix_app (prefix rest : string) :
  Node.stripPrefix prefix (prefix ++ rest) = Some rest.
Proof.
  induction prefix as [|c prefix IH]; [now destruct rest|].
  cbn [String.append Node.stripPrefix]. now rewrite Ascii.eqb_refl.
Qed.

(** ** Doubles *)

Lemma roundHalfEven_bounds (a b : Z) :
  (0 <= a)%Z -> (0 < b)%Z ->
  (0 <= Double.roundHalfEven a b)%Z
  /\ (2 * a - b <= 2 * b * Double.roundHalfEven a b <= 2 * a + b)%Z.
Proof.
  intros Ha Hb. unfold Double.roundHalfEven.
  pose proof (Z.div_mod a b ltac:(lia)) as Hdm.
  pose proof (Z.mod_pos_bound a b Hb) as Hm.
  pose proof (Z.div_pos a b Ha Hb) as Hq.
  set (fl := (a / b)%Z) in *. set (rem := (a mod b)%Z) in *.
  destruct (Z.ltb_spec (2 * rem) b); [split; nia|].
  destruct (Z.ltb_spec b (2 * rem)); [split; nia|].
  destruct (Z.even fl); split; nia.
Qed.

(** Rounding [a / b] keeps it between two integers it lies between. *)
Lemma roundHalfEven_between (a b lo hi : Z) :
  (0 <= a)%Z -> (0 < b)%Z ->
  (lo * b <= a)%Z -> (a <= hi * b)%Z ->
  (lo <= Double.roundHalfEven a b <= hi)%Z.
Proof.
  intros Ha Hb Hlo Hhi.
  destruct (roundHalfEven_bounds a b Ha Hb) as [_ [H1 H2]].
  set (m := Double.roundHalfEven a b) in *.
  split.
  - assert (b * (2 * lo - 1) <= b * (2 * m))%Z by nia.
    assert (2 * lo - 1 <= 2 * m)%Z by (apply (Z.mul_le_mono_pos_l _ _ b); lia).
    lia.
  - assert (b * (2 * m) <= b * (2 * hi + 1))%Z by nia.
    assert (2 * m <= 2 * hi + 1)%Z by (apply (Z.mul_le_mono_pos_l _ _ b); lia).
    lia.
Qed.

Lemma pow2_pred (k : Z) : (0 < k)%Z -> (2 ^ k = 2 ^ (k - 1) * 2)%Z.
Proof.
  intros Hk. replace k with (Z.succ (k - 1)) at 1 by lia.
  rewrite Z.pow_succ_r by lia. lia.
Qed.

Lemma pow2_split (a b : Z) :
  (0 <= a)%Z -> (0 <= b)%Z -> (2 ^ (a + b) = 2 ^ a * 2 ^ b)%Z.
Proof. intros. now apply Z.pow_add_r. Qed.

(** [floorLog2 n d] is the exponent of [n / d]: with [k] for it,
    [2^k <= n / d < 2^(k+1)]. *)
Lemma floorLog2_spec (n d : Z) :
  (0 < n)%Z -> (0 < d)%Z ->
  let k := Double.floorLog2 n d in
  (0 <= k -> d * 2 ^ k <= n < d * 2 ^ (k + 1))%Z
  /\ (k < 0 -> d <= n * 2 ^ (- k) /\ n * 2 ^ (- k - 1) < d)%Z.
Proof.
  intros Hn Hd. unfold Double.floorLog2.
  destruct (Z.log2_spec n Hn) as [Hn1 Hn2].
  destruct (Z.log2_spec d Hd) as [Hd1 Hd2].
  pose proof (Z.log2_nonneg n) as Ha. pose proof (Z.log2_nonneg d) as Hb.
  set (a := Z.log2 n) in *. set (b := Z.log2 d) in *.
  rewrite <- Z.add_1_r in Hn2, Hd2.
  assert (Hpa : (0 < 2 ^ a)%Z) by (apply Z.pow_pos_nonneg; lia).
  assert (Hpb : (0 < 2 ^ b)%Z) by (apply Z.pow_pos_nonneg; lia).
  destruct (Z.leb_spec 0 (a - b)) as [Hk|Hk].
  - assert (Ea : (2 ^ a = 2 ^ b * 2 ^ (a - b))%Z).
    { rewrite <- pow2_split by lia. f_equal. lia. }
    assert (Hp : (0 < 2 ^ (a - b))%Z) by (apply Z.pow_pos_nonneg; lia).
    destruct (Z.leb_spec (d * 2 ^ (a - b)) n) as [Ht|Ht]; cbv zeta.
    + split; [intros _|lia]. split; [exact Ht|].
      rewrite (pow2_split (a - b) 1) by lia. change (2 ^ 1)%Z with 2%Z.
      rewrite (pow2_split a 1) in Hn2 by lia. change (2 ^ 1)%Z with 2%Z in Hn2.
      nia.
    + split.
      * intros Hk1. replace (a - b - 1 + 1)%Z with (a - b)%Z by lia.
        split; [|exact Ht].
        assert (Ek : (2 ^ (a - b) = 2 ^ (a - b - 1) * 2)%Z).
        { apply pow2_pred. lia. }
        assert (0 < 2 ^ (a - b - 1))%Z by (apply Z.pow_pos_nonneg; lia).
        rewrite (pow2_split b 1) in Hd2 by lia.
        change (2 ^ 1)%Z with 2%Z in Hd2.
        nia.
      * intros Hk1. assert (E : (a - b = 0)%Z) by lia.
        replace (- (a - b - 1))%Z with 1%Z by lia.
        replace (- (a - b - 1) - 1)%Z with 0%Z by lia.
        rewrite E in *. change (2 ^ 0)%Z with 1%Z in *. change (2 ^ 1)%Z with 2%Z.
        rewrite (pow2_split b 1) in Hd2 by lia.
        change (2 ^ 1)%Z with 2%Z in Hd2.
        split; lia.
  - assert (Eb : (2 ^ b = 2 ^ a * 2 ^ (- (a - b)))%Z).
    { rewrite <- pow2_split by lia. f_equal. lia. }
    assert (Hp : (0 < 2 ^ (- (a - b)))%Z) by (apply Z.pow_pos_nonneg; lia).
    destruct (Z.leb_spec d (n * 2 ^ (- (a - b)))) as [Ht|Ht]; cbv zeta.
    + split; [lia|intros _]. split; [exact Ht|].
      assert (Ek : (2 ^ (- (a - b)) = 2 ^ (- (a - b) - 1) * 2)%Z).
      { apply pow2_pred. lia. }
      assert (0 < 2 ^ (- (a - b) - 1))%Z by (apply Z.pow_pos_nonneg; lia).
      rewrite (pow2_split a 1) in Hn2 by lia.
      change (2 ^ 1)%Z with 2%Z in Hn2.
      nia.
    + split; [lia|intros _].
      replace (- (a - b - 1) - 1)%Z with (- (a - b))%Z by lia.
      split; [|exact Ht].
      replace (- (a - b - 1))%Z with (- (a - b) + 1)%Z by lia.
      rewrite (pow2_split (- (a - b)) 1) by lia. change (2 ^ 1)%Z with 2%Z.
      rewrite (pow2_split b 1) in Hd2 by lia.
      change (2 ^ 1)%Z with 2%Z in Hd2.
      nia.
Qed.

(** [Double.nearest] rounds as binary64 does.  The result [m * 2^e] has a
    quantum [2^e] of at least [2^-1074] and a mantissa [m] of at most
    fifty-three bits, of exactly fifty-three bits (or the next power of
    two) above the least quantum, and it differs from [n / d] by at most
    half a quantum. *)
Lemma nearest_spec (n d : Z) :
  (0 < n)%Z -> (0 < d)%Z ->
  let m := fst (Double.nearest n d) in
  let e := snd (Double.nearest n d) in
  (-1074 <= e)%Z
  /\ (0 <= m <= 2 ^ 53)%Z
  /\ (-1074 < e -> 2 ^ 52 <= m)%Z
  /\ (0 <= e ->
      2 * n - d * 2 ^ e <= 2 * (d * 2 ^ e) * m <= 2 * n + d * 2 ^ e)%Z
  /\ (e < 0 ->
      2 * (n * 2 ^ (- e)) - d <= 2 * d * m <= 2 * (n * 2 ^ (- e)) + d)%Z.
Proof.
  intros Hn Hd.
  destruct (floorLog2_spec n d Hn Hd) as [Hpos Hneg].
  unfold Double.nearest. cbn [fst snd].
  unfold Double.precision, Double.leastExponent.
  set (k := Double.floorLog2 n d) in *.
  set (e := Z.max (k - (53 - 1)) (-1074)).
  assert (He : (-1074 <= e)%Z) by (unfold e; lia).
  destruct (Z.leb_spec 0 e) as [He0|He0].
  - assert (Ek : (k = e + 52)%Z) by (unfold e in *; lia).
    destruct (Hpos ltac:(lia)) as [Hlo Hhi].
    assert (Hp : (0 < 2 ^ e)%Z) by (apply Z.pow_pos_nonneg; lia).
    rewrite Ek in Hlo, Hhi.
    rewrite (pow2_split e 52) in Hlo by lia.
    replace (e + 52 + 1)%Z with (e + 53)%Z in Hhi by lia.
    rewrite (pow2_split e 53) in Hhi by lia.
    assert (Hb : (0 < d * 2 ^ e)%Z) by nia.
    destruct (roundHalfEven_bounds n (d * 2 ^ e) ltac:(lia) Hb) as [_ Hhalf].
    destruct (roundHalfEven_between n (d * 2 ^ e) (2 ^ 52) (2 ^ 53)
                ltac:(lia) Hb ltac:(nia) ltac:(nia)) as [Hm1 Hm2].
    split; [exact He|]. split; [lia|]. split; [intros _; exact Hm1|].
    split; [intros _; exact Hhalf | lia].
  - assert (Hp : (0 < 2 ^ (- e))%Z) by (apply Z.pow_pos_nonneg; lia).
    assert (Ha : (0 <= n * 2 ^ (- e))%Z) by nia.
    destruct (roundHalfEven_bounds (n * 2 ^ (- e)) d Ha Hd) as [Hm0 Hhalf].
    split; [exact He|].
    assert (Hupper : (n * 2 ^ (- e) <= 2 ^ 53 * d)%Z).
    { destruct (Z.leb_spec 0 k) as [Hk|Hk].
      - destruct (Hpos Hk) as [_ Hhi].
        assert (Ee : (- e = 52 - k)%Z) by (unfold e in *; lia).
        rewrite Ee.
        assert (E53 : (2 ^ 53 = 2 ^ (k + 1) * 2 ^ (52 - k))%Z).
        { rewrite <- pow2_split by lia. f_equal. lia. }
        assert (0 < 2 ^ (52 - k))%Z by (apply Z.pow_pos_nonneg; lia).
        rewrite E53. nia.
      - destruct (Hneg Hk) as [_ Hhi].
        assert (Hle : (- e <= (- k - 1) + 53)%Z) by (unfold e in *; lia).
        assert (Hmono : (2 ^ (- e) <= 2 ^ ((- k - 1) + 53))%Z)
          by (apply Z.pow_le_mono_r; lia).
        rewrite (pow2_split (- k - 1) 53) in Hmono by lia.
        assert (0 < 2 ^ (- k - 1))%Z by (apply Z.pow_pos_nonneg; lia).
        assert (n * 2 ^ (- e) <= n * (2 ^ (- k - 1) * 2 ^ 53))%Z
          by (apply Z.mul_le_mono_nonneg_l; lia).
        nia. }
    destruct (roundHalfEven_between (n * 2 ^ (- e)) d 0 (2 ^ 53)
                Ha Hd ltac:(lia) ltac:(lia)) as [_ Hm2].
    split; [lia|].
    split; [|split; [lia | intros _; exact Hhalf]].
    intros Hnormal.
    assert (Ee : (e = k - 52)%Z) by (unfold e in *; lia).
    apply (roundHalfEven_between (n * 2 ^ (- e)) d (2 ^ 52) (2 ^ 53) Ha Hd);
      [|lia].
    destruct (Z.leb_spec 0 k) as [Hk|Hk].
    + destruct (Hpos Hk) as [Hlo _].
      replace (- e)%Z with (52 - k)%Z by lia.
      assert (E52 : (2 ^ 52 = 2 ^ k * 2 ^ (52 - k))%Z).
      { rewrite <- pow2_split by lia. f_equal. lia. }
      assert (0 < 2 ^ (52 - k))%Z by (apply Z.pow_pos_nonneg; lia).
      rewrite E52. nia.
    + destruct (Hneg Hk) as [Hlo _].
      replace (- e)%Z with (- k + 52)%Z by lia.
      rewrite (pow2_split (- k) 52) by lia.
      nia.
Qed.

(** The arithmetic of doubles on examples: past [2^53] a sum is rounded
    to a double, the even one of two that are equally near, and from
    [1e21] a number is written with an exponent. *)
Lemma double_arithmetic_examples :
  Js.add 9007199254740991 1 = 9007199254740992%Z
  /\ Js.add 9007199254740991 2 = 9007199254740992%Z
  /\ Js.add 9007199254740992 3 = 9007199254740996%Z
  /\ Js.numberToString 9007199254740992 = "9007199254740992"
  /\ Js.numberToString 18446744073709551616 = "18446744073709552000"
  /\ Js.numberToString 1000000000000000000000 = "1e+21"
  /\ Js.numberToString 1180591620717411303424 = "1.1805916207174113e+21"
  /\ Js.numberToString 99999999999999991611392 = "1e+23".
Proof.
  split; [vm_compute; reflexivity|].
  split; [vm_compute; reflexivity|].
  split; [vm_compute; reflexivity|].
  split; [vm_compute; reflexivity|].
  split; [vm_compute; reflexivity|].
  split; [vm_compute; reflexivity|].
  split; vm_compute; reflexivity.
Qed.

(** ** The gutter *)

Lemma split_not_nil (sep : ascii) (s : string) : Js.split sep s <> [].
Proof.
  destruct s as [|a s]; simpl; [discriminate|].
  destruct (Ascii.eqb a sep); [discriminate|].
  destruct (Js.split sep s); discriminate.
Qed.

Lemma length_split_newlines (s : string) :
  length (Js.split Js.nl s) = lineCount s.
Proof.
  unfold lineCount.
  induction s as [|a s IH]; simpl; [reflexivity|].
  destruct (Ascii.eqb a Js.nl); simpl; [now rewrite IH|].
  destruct (Js.split Js.nl s) eqn:E; simpl in *; [discriminate IH | exact IH].
Qed.

Lemma split_app_newline (s : string) :
  Js.split Js.nl (s ++ String Js.nl EmptyString)
  = Js.split Js.nl s ++ [EmptyString].
Proof.
  induction s as [|a s IH]; [reflexivity|].
  simpl. rewrite IH.
  destruct (Ascii.eqb a Js.nl); [reflexivity|].
  pose proof (split_not_nil Js.nl s) as Hne.
  destruct (Js.split Js.nl s); [contradiction | reflexivity].
Qed.

Lemma countNewlines_app (a b : string) :
  countNewlines (a ++ b) = countNewlines a + countNewlines b.
Proof.
  induction a as [|c a IH]; simpl; [reflexivity|].
  destruct (Ascii.eqb c Js.nl); simpl; now rewrite IH.
Qed.

Lemma length_consecutive (start : Z) (n : nat) :
  length (consecutive start n) = n.
Proof.
  revert start; induction n as [|n IH]; intros start; simpl;
    [reflexivity | now rewrite IH].
Qed.

Lemma consecutive_snoc (start : Z) (n : nat) :
  consecutive start (S n) = consecutive start n ++ [(start + Z.of_nat n)%Z].
Proof.
  revert start; induction n as [|n IH]; intros start.
  - simpl. now rewrite Z.add_0_r.
  - change (consecutive start (S (S n)))
      with (start :: consecutive (start + 1) (S n)).
    rewrite IH. simpl. do 3 f_equal. lia.
Qed.

Lemma mapi_from_offsets {A : Type} (g : Z -> string) (xs : list A) (i : nat) :
  Js.mapi_from i (fun _ k => g (Z.of_nat k)) xs
  = map g (consecutive (Z.of_nat i) (length xs)).
Proof.
  revert i; induction xs as [|x xs IH]; intros i; simpl; [reflexivity|].
  rewrite IH. do 3 f_equal. lia.
Qed.

(** The entries of the gutter, one for each offset [0], [1], ... of a line
    in the text. *)
Lemma lineNumberEntries_offsets (code : string) (startLine : Z) :
  lineNumberEntries code startLine
  = map (fun i => lineNumberEntry (Js.add startLine i))
        (consecutive 0 (lineCount code)).
Proof.
  unfold lineNumberEntries, Js.mapi.
  rewrite (mapi_from_offsets (fun i => lineNumberEntry (Js.add startLine i))).
  now rewrite length_split_newlines.
Qed.

(** An addition whose result is at most [2^53] in size is exact. *)
Lemma add_exact (a b : Z) :
  (Z.abs (a + b) <= 2 ^ 53)%Z -> Js.add a b = (a + b)%Z.
Proof.
  intros H. unfold Js.add, Double.nearestInteger, Double.precision.
  now rewrite (proj2 (Z.leb_le _ _) H).
Qed.

Lemma map_add_consecutive (g : Z -> string) (startLine offset : Z) (n : nat) :
  (0 <= startLine + offset)%Z ->
  (startLine + offset + Z.of_nat n - 1 <= 2 ^ 53)%Z ->
  map (fun i => g (Js.add startLine i)) (consecutive offset n)
  = map g (consecutive (startLine + offset) n).
Proof.
  revert offset; induction n as [|n IH]; intros offset Hlo Hhi;
    [reflexivity|].
  cbn [consecutive map].
  rewrite add_exact by lia.
  rewrite IH by lia.
  now rewrite Z.add_assoc.
Qed.

Lemma lineNumberEntries_consecutive (code : string) (startLine : Z) :
  (0 <= startLine)%Z ->
  (startLine + Z.of_nat (lineCount code) - 1 <= 2 ^ 53)%Z ->
  lineNumberEntries code startLine
  = map lineNumberEntry (consecutive startLine (lineCount code)).
Proof.
  intros Hlo Hhi.
  rewrite lineNumberEntries_offsets.
  rewrite (map_add_consecutive lineNumberEntry) by lia.
  now rewrite Z.add_0_r.
Qed.

(** *** Reading the gutter back *)

Definition noDigitAhead (s : string) : Prop :=
  match s with
  | EmptyString => True
  | String c _ => digitOf c = None
  end.

Lemma readDigits_string_of_uint (d : Decimal.uint) (tail : string) :
  noDigitAhead tail ->
  readDigits (NilEmpty.string_of_uint d ++ tail) = (d, tail).
Proof.
  intros Htail.
  induction d as [|d IH|d IH|d IH|d IH|d IH|d IH|d IH|d IH|d IH|d IH];
    cbn [NilEmpty.string_of_uint String.append readDigits];
    try (change (digitOf _) with (Some Decimal.D0)
         || change (digitOf _) with (Some Decimal.D1)
         || change (digitOf _) with (Some Decimal.D2)
         || change (digitOf _) with (Some Decimal.D3)
         || change (digitOf _) with (Some Decimal.D4)
         || change (digitOf _) with (Some Decimal.D5)
         || change (digitOf _) with (Some Decimal.D6)
         || change (digitOf _) with (Some Decimal.D7)
         || change (digitOf _) with (Some Decimal.D8)
         || change (digitOf _) with (Some Decimal.D9));
    try (rewrite IH; reflexivity).
  destruct tail as [|c tail]; [reflexivity|].
  cbn [readDigits]. cbn in Htail. now rewrite Htail.
Qed.

(** The decimal of a natural number reads back as the number. *)
Lemma readNumber_decimal (n : Z) (tail : string) :
  (0 <= n)%Z -> noDigitAhead tail ->
  readNumber (Double.decimal n ++ tail) = Some (n, tail).
Proof.
  intros Hn Htail. unfold readNumber, Double.decimal.
  pose proof (DecimalZ.of_to n) as Hround.
  destruct n as [|p|p]; [| |lia].
  - cbn. destruct tail as [|c tail]; [reflexivity|].
    cbn in Htail. cbn. now rewrite Htail.
  - cbn [Z.to_int NilEmpty.string_of_int] in *.
    rewrite readDigits_string_of_uint by exact Htail.
    cbn [Z.of_int] in Hround. rewrite Hround.
    pose proof (DecimalPos.Unsigned.to_uint_nonnil p) as Hnil.
    destruct (Pos.to_uint p); [contradiction| reflexivity ..].
Qed.

Lemma numberToString_decimal (n : Z) :
  (0 <= n <= 2 ^ 53)%Z -> Js.numberToString n = Double.decimal n.
Proof.
  intros H. unfold Js.numberToString, Double.toString, Double.precision.
  now rewrite (proj2 (Z.leb_le (Z.abs n) (2 ^ 53)) ltac:(lia)).
Qed.

(** What an entry is made of. *)
Lemma lineNumberEntry_text (n : Z) :
  lineNumberEntry n
  = (q "<div class=`line-number`>" ++ Js.numberToString n ++ "</div>")%string.
Proof. reflexivity. Qed.

Lemma readEntry_lineNumberEntry (n : Z) (rest : string) :
  (0 <= n <= 2 ^ 53)%Z ->
  readEntry (lineNumberEntry n ++ rest) = Some (n, rest).
Proof.
  intros Hn. unfold readEntry.
  rewrite lineNumberEntry_text, numberToString_decimal by exact Hn.
  rewrite !append_assoc, stripPrefix_app.
  rewrite readNumber_decimal; [|lia|reflexivity].
  now rewrite stripPrefix_app.
Qed.

Lemma lineNumberEntry_not_closing (n : Z) (rest : string) :
  String.eqb (lineNumberEntry n ++ rest) "</div>" = false.
Proof. reflexivity. Qed.

Lemma readEntries_entries (numbers : list Z) :
  forall fuel,
    length numbers < fuel ->
    Forall (fun n => (0 <= n <= 2 ^ 53)%Z) numbers ->
    readEntries fuel (Js.join (map lineNumberEntry numbers) ++ "</div>")
    = Some numbers.
Proof.
  induction numbers as [|n numbers IH]; intros [|fuel] Hfuel Hall;
    try (cbn in Hfuel; lia); [reflexivity|].
  cbn [map Js.join fold_right readEntries].
  rewrite append_assoc, lineNumberEntry_not_closing.
  rewrite readEntry_lineNumberEntry by now inversion Hall.
  change (fold_right String.append EmptyString (map lineNumberEntry numbers))
    with (Js.join (map lineNumberEntry numbers)).
  rewrite IH; [reflexivity | cbn in Hfuel; lia | now inversion Hall].
Qed.

Lemma length_join_entries (numbers : list Z) :
  length numbers <= String.length (Js.join (map lineNumberEntry numbers)).
Proof.
  induction numbers as [|n numbers IH]; [reflexivity|].
  cbn [map Js.join fold_right length].
  rewrite length_append.
  change (fold_right String.append EmptyString (map lineNumberEntry numbers))
    with (Js.join (map lineNumberEntry numbers)).
  rewrite lineNumberEntry_text, !length_append.
  change (String.length (q "<div class=`line-number`>")) with 25.
  lia.
Qed.

(** The gutter element around the entries of numbers up to [2^53] reads
    back as these numbers. *)
Lemma readGutter_entries (numbers : list Z) :
  Forall (fun n => (0 <= n <= 2 ^ 53)%Z) numbers ->
  readGutter (q "<div class=`line-numbers`>"
                ++ Js.join (map lineNumberEntry numbers) ++ "</div>")
  = Some numbers.
Proof.
  intros Hall. unfold readGutter.
  rewrite stripPrefix_app.
  apply readEntries_entries; [|exact Hall].
  rewrite length_append. pose proof (length_join_entries numbers). lia.
Qed.

Lemma consecutive_bounds (start : Z) (n : nat) (lo hi : Z) :
  (lo <= start)%Z -> (start + Z.of_nat n - 1 <= hi)%Z ->
  Forall (fun k => (lo <= k <= hi)%Z) (consecutive start n).
Proof.
  revert start; induction n as [|n IH]; intros start Hlo Hhi;
    [constructor|].
  cbn [consecutive]. constructor; [lia|]. apply IH; lia.
Qed.

(** With line numbers switched on, the gutter of a text reads back as the
    consecutive numbers from the start line, one for each line, as long as
    these stay in the range where the additions are exact. *)
Lemma readGutter_gutterSlot (code : string) (startLine : Z) :
  (0 <= startLine)%Z ->
  (startLine + Z.of_nat (lineCount code) - 1 <= 2 ^ 53)%Z ->
  readGutter (gutterSlot code startLine true)
  = Some (consecutive startLine (lineCount code)).
Proof.
  intros Hlo Hhi.
  unfold gutterSlot, lineNumbersHtml.
  rewrite lineNumberEntries_consecutive by assumption.
  apply readGutter_entries.
  apply consecutive_bounds; lia.
Qed.

Lemma join_app (xs ys : list string) :
  Js.join (xs ++ ys) = (Js.join xs ++ Js.join ys)%string.
Proof.
  induction xs as [|x xs IH]; simpl; [reflexivity|].
  now rewrite IH, append_assoc.
Qed.

Lemma render_app (p : WebviewParams) (a b : list Fragment) :
  render p (a ++ b) = (render p a ++ render p b)%string.
Proof. unfold render. now rewrite map_app, join_app. Qed.

Lemma render_cons (p : WebviewParams) (f : Fragment) (t : list Fragment) :
  render p (f :: t) = (renderFragment p f ++ render p t)%string.
Proof. reflexivity. Qed.

Lemma template_around_gutter :
  documentTemplate
  = beforeFragment isGutter documentTemplate
      ++ Gutter :: afterFragment isGutter documentTemplate.
Proof. vm_compute. reflexivity. Qed.

Lemma document_around_gutter (p : WebviewParams) :
  buildWebviewHtml p
  = (render p (beforeFragment isGutter documentTemplate)
       ++ gutterSlot (p_code p) (p_startLine p) (p_showLineNumbers p)
       ++ render p (afterFragment isGutter documentTemplate))%string.
Proof.
  unfold buildWebviewHtml.
  transitivity
    (render p (beforeFragment isGutter documentTemplate
                 ++ Gutter :: afterFragment isGutter documentTemplate)).
  - f_equal; exact template_around_gutter.
  - now rewrite render_app, render_cons.
Qed.

Lemma gutterSlot_on (code : string) (startLine : Z) :
  gutterSlot code startLine true
  = (q "<div class=`line-numbers`>"
       ++ Js.join (lineNumberEntries code startLine) ++ "</div>")%string.
Proof. reflexivity. Qed.

Lemma lineNumberEntry_decimal (numbers : list Z) :
  Forall (fun n => (0 <= n <= 2 ^ 53)%Z) numbers ->
  Forall
    (fun n =>
       lineNumberEntry n
       = (q "<div class=`line-number`>" ++ Double.decimal n ++ "</div>")%string)
    numbers.
Proof.
  intros Hall. apply Forall_impl with (2 := Hall).
  intros n Hn. now rewrite lineNumberEntry_text, numberToString_decimal.
Qed.

(** C3, as the code has it.  The composed document holds the gutter at
    the one place the template interpolates it.  For a non-empty text and
    a positive start line such that the last line number,
    [startLine + lineCount text - 1], is at most [2^53], with line numbers
    switched on the gutter is the [line-numbers] element around exactly
    [lineCount text] entries, each the [line-number] element around the
    decimal digits of its number, and a reader of the gutter sees
    [startLine], [startLine + 1], ..., [startLine + lineCount text - 1];
    with line numbers switched off nothing is written at that place. *)
Theorem gutter_lists_consecutive_line_numbers (p : WebviewParams) :
  p_code p <> EmptyString ->
  (0 < p_startLine p)%Z ->
  (p_startLine p + Z.of_nat (lineCount (p_code p)) - 1 <= 2 ^ 53)%Z ->
  let gutter :=
    gutterSlot (p_code p) (p_startLine p) (p_showLineNumbers p) in
  let numbers := consecutive (p_startLine p) (lineCount (p_code p)) in
  buildWebviewHtml p
  = (render p (beforeFragment isGutter documentTemplate)
       ++ gutter
       ++ render p (afterFragment isGutter documentTemplate))%string
  /\ existsb isGutter (beforeFragment isGutter documentTemplate) = false
  /\ existsb isGutter (afterFragment isGutter documentTemplate) = false
  /\ (p_showLineNumbers p = true ->
      readGutter gutter = Some numbers
      /\ length numbers = lineCount (p_code p)
      /\ gutter
         = (q "<div class=`line-numbers`>"
              ++ Js.join (map lineNumberEntry numbers) ++ "</div>")%string
      /\ Forall
           (fun n =>
              lineNumberEntry n
              = (q "<div class=`line-number`>" ++ Double.decimal n
                   ++ "</div>")%string)
           numbers)
  /\ (p_showLineNumbers p = false ->
      gutter = EmptyString /\ readGutter gutter = None).
Proof.
  intros _ Hpos Hexact gutter numbers.
  split; [apply document_around_gutter|].
  split; [vm_compute; reflexivity|].
  split; [vm_compute; reflexivity|].
  split.
  - intros Hon. subst gutter numbers. rewrite Hon.
    split; [apply readGutter_gutterSlot; lia|].
    split; [apply length_consecutive|].
    split.
    + rewrite gutterSlot_on.
      now rewrite lineNumberEntries_consecutive by lia.
    + apply lineNumberEntry_decimal, consecutive_bounds; lia.
  - intros Hoff. subst gutter. rewrite Hoff. split; reflexivity.
Qed.

Lemma gutter_lists_consecutive_line_numbers_witness :
  p_code Demo.params <> EmptyString
  /\ (0 < p_startLine Demo.params)%Z
  /\ (p_startLine Demo.params + Z.of_nat (lineCount (p_code Demo.params)) - 1
      <= 2 ^ 53)%Z
  /\ readGutter (gutterSlot (p_code Demo.params) (p_startLine Demo.params)
                            (p_showLineNumbers Demo.params))
     = Some [10%Z].
Proof.
  assert (Hne : p_code Demo.params <> EmptyString) by discriminate.
  assert (Hpos : (0 < p_startLine Demo.params)%Z) by reflexivity.
  assert (Hexact : (p_startLine Demo.params
                    + Z.of_nat (lineCount (p_code Demo.params)) - 1
                    <= 2 ^ 53)%Z) by (vm_compute; discriminate).
  split; [exact Hne|].
  split; [exact Hpos|].
  split; [exact Hexact|].
  destruct (gutter_lists_consecutive_line_numbers Demo.params Hne Hpos Hexact)
    as (_ & _ & _ & Hon & _).
  destruct (Hon eq_refl) as (Hread & _).
  exact Hread.
Defined.

(** C3, as stated, fails for a start line past the range in which the
    additions of the code are exact: from the start line [2^53 - 1] the
    three lines of a text are numbered 9007199254740991, 9007199254740992
    and 9007199254740992 again, because [startLine + 2] is not a double and
    rounds to its even neighbour. *)
Lemma gutter_repeats_a_number_past_2_53 :
  let p := Sample.lastExactParams in
  let gutter := gutterSlot (p_code p) (p_startLine p) (p_showLineNumbers p) in
  p_code p <> EmptyString
  /\ (0 < p_startLine p)%Z
  /\ p_showLineNumbers p = true
  /\ lineCount (p_code p) = 3
  /\ buildWebviewHtml p
     = (render p (beforeFragment isGutter documentTemplate)
          ++ gutter
          ++ render p (afterFragment isGutter documentTemplate))%string
  /\ gutter
     = q "<div class=`line-numbers`><div class=`line-number`>9007199254740991</div><div class=`line-number`>9007199254740992</div><div class=`line-number`>9007199254740992</div></div>"
  /\ readGutter gutter
     = Some [9007199254740991; 9007199254740992; 9007199254740992]%Z
  /\ consecutive (p_startLine p) (lineCount (p_code p))
     = [9007199254740991; 9007199254740992; 9007199254740993]%Z
  /\ readGutter gutter
     <> Some (consecutive (p_startLine p) (lineCount (p_code p))).
Proof.
  cbv zeta.
  split; [discriminate|].
  split; [reflexivity|].
  split; [reflexivity|].
  split; [reflexivity|].
  split; [apply document_around_gutter|].
  split; [vm_compute; reflexivity|].
  split; [vm_compute; reflexivity|].
  split; [vm_compute; reflexivity|].
  vm_compute. discriminate.
Qed.

(** C9.  With line numbers switched on the gutter has one entry more than
    the text has line feeds, whatever the text and the start line, and the
    composed document holds it.  Where the line numbers stay in the range
    of exact additions a reader of the gutter sees one number for each
    entry: for the empty text the single number [startLine], written in
    decimal digits, and for a text with a line feed appended the numbers
    of the text before it followed by one more.  For every start line, the
    entry of the empty text displays [startLine + 0] and a line feed
    appended to a text adds one entry after those of the text. *)
Theorem gutter_entries_one_more_than_newlines :
  (forall code startLine,
      length (lineNumberEntries code startLine) = S (countNewlines code)
      /\ gutterSlot code startLine true
         = (q "<div class=`line-numbers`>"
              ++ Js.join (lineNumberEntries code startLine) ++ "</div>")%string)
  /\ (forall p,
         p_showLineNumbers p = true ->
         (0 <= p_startLine p)%Z ->
         (p_startLine p + Z.of_nat (countNewlines (p_code p)) <= 2 ^ 53)%Z ->
         exists numbers,
           buildWebviewHtml p
           = (render p (beforeFragment isGutter documentTemplate)
                ++ gutterSlot (p_code p) (p_startLine p) true
                ++ render p (afterFragment isGutter documentTemplate))%string
           /\ readGutter (gutterSlot (p_code p) (p_startLine p) true)
              = Some numbers
           /\ length numbers = S (countNewlines (p_code p)))
  /\ (forall startLine,
         (0 <= startLine <= 2 ^ 53)%Z ->
         readGutter (gutterSlot EmptyString startLine true) = Some [startLine]
         /\ gutterSlot EmptyString startLine true
            = (q "<div class=`line-numbers`><div class=`line-number`>"
                 ++ Double.decimal startLine ++ "</div></div>")%string)
  /\ (forall code startLine,
         (0 <= startLine)%Z ->
         (startLine + Z.of_nat (S (countNewlines code)) <= 2 ^ 53)%Z ->
         exists numbers,
           readGutter (gutterSlot code startLine true) = Some numbers
           /\ length numbers = S (countNewlines code)
           /\ readGutter
                (gutterSlot (code ++ String Js.nl EmptyString) startLine true)
              = Some (numbers
                        ++ [(startLine + Z.of_nat (S (countNewlines code)))%Z]))
  /\ (forall startLine,
         lineNumberEntries EmptyString startLine
         = [lineNumberEntry (Js.add startLine 0)])
  /\ (forall code startLine,
         lineNumberEntries (code ++ String Js.nl EmptyString) startLine
         = lineNumberEntries code startLine
             ++ [lineNumberEntry
                   (Js.add startLine (Z.of_nat (S (countNewlines code))))]).
Proof.
  split; [|split; [|split; [|split; [|split]]]].
  - intros code startLine. split; [|reflexivity].
    now rewrite lineNumberEntries_offsets, length_map, length_consecutive.
  - intros p Hon Hlo Hhi.
    exists (consecutive (p_startLine p) (lineCount (p_code p))).
    split.
    { pose proof (document_around_gutter p) as Hdoc.
      rewrite Hon in Hdoc. exact Hdoc. }
    split; [apply readGutter_gutterSlot; unfold lineCount; lia|].
    apply length_consecutive.
  - intros startLine Hrange.
    split.
    + now rewrite readGutter_gutterSlot by (cbn; lia).
    + rewrite gutterSlot_on, lineNumberEntries_consecutive by (cbn; lia).
      cbn [lineCount countNewlines consecutive map Js.join fold_right].
      rewrite lineNumberEntry_text, numberToString_decimal by lia.
      now rewrite append_nil_r, !append_assoc.
  - intros code startLine Hlo Hhi.
    exists (consecutive startLine (lineCount code)).
    split; [apply readGutter_gutterSlot; unfold lineCount; lia|].
    split; [apply length_consecutive|].
    assert (Hcount : lineCount (code ++ String Js.nl EmptyString)
                     = S (lineCount code)).
    { unfold lineCount. rewrite countNewlines_app. cbn. lia. }
    rewrite readGutter_gutterSlot by (rewrite ?Hcount; unfold lineCount; lia).
    rewrite Hcount, consecutive_snoc. reflexivity.
  - intros startLine. reflexivity.
  - intros code startLine.
    rewrite !lineNumberEntries_offsets.
    assert (Hcount : lineCount (code ++ String Js.nl EmptyString)
                     = S (lineCount code)).
    { unfold lineCount. rewrite countNewlines_app. cbn. lia. }
    rewrite Hcount, consecutive_snoc, map_app.
    cbn [map]. now rewrite Z.add_0_l.
Qed.

Lemma gutter_entries_one_more_than_newlines_witness :
  readGutter (gutterSlot EmptyString 7 true) = Some [7%Z]
  /\ readGutter (gutterSlot (String Js.nl EmptyString) 7 true) = Some [7; 8]%Z.
Proof.
  destruct gutter_entries_one_more_than_newlines
    as (_ & _ & Hempty & Hsnoc & _).
  split.
  - apply Hempty. lia.
  - destruct (Hsnoc EmptyString 7%Z ltac:(lia) ltac:(cbn; lia))
      as (numbers & Hread & _ & Hafter).
    rewrite (proj1 (Hempty 7%Z ltac:(lia))) in Hread.
    injection Hread as <-. exact Hafter.
Defined.

(** ** The theme table *)

Lemma includes_false_cons (x y : string) (ys : list string) :
  includes x (y :: ys) = false ->
  String.eqb y x = false /\ includes x ys = false.
Proof. simpl. apply orb_false_elim. Qed.

(** A name that is neither a row of the table nor a member of
    [Object.prototype] resolves to the dark row. *)
Lemma resolveConfig_unrecognized (theme : string) :
  includes theme themeNames = false ->
  includes theme objectPrototypeMembers = false ->
  resolveConfig theme = PTheme darkTheme.
Proof.
  intros Hrow Hproto.
  unfold themeNames in Hrow.
  repeat (apply includes_false_cons in Hrow; destruct Hrow as [? Hrow]).
  assert (Hown : ownProperty theme themeConfigs = None).
  { unfold themeConfigs; cbn [ownProperty].
    repeat match goal with
           | H : String.eqb _ theme = false |- _ => rewrite H; clear H
           end.
    reflexivity. }
  unfold resolveConfig, getProperty.
  now rewrite Hown, Hproto.
Qed.

(** A name of the table resolves to a row of the table. *)
Lemma resolveConfig_recognized (theme : string) :
  includes theme themeNames = true ->
  exists c, resolveConfig theme = PTheme c /\ In (theme, c) themeConfigs.
Proof.
  unfold themeNames; cbn [includes].
  rewrite !orb_true_iff, !String.eqb_eq.
  intros [<- | [<- | [<- | [<- | [<- | H]]]]]; try discriminate;
    eexists; (split; [reflexivity | simpl; tauto]).
Qed.

Example resolveConfig_solarized : resolveConfig "solarized" = PTheme darkTheme.
Proof. reflexivity. Qed.

(** C4. The theme [constructor] is not one of the five names, yet the
    lookup does not give the dark profile: the property read finds the
    member of that name that the table inherits from [Object.prototype],
    which is truthy, so the fallback is not taken and the colours read from
    the result are [undefined]. *)
Theorem resolveConfig_constructor_is_not_dark :
  includes "constructor" themeNames = false
  /\ resolveConfig "constructor" = PInherited "constructor"
  /\ resolveConfig "constructor" <> PTheme darkTheme
  /\ (forall c, In c (map snd themeConfigs) ->
                resolveConfig "constructor" <> PTheme c)
  /\ interpolate (readField bg (resolveConfig "constructor")) = "undefined".
Proof.
  split; [reflexivity|].
  split; [reflexivity|].
  split; [discriminate|].
  split; [intros c _; discriminate | reflexivity].
Qed.

(** ** The highlighter *)

(** One step of a case analysis on what the library answers. *)
Ltac case_step :=
  match goal with
  | |- context [match ?x with _ => _ end] =>
      lazymatch x with
      | requireShiki _ => destruct x as [[]|?] eqn:?
      | createHighlighter _ _ _ => destruct x eqn:?
      | getLoadedLanguages _ _ => destruct x eqn:?
      | includes _ _ => destruct x eqn:?
      | loadLanguage _ _ _ => destruct x as [? [[]|?]] eqn:?
      | codeToHtml _ _ _ _ _ => destruct x eqn:?
      | _ => is_var x; destruct x
      end
  end.

Ltac run :=
  unfold getHighlightedHtml, ensureHighlighter, loadIfMissing, tryCatch, bind,
    call, ret, emit, setHighlighter, setPanel;
  cbn [fst snd currentPanel shikiHighlighter randomCalls trace].

(** [getHighlightedHtml] returns, touches only the memoized highlighter and
    logs at most one console error. *)
Lemma getHighlightedHtml_returns (lib : Shiki) (w : World lib)
  (code language themeName : string) :
  exists hl log html,
    getHighlightedHtml lib code language themeName w
    = (mkWorld (currentPanel w) hl (randomCalls w) (trace w ++ log),
       Returns html)
    /\ countCreated log = 0 /\ countRevealed log = 0.
Proof.
  destruct w as [panel hl rc tr].
  run.
  repeat (case_step; run);
    first
      [ eexists _, [], _; rewrite app_nil_r; repeat split; reflexivity
      | eexists _, [_], _; repeat split; reflexivity ].
Qed.

(** Bring what is known about the library's answers together. *)
Ltac use_facts :=
  repeat match goal with
    | H : ?x = ?x |- _ => clear H
    | H : Some _ = Some _ |- _ => injection H as H; subst
    | H : Returns _ = Returns _ |- _ => injection H as H; subst
    | H : (_, _) = (_, _) |- _ => injection H as ? ?; subst
    | H1 : ?t = _, H2 : context [?t] |- _ =>
        lazymatch t with
        | loadLanguage _ _ _ => idtac
        | includes _ _ => idtac
        | getLoadedLanguages _ _ => idtac
        | createHighlighter _ _ _ => idtac
        end;
        rewrite H1 in H2; cbn [fst snd] in H2
    end.

Lemma getHighlightedHtml_failure (lib : Shiki) (w : World lib)
  (code language themeName : string) :
  HighlightFailure lib w code language themeName ->
  snd (getHighlightedHtml lib code language themeName w)
  = Returns (plainCodeBlock code).
Proof.
  destruct w as [panel hl rc tr].
  intros [err Hreq | err Hnone Hcreate | h err Huse Hlist
         | h langs err Huse Hlist Hmiss Hload | h langs err Huse Hlist Hrender];
    try (destruct Huse as [Huse | [Huse Hcreate]]);
    cbn [shikiHighlighter] in *; try subst hl;
    run; repeat (case_step; run); try reflexivity;
    try discriminate; use_facts; congruence.
Qed.

Lemma plainCodeBlock_not_empty (code : string) :
  plainCodeBlock code <> EmptyString.
Proof. discriminate. Qed.

(** C2. Whatever the text, the language tag and the theme name, and
    whatever the library does, [getHighlightedHtml] returns markup and does
    not throw.  When the library cannot be loaded, the highlighter cannot
    be created, it cannot list its languages, it cannot load the requested
    language, or it fails on the text, the markup returned is the escaped
    text inside a [pre] and [code] block, which is never empty. *)
Theorem getHighlightedHtml_falls_back (lib : Shiki) (w : World lib)
  (code language themeName : string) :
  (exists html,
      snd (getHighlightedHtml lib code language themeName w) = Returns html)
  /\ (HighlightFailure lib w code language themeName ->
      snd (getHighlightedHtml lib code language themeName w)
      = Returns (plainCodeBlock code))
  /\ plainCodeBlock code
     = (q "<pre style=`margin:0`><code>" ++ escapeHtml code
          ++ "</code></pre>")%string
  /\ plainCodeBlock code <> EmptyString.
Proof.
  split; [|split; [|split]].
  - destruct (getHighlightedHtml_returns lib w code language themeName)
      as (hl & log & html & Hrun & _).
    exists html. rewrite Hrun. reflexivity.
  - apply getHighlightedHtml_failure.
  - unfold plainCodeBlock. reflexivity.
  - apply plainCodeBlock_not_empty.
Qed.

Lemma demo_cobol_cannot_load :
  HighlightFailure Demo.shiki Demo.world0 "DISPLAY 'A < B'." "cobol" "dark".
Proof.
  apply (LoadFails Demo.shiki Demo.world0 _ _ _ initialLangs initialLangs
                   "Language not found").
  - right. split; reflexivity.
  - reflexivity.
  - reflexivity.
  - reflexivity.
Qed.

Lemma getHighlightedHtml_falls_back_witness :
  HighlightFailure Demo.shiki Demo.world0 "DISPLAY 'A < B'." "cobol" "dark"
  /\ snd (getHighlightedHtml Demo.shiki "DISPLAY 'A < B'." "cobol" "dark"
                             Demo.world0)
     = Returns (plainCodeBlock "DISPLAY 'A < B'.").
Proof.
  split; [exact demo_cobol_cannot_load|].
  exact (proj1 (proj2 (getHighlightedHtml_falls_back
                         Demo.shiki Demo.world0 "DISPLAY 'A < B'." "cobol" "dark"))
               demo_cobol_cannot_load).
Defined.

(** ** The nonce *)

Section Nonce.

Context (lib : Shiki) (host : Host).

Lemma getNonceLoop_draws (n : nat) :
  forall (text : string) (w : World lib),
    getNonceLoop lib host n text w
    = (mkWorld (currentPanel w) (shikiHighlighter w) (randomCalls w + n)
               (trace w),
       Returns
         (text ++ Js.join
            (map (fun i =>
                    possibleCharAt (randomIndex (random host (randomCalls w + i))))
                 (seq 0 n)))%string).
Proof.
  induction n as [|n IH]; intros text w.
  - destruct w; cbn. now rewrite Nat.add_0_r, append_nil_r.
  - cbn [getNonceLoop]. unfold bind, mathRandom.
    rewrite IH. cbn [currentPanel shikiHighlighter randomCalls trace].
    change (seq 0 (S n)) with (0 :: seq 1 n).
    rewrite <- seq_shift. cbn [map Js.join fold_right].
    rewrite map_map.
    rewrite Nat.add_0_r, append_assoc.
    replace (S (randomCalls w) + n) with (randomCalls w + S n) by lia.
    do 4 f_equal. unfold Js.join. f_equal.
    apply map_ext. intros i.
    now replace (S (randomCalls w) + i) with (randomCalls w + S i) by lia.
Qed.

(** [getNonce] consumes thirty-two draws and returns the token made of
    them. *)
Lemma getNonce_draws (w : World lib) :
  getNonce lib host w
  = (mkWorld (currentPanel w) (shikiHighlighter w) (randomCalls w + 32)
             (trace w),
     Returns (nonceAt host (randomCalls w))).
Proof. unfold getNonce. now rewrite getNonceLoop_draws. Qed.

End Nonce.

(** *** The rounded product of a draw and the size of the alphabet *)

Lemma floorLog2_below_64 (n d : Z) :
  (0 < n)%Z -> (0 < d)%Z -> (n < 64 * d)%Z -> (Double.floorLog2 n d <= 5)%Z.
Proof.
  intros Hn Hd H. unfold Double.floorLog2.
  assert (Hk : (Z.log2 n - Z.log2 d <= 6)%Z).
  { pose proof (Z.log2_le_mono n (d * 2 ^ 6) ltac:(lia)) as Hle.
    rewrite Z.log2_mul_pow2 in Hle by lia. lia. }
  set (k := (Z.log2 n - Z.log2 d)%Z) in *.
  destruct (Z.eq_dec k 6) as [E|E].
  - rewrite E. change (0 <=? 6)%Z with true. cbv iota.
    destruct (Z.leb_spec (d * 2 ^ 6) n); lia.
  - destruct (if (0 <=? k)%Z then _ else _); lia.
Qed.

(** Below 64 the quantum of a double is at most [2^-47]: the double
    nearest to [n / d] is [m / P] for a power of two [P] from [2^47] on,
    with [m] the integer nearest to [n * P / d]. *)
Lemma nearest_below_64 (n d : Z) :
  (0 < n)%Z -> (0 < d)%Z -> (n < 64 * d)%Z ->
  let m := fst (Double.nearest n d) in
  let P := (2 ^ (- snd (Double.nearest n d)))%Z in
  (2 ^ 47 <= P)%Z
  /\ Double.floor (Double.nearest n d) = (m / P)%Z
  /\ (0 <= m)%Z
  /\ (2 * (n * P) - d <= 2 * d * m <= 2 * (n * P) + d)%Z.
Proof.
  intros Hn Hd H.
  pose proof (floorLog2_below_64 n d Hn Hd H) as Hk.
  unfold Double.nearest, Double.floor. cbn [fst snd].
  set (e := Z.max _ _).
  assert (He : (e <= -47 /\ -1074 <= e)%Z).
  { unfold e, Double.precision, Double.leastExponent. lia. }
  destruct (Z.leb_spec 0 e); [lia|].
  assert (HP : (2 ^ 47 <= 2 ^ (- e))%Z) by (apply Z.pow_le_mono_r; lia).
  pose proof (roundHalfEven_bounds (n * 2 ^ (- e)) d ltac:(nia) Hd)
    as [Hr0 Hr1].
  split; [exact HP|]. split.
  - replace e with (- (- e))%Z at 2 by lia.
    rewrite Z.shiftl_opp_r, Z.shiftr_div_pow2 by lia. reflexivity.
  - split; [exact Hr0|exact Hr1].
Qed.

(** Rounding moves the floor of a number below 64 by at most one, and
    only upwards. *)
Lemma floor_nearest_below_64 (n d : Z) :
  (0 < n)%Z -> (0 < d)%Z -> (n < 64 * d)%Z ->
  (n / d <= Double.floor (Double.nearest n d) <= n / d + 1)%Z.
Proof.
  intros Hn Hd H.
  destruct (nearest_below_64 n d Hn Hd H) as (HP & -> & Hm & Hlo & Hhi).
  set (m := fst (Double.nearest n d)) in *.
  set (P := (2 ^ (- snd (Double.nearest n d)))%Z) in *.
  pose proof (Z.div_mod n d ltac:(lia)) as Hdm.
  pose proof (Z.mod_pos_bound n d Hd) as Hr.
  set (q := (n / d)%Z) in *. set (r := (n mod d)%Z) in *.
  assert (0 < P)%Z by lia.
  split.
  - apply Z.div_le_lower_bound; [lia|].
    assert (0 <= r * P)%Z by nia.
    assert (d * (2 * (q * P) - 1) <= d * (2 * m))%Z by nia.
    assert (2 * (q * P) - 1 <= 2 * m)%Z
      by (apply (Z.mul_le_mono_pos_l _ _ d); lia).
    rewrite (Z.mul_comm P q). lia.
  - assert (r * P <= (d - 1) * P)%Z by (apply Z.mul_le_mono_nonneg_r; lia).
    assert (d * (2 * m) <= d * (2 * ((q + 1) * P) + 1))%Z by nia.
    assert (2 * m <= 2 * ((q + 1) * P) + 1)%Z
      by (apply (Z.mul_le_mono_pos_l _ _ d); lia).
    assert (m <= (q + 1) * P)%Z by lia.
    assert (m / P <= ((q + 1) * P) / P)%Z by (apply Z.div_le_mono; lia).
    rewrite Z.div_mul in *; lia.
Qed.

(** The product of 62 and a double below 1 is at most [62 - 62 / 2^53]; it
    rounds to a double below 62. *)
Lemma floor_nearest_below_62 (n d : Z) :
  (0 < n)%Z -> (0 < d)%Z -> (n * 2 ^ 53 <= 62 * (2 ^ 53 - 1) * d)%Z ->
  (Double.floor (Double.nearest n d) < 62)%Z.
Proof.
  intros Hn Hd H.
  destruct (nearest_below_64 n d Hn Hd ltac:(lia)) as (HP & -> & Hm & Hlo & Hhi).
  set (m := fst (Double.nearest n d)) in *.
  set (P := (2 ^ (- snd (Double.nearest n d)))%Z) in *.
  assert (0 < P)%Z by lia.
  apply Z.div_lt_upper_bound; [lia|].
  assert (2 ^ 53 * (2 * d * m) <= 2 ^ 53 * (2 * (n * P) + d))%Z by lia.
  assert (2 * P * (n * 2 ^ 53) <= 2 * P * (62 * (2 ^ 53 - 1) * d))%Z by
    (apply Z.mul_le_mono_nonneg_l; lia).
  change (2 ^ 53)%Z with 9007199254740992%Z in *.
  change (2 ^ 47)%Z with 140737488355328%Z in *.
  nia.
Qed.

(** A double below 1 is at most [1 - 2^-53]. *)
Lemma unitDouble_bound (r : Q) :
  isUnitDouble r ->
  (0 <= Qnum r)%Z
  /\ (Qnum r * 2 ^ 53 <= (2 ^ 53 - 1) * Zpos (Qden r))%Z.
Proof.
  intros (m & e & Hm & He & Heq & Hlt).
  unfold Qeq in Heq. unfold Qlt in Hlt. cbn [Qnum Qden] in Heq, Hlt.
  assert (Hpow : (0 < 2 ^ e)%Z) by (apply Z.pow_pos_nonneg; lia).
  rewrite Z2Pos.id in Heq by exact Hpow.
  set (N := Qnum r) in *. set (D := Zpos (Qden r)) in *.
  assert (HD : (0 < D)%Z) by reflexivity.
  assert (HN : (0 <= N)%Z) by nia.
  split; [exact HN|].
  assert (Hme : (m < 2 ^ e)%Z) by nia.
  destruct (Z.le_gt_cases e 53) as [Hsmall|Hlarge].
  - assert (Hsplit : (2 ^ 53 = 2 ^ e * 2 ^ (53 - e))%Z).
    { rewrite <- Z.pow_add_r by lia. f_equal. lia. }
    assert (Hs : (0 < 2 ^ (53 - e))%Z) by (apply Z.pow_pos_nonneg; lia).
    assert (Hint : (m * 2 ^ (53 - e) <= 2 ^ 53 - 1)%Z).
    { assert (m * 2 ^ (53 - e) < 2 ^ e * 2 ^ (53 - e))%Z
        by (apply Z.mul_lt_mono_pos_r; lia).
      lia. }
    replace (N * 2 ^ 53)%Z with (m * 2 ^ (53 - e) * D)%Z
      by (rewrite Hsplit; nia).
    apply Z.mul_le_mono_nonneg_r; lia.
  - assert (Hsplit : (2 ^ e = 2 ^ 54 * 2 ^ (e - 54))%Z).
    { rewrite <- Z.pow_add_r by lia. f_equal. lia. }
    assert (Hs : (0 < 2 ^ (e - 54))%Z) by (apply Z.pow_pos_nonneg; lia).
    assert (Hhalf : (N * 2 ^ 54 <= N * 2 ^ e)%Z).
    { apply Z.mul_le_mono_nonneg_l; [lia|]. rewrite Hsplit. nia. }
    assert (Hbelow : (N * 2 ^ e < 2 ^ 53 * D)%Z).
    { rewrite Heq. apply Z.mul_lt_mono_pos_r; lia. }
    change (2 ^ 53)%Z with 9007199254740992%Z in *.
    change (2 ^ 54)%Z with 18014398509481984%Z in *.
    lia.
Qed.

Lemma randomIndex_nearest (n d : positive) :
  randomIndex (Qmake (Zpos n) d)
  = Double.floor (Double.nearest (Zpos (n * 62)) (Zpos (d * 1))).
Proof. reflexivity. Qed.

(** The index [getNonce] computes from a draw is in the range of the
    alphabet; it is the floor of the exact product of the draw and 62, or
    one more where the product rounds up to the next integer. *)
Lemma randomIndex_spec (r : Q) :
  isUnitDouble r ->
  (0 <= randomIndex r < 62)%Z
  /\ (Qfloor (r * inject_Z 62) <= randomIndex r
      <= Qfloor (r * inject_Z 62) + 1)%Z.
Proof.
  intros Hr. destruct (unitDouble_bound r Hr) as [Hlo Hhi].
  destruct r as [[|n|n] d]; cbn [Qnum Qden] in Hlo, Hhi; [| |lia].
  - split; [split; [reflexivity|reflexivity]|]. split; discriminate.
  - rewrite randomIndex_nearest.
    change (Qfloor (Qmake (Zpos n) d * inject_Z 62))
      with (Zpos (n * 62) / Zpos (d * 1))%Z.
    assert (Hlt : (Zpos (n * 62) < 64 * Zpos (d * 1))%Z) by lia.
    pose proof (floor_nearest_below_64 (Zpos (n * 62)) (Zpos (d * 1))
                  (Pos2Z.is_pos _) (Pos2Z.is_pos _) Hlt) as Hfloor.
    pose proof (floor_nearest_below_62 (Zpos (n * 62)) (Zpos (d * 1))
                  (Pos2Z.is_pos _) (Pos2Z.is_pos _) ltac:(lia)) as Hupper.
    assert (0 <= Zpos (n * 62) / Zpos (d * 1))%Z
      by (apply Z.div_pos; lia).
    lia.
Qed.

Lemma randomIndex_in_range (r : Q) :
  isUnitDouble r -> (0 <= randomIndex r < 62)%Z.
Proof. intros Hr. exact (proj1 (randomIndex_spec r Hr)). Qed.

Lemma possible_charAt_all :
  forallb
    (fun n =>
       match Js.charAt possible n with
       | String c EmptyString => allIn possible (String c EmptyString)
       | _ => false
       end)
    (seq 0 62)
  = true.
Proof. vm_compute. reflexivity. Qed.

Lemma possibleCharAt_one (i : Z) :
  (0 <= i < 62)%Z ->
  exists c, possibleCharAt i = String c EmptyString
            /\ allIn possible (String c EmptyString) = true.
Proof.
  intros Hi.
  unfold possibleCharAt.
  replace (i <? 0)%Z with false by (symmetry; apply Z.ltb_ge; lia).
  assert (Hin : In (Z.to_nat i) (seq 0 62)) by (apply in_seq; lia).
  pose proof (proj1 (forallb_forall _ _) possible_charAt_all _ Hin) as Hc.
  cbv beta in Hc.
  destruct (Js.charAt possible (Z.to_nat i)) as [|c [|]]; try discriminate.
  exists c. split; [reflexivity | exact Hc].
Qed.

Lemma allIn_app (alphabet a b : string) :
  allIn alphabet a = true -> allIn alphabet b = true ->
  allIn alphabet (a ++ b) = true.
Proof.
  induction a as [|c a IH]; simpl; [easy|].
  destruct (String.index 0 (String c EmptyString) alphabet); [exact IH | discriminate].
Qed.

Lemma join_chars (host : Host) (f : nat -> nat) (l : list nat) :
  randomInRange host ->
  let token :=
    Js.join (map (fun i => possibleCharAt (randomIndex (random host (f i)))) l) in
  String.length token = length l /\ allIn possible token = true.
Proof.
  intros Hrange. cbv zeta. unfold Js.join.
  induction l as [|i l [IHlen IHin]]; [split; reflexivity|].
  cbn [map fold_right length].
  destruct (possibleCharAt_one _ (randomIndex_in_range _ (Hrange (f i))))
    as (c & -> & Hc).
  split.
  - cbn [String.append String.length]. now rewrite IHlen.
  - apply allIn_app; assumption.
Qed.

(** A token drawn from values of [Math.random] has thirty-two characters
    of the alphabet. *)
Lemma nonceAt_shape (host : Host) (k : nat) :
  randomInRange host ->
  String.length (nonceAt host k) = 32
  /\ allIn possible (nonceAt host k) = true.
Proof.
  intros Hrange.
  exact (join_chars host (fun i => k + i) (seq 0 32) Hrange).
Qed.

(** ** [showCodeSnapPanel] *)

Lemma showCodeSnapPanel_runs (lib : Shiki) (host : Host) (w : World lib)
  (code language fileName : string) (startLine : Z) :
  exists hl log html,
    getHighlightedHtml lib code language
                       (get (cfgTheme (configuration host)) "dark") w
    = (mkWorld (currentPanel w) hl (randomCalls w) (trace w ++ log),
       Returns html)
    /\ countCreated log = 0 /\ countRevealed log = 0
    /\ showCodeSnapPanel lib host code language fileName startLine w
       = (mkWorld
            (Some (mkPanel
               (buildWebviewHtml
                  (paramsOf host html code fileName startLine
                            (nonceAt host (randomCalls w))))))
            hl (randomCalls w + 32)
            (trace w ++ log ++ [panelEvent lib w]),
          Returns tt).
Proof.
  destruct (getHighlightedHtml_returns lib w code language
              (get (cfgTheme (configuration host)) "dark"))
    as (hl & log & html & Hrun & Hcreated & Hrevealed).
  exists hl, log, html.
  repeat (split; [assumption|]).
  unfold showCodeSnapPanel; cbv zeta.
  unfold bind at 1. rewrite Hrun.
  unfold bind at 1. unfold panelEvent.
  cbn [currentPanel].
  destruct (currentPanel w) as [panel|].
  - unfold emit. cbn [currentPanel shikiHighlighter randomCalls trace].
    unfold bind. rewrite getNonce_draws.
    unfold setPanel. cbn [currentPanel shikiHighlighter randomCalls trace].
    now rewrite <- app_assoc.
  - unfold bind, emit, setPanel.
    cbn [currentPanel shikiHighlighter randomCalls trace].
    rewrite getNonce_draws.
    cbn [currentPanel shikiHighlighter randomCalls trace].
    now rewrite <- app_assoc.
Qed.

Lemma showCodeSnapPanel_shows (lib : Shiki) (host : Host) (w : World lib)
  (code language fileName : string) (startLine : Z) :
  let w' := fst (showCodeSnapPanel lib host code language fileName startLine w) in
  randomCalls w' = randomCalls w + 32
  /\ exists html,
       shownHtml lib w'
       = Some (buildWebviewHtml
                 (paramsOf host html code fileName startLine
                           (nonceAt host (randomCalls w)))).
Proof.
  destruct (showCodeSnapPanel_runs lib host w code language fileName startLine)
    as (hl & log & html & _ & _ & _ & Hshow).
  cbv zeta. rewrite Hshow.
  unfold shownHtml. cbn [fst currentPanel randomCalls webviewHtml].
  split; [reflexivity|].
  exists html. reflexivity.
Qed.

Lemma buildWebviewHtml_renders (p : WebviewParams) :
  buildWebviewHtml p = render p documentTemplate.
Proof. reflexivity. Qed.

Lemma get_join_chars (g : nat -> string) (l : list nat) :
  (forall i, In i l -> exists c, g i = String c EmptyString) ->
  forall j, j < length l ->
    String.get j (Js.join (map g l)) = String.get 0 (g (nth j l 0)).
Proof.
  induction l as [|i l IH]; intros Hone j Hj; [cbn in Hj; lia|].
  cbn [map Js.join fold_right].
  destruct (Hone i (or_introl eq_refl)) as (c & Hc).
  destruct j as [|j].
  - cbn [nth]. rewrite Hc. reflexivity.
  - cbn [nth]. rewrite Hc. cbn [String.append String.get].
    apply IH; [|cbn in Hj; lia].
    intros k Hk. apply Hone. now right.
Qed.

Lemma get_possibleCharAt (i : Z) :
  (0 <= i)%Z ->
  String.get 0 (possibleCharAt i) = String.get (Z.to_nat i) possible.
Proof.
  intros Hi. unfold possibleCharAt, Js.charAt.
  replace (i <? 0)%Z with false by (symmetry; apply Z.ltb_ge; lia).
  destruct (String.get (Z.to_nat i) possible); reflexivity.
Qed.

(** Every character of a token is the character of the alphabet at the
    index computed from its own draw. *)
Lemma nonceAt_characters (host : Host) (k : nat) :
  randomInRange host ->
  forall i, i < 32 ->
    String.get i (nonceAt host k)
    = String.get (Z.to_nat (randomIndex (random host (k + i)))) possible.
Proof.
  intros Hrange i Hi. unfold nonceAt.
  rewrite (get_join_chars
             (fun i => possibleCharAt (randomIndex (random host (k + i))))).
  - rewrite seq_nth by exact Hi. cbn [Nat.add].
    apply get_possibleCharAt.
    apply (randomIndex_in_range _ (Hrange (k + i))).
  - intros j _.
    destruct (possibleCharAt_one _ (randomIndex_in_range _ (Hrange (k + j))))
      as (c & Hc & _).
    exists c. exact Hc.
  - now rewrite length_seq.
Qed.

(** C7, as the code has it.  Each run of [showCodeSnapPanel] draws
    thirty-two fresh values from the random source and composes the
    document with the token made of them: thirty-two characters, each the
    character of the alphabet at the index [Math.floor] gives for the
    product of its own draw and 62.  That index is the floor of the exact
    product or, where the double product rounds up to the next integer, one
    more; the next run takes the next thirty-two draws.  In the template
    the [script-src] directive of the policy declaration and both script
    elements (the one that loads the bundled library and the inline one)
    carry that token.  The style element carries no token: the policy
    admits inline styles by ['unsafe-inline'].  Read as a browser reads it,
    the policy is [default-src 'none'] with [script-src] the token and the
    source of the webview: it lets run a script element that carries the
    token and a script file of that source, and no inline script without
    the token; the template has two script elements, which carry it, and
    two [onclick] attributes, which cannot. *)
Theorem nonce_shared_by_policy_and_scripts (lib : Shiki) (host : Host)
  (w : World lib) (code language fileName : string) (startLine : Z) :
  randomInRange host ->
  let token := nonceAt host (randomCalls w) in
  let w' := fst (showCodeSnapPanel lib host code language fileName startLine w) in
  let w'' :=
    fst (showCodeSnapPanel lib host code language fileName startLine w') in
  let policy := policyOf (symbols documentTemplate) in
  (randomCalls w' = randomCalls w + 32
   /\ String.length token = 32
   /\ allIn possible token = true
   /\ (forall i, i < 32 ->
         let r := random host (randomCalls w + i) in
         String.get i token = String.get (Z.to_nat (randomIndex r)) possible
         /\ (0 <= randomIndex r < 62)%Z
         /\ (Qfloor (r * inject_Z 62) <= randomIndex r
             <= Qfloor (r * inject_Z 62) + 1)%Z)
   /\ (exists p, shownHtml lib w' = Some (buildWebviewHtml p)
                 /\ p_nonce p = token)
   /\ (exists p, shownHtml lib w'' = Some (buildWebviewHtml p)
                 /\ p_nonce p = nonceAt host (randomCalls w + 32))
   /\ (randomIndex (4648877034705028 # 9007199254740992) = 32%Z
       /\ Qfloor ((4648877034705028 # 9007199254740992) * inject_Z 62) = 31%Z))
  /\ ((forall p, buildWebviewHtml p = render p documentTemplate
                 /\ renderFragment p Nonce = p_nonce p)
      /\ scriptSrcCarriesNonce (symbols documentTemplate) = true
      /\ tagOpenings "<script" (symbols documentTemplate) = [true; true]
      /\ tagOpenings "<style" (symbols documentTemplate) = [false]
      /\ styleSrcIsUnsafeInline (symbols documentTemplate) = true)
  /\ (policy
      = Some [ ("default-src", [NoneSource]);
               ("script-src", [NonceSource; CspSourceHost]);
               ("style-src", [UnsafeInline]);
               ("img-src", [DataScheme]) ]
      /\ option_map scriptSources policy
         = Some (Some [NonceSource; CspSourceHost])
      /\ option_map (fun p => admitsTokenScripts (scriptSources p)) policy
         = Some true
      /\ option_map (fun p => admitsUntaggedInline (scriptSources p)) policy
         = Some false
      /\ option_map (fun p => hostsAdmitted (scriptSources p)) policy
         = Some (Some [CspSourceHost])
      /\ countOccurrences "<script" (symbols documentTemplate) = 2
      /\ countOccurrences (q " onclick=`") (symbols documentTemplate) = 2).
Proof.
  intros Hrange token w' w'' policy.
  destruct (showCodeSnapPanel_shows lib host w code language fileName startLine)
    as (Hcalls & html & Hshown).
  destruct (showCodeSnapPanel_shows lib host w' code language fileName startLine)
    as (_ & html' & Hshown').
  destruct (nonceAt_shape host (randomCalls w) Hrange) as (Hlen & Halpha).
  split; [|split].
  - split; [exact Hcalls|].
    split; [exact Hlen|].
    split; [exact Halpha|].
    split.
    { intros i Hi r.
      split; [exact (nonceAt_characters host (randomCalls w) Hrange i Hi)|].
      exact (randomIndex_spec r (Hrange (randomCalls w + i))). }
    split.
    { eexists. split; [exact Hshown | reflexivity]. }
    split.
    { eexists. split; [exact Hshown'|].
      cbn [p_nonce paramsOf]. f_equal. exact Hcalls. }
    split; vm_compute; reflexivity.
  - split.
    { intros p. split; [apply buildWebviewHtml_renders | reflexivity]. }
    split; [vm_compute; reflexivity|].
    split; [vm_compute; reflexivity|].
    split; vm_compute; reflexivity.
  - subst policy.
    split; [vm_compute; reflexivity|].
    split; [vm_compute; reflexivity|].
    split; [vm_compute; reflexivity|].
    split; [vm_compute; reflexivity|].
    split; [vm_compute; reflexivity|].
    split; vm_compute; reflexivity.
Qed.

Lemma demo_randomInRange : randomInRange Demo.host.
Proof.
  intros k. cbn. unfold Demo.draws.
  destruct (Nat.ltb k 32).
  - exists 0%Z, 0%Z. repeat split; lia || discriminate || reflexivity.
  - exists 1%Z, 1%Z. repeat split; lia || discriminate || reflexivity.
Qed.

Lemma nonce_shared_by_policy_and_scripts_witness :
  randomInRange Demo.host
  /\ String.length (nonceAt Demo.host 0) = 32
  /\ String.get 0 (nonceAt Demo.host 0) = String.get 0 possible
  /\ tagOpenings "<style" (symbols documentTemplate) = [false].
Proof.
  split; [exact demo_randomInRange|].
  pose proof (nonce_shared_by_policy_and_scripts
                Demo.shiki Demo.host Demo.world0 "const x = 1;" "typescript"
                "main.ts" 1 demo_randomInRange) as H.
  cbv zeta in H.
  destruct H as ((_ & Hlen & _ & Hchars & _) & (_ & _ & _ & Hstyle & _) & _).
  split; [exact Hlen|].
  split; [|exact Hstyle].
  exact (proj1 (Hchars 0 (Nat.lt_0_succ 31))).
Defined.

(** C7, as stated, fails on the document the first capture of the demo
    composes: its policy and its script elements carry the token, its style
    element does not, and the [onclick] attributes of its two buttons hold
    script without one. *)
Lemma style_fragment_carries_no_token :
  let w' := fst (captureFile Demo.shiki Demo.host Demo.world0) in
  let token := nonceAt Demo.host 0 in
  option_map (tokenShared token) (shownHtml Demo.shiki w') = Some false
  /\ option_map (openingsTagged "<script" token) (shownHtml Demo.shiki w')
     = Some true
  /\ option_map (openingsTagged "<style" token) (shownHtml Demo.shiki w')
     = Some false
  /\ option_map (contains "<style>") (shownHtml Demo.shiki w') = Some true
  /\ option_map (contains (q "<button class=`btn btn-primary` onclick=`saveImage()`>"))
                 (shownHtml Demo.shiki w')
     = Some true
  /\ option_map (contains (q "<button class=`btn btn-secondary` onclick=`copyImage()`>"))
                 (shownHtml Demo.shiki w')
     = Some true.
Proof.
  cbv zeta.
  split; [vm_compute; reflexivity|].
  split; [vm_compute; reflexivity|].
  split; [vm_compute; reflexivity|].
  split; [vm_compute; reflexivity|].
  split; vm_compute; reflexivity.
Qed.

(** ** Two captures in a row *)

(** One step of the run of [getHighlightedHtml]: an answer of the library
    that is already known is used, an unknown one is split into its cases. *)
Ltac known_step :=
  match goal with
  | H : ?t = _ |- context [?t] =>
      lazymatch t with
      | requireShiki _ => idtac
      | createHighlighter _ _ _ => idtac
      | getLoadedLanguages _ _ => idtac
      | includes _ _ => idtac
      | loadLanguage _ _ _ => idtac
      | codeToHtml _ _ _ _ _ => idtac
      end;
      rewrite H
  end.

(** Under [loadsConsistently], highlighting the same text again, from the
    highlighter the first run left, gives the same markup and leaves the
    highlighter as it is. *)
Lemma getHighlightedHtml_again (lib : Shiki) (w : World lib)
  (code language themeName : string) :
  loadsConsistently lib ->
  exists hl log html,
    getHighlightedHtml lib code language themeName w
    = (mkWorld (currentPanel w) hl (randomCalls w) (trace w ++ log),
       Returns html)
    /\ forall panel calls events,
        getHighlightedHtml lib code language themeName
                           (mkWorld panel hl calls events)
        = (mkWorld panel hl calls (events ++ log), Returns html).
Proof.
  intros [Hloaded Hfailed].
  destruct w as [panel hl rc tr].
  run; repeat (case_step; run);
    try match goal with
        | H : loadLanguage _ _ _ = (_, Returns tt) |- _ =>
            destruct (Hloaded _ _ _ H) as (? & ? & ?)
        | H : loadLanguage _ _ _ = (_, Throws _) |- _ =>
            pose proof (Hfailed _ _ _ _ H); subst
        end;
    first
      [ eexists _, [], _; split;
        [ rewrite app_nil_r; reflexivity
        | intros; run; repeat (known_step; run);
          rewrite app_nil_r; reflexivity ]
      | eexists _, [_], _; split;
        [ reflexivity
        | intros; run; repeat (known_step; run); reflexivity ] ].
Qed.

Lemma append_inv_head (a b c : string) :
  (a ++ b)%string = (a ++ c)%string -> b = c.
Proof.
  induction a as [|x a IH]; simpl; intros H; [exact H|].
  injection H as H. exact (IH H).
Qed.

Lemma append_same_length_prefix (a b c d : string) :
  String.length a = String.length b ->
  (a ++ c)%string = (b ++ d)%string -> a = b.
Proof.
  revert b; induction a as [|x a IH]; intros [|y b] Hlen Heq;
    try discriminate; [reflexivity|].
  simpl in Hlen, Heq. injection Hlen as Hlen. injection Heq as -> Heq.
  f_equal. exact (IH b Hlen Heq).
Qed.

Lemma Some_inj {A : Type} (a b : A) : Some a = Some b -> a = b.
Proof. intros H. injection H as H. exact H. Qed.

Lemma template_starts_with_policy :
  exists head rest, documentTemplate = Lit head :: Nonce :: rest.
Proof. unfold documentTemplate. eexists. eexists. reflexivity. Qed.

(** Two documents whose tokens have the same length differ when their
    tokens differ: the token is the first interpolation of the template. *)
Lemma buildWebviewHtml_nonce_inj (p1 p2 : WebviewParams) :
  String.length (p_nonce p1) = String.length (p_nonce p2) ->
  buildWebviewHtml p1 = buildWebviewHtml p2 ->
  p_nonce p1 = p_nonce p2.
Proof.
  intros Hlen Heq.
  rewrite !buildWebviewHtml_renders in Heq.
  destruct template_starts_with_policy as (head & rest & Htemplate).
  rewrite Htemplate, !render_cons in Heq.
  cbn [renderFragment] in Heq.
  apply append_inv_head in Heq.
  exact (append_same_length_prefix _ _ _ _ Hlen Heq).
Qed.

Lemma countCreated_reveal (log : list Event) :
  countCreated log = 0 -> countRevealed log = 0 ->
  countCreated (log ++ [RevealPanel]) = 0
  /\ countRevealed (log ++ [RevealPanel]) = 1.
Proof.
  intros Hcreated Hrevealed.
  induction log as [|e log IH]; [split; reflexivity|].
  destruct e; cbn in *; try (apply IH; assumption); discriminate.
Qed.

(** C5, as the code has it.  Two runs of Capture Entire File in a row,
    with the document and the settings unchanged: whatever the highlighter
    does, the second run creates no panel and reveals the one the first run
    left.  Both documents are composed from the same parameters but for the
    markup the highlighter returns to each run and the token, which the
    second run draws anew.  A highlighter that loads consistently returns
    the same markup to both runs, and with the same markup the two
    documents are the same text exactly when the two tokens are the same. *)
Theorem captureFile_twice_reuses_panel (lib : Shiki) (host : Host)
  (w0 : World lib) (editor : Editor) :
  activeTextEditor host = Some editor ->
  randomInRange host ->
  let w1 := fst (captureFile lib host w0) in
  let w2 := fst (captureFile lib host w1) in
  let token1 := nonceAt host (randomCalls w0) in
  let token2 := nonceAt host (randomCalls w0 + 32) in
  exists highlighted1 highlighted2 log1 log2,
    let params :=
      fun highlighted =>
        paramsOf host highlighted (documentText editor)
                 (basename host (documentFileName editor)) 1 in
    shownHtml lib w1 = Some (buildWebviewHtml (params highlighted1 token1))
    /\ shownHtml lib w2 = Some (buildWebviewHtml (params highlighted2 token2))
    /\ trace w1 = trace w0 ++ log1 ++ [panelEvent lib w0]
    /\ trace w2 = trace w1 ++ log2 ++ [RevealPanel]
    /\ countCreated (log2 ++ [RevealPanel]) = 0
    /\ countRevealed (log2 ++ [RevealPanel]) = 1
    /\ (loadsConsistently lib -> highlighted1 = highlighted2 /\ log1 = log2)
    /\ (highlighted1 = highlighted2 ->
        (shownHtml lib w1 = shownHtml lib w2 <-> token1 = token2)).
Proof.
  intros Heditor Hrange w1 w2 token1 token2.
  subst w1 w2. unfold captureFile. rewrite Heditor.
  set (code := documentText editor).
  set (name := basename host (documentFileName editor)).
  destruct (showCodeSnapPanel_runs lib host w0 code (languageId editor) name 1)
    as (hl & log & html & Hrun & Hcreated & Hrevealed & Hshow).
  rewrite Hshow. cbn [fst].
  set (w1 := mkWorld _ hl (randomCalls w0 + 32) _).
  destruct (showCodeSnapPanel_runs lib host w1 code (languageId editor) name 1)
    as (hl2 & log2 & html2 & Hrun2 & Hcreated2 & Hrevealed2 & Hshow2).
  rewrite Hshow2. cbn [fst].
  exists html, html2, log, log2. cbv zeta.
  unfold shownHtml, panelEvent, w1.
  cbn [currentPanel randomCalls trace webviewHtml].
  destruct (countCreated_reveal log2 Hcreated2 Hrevealed2) as [Hc Hr].
  repeat (split; [reflexivity || assumption|]).
  split.
  - intros Hlib.
    destruct (getHighlightedHtml_again lib w0 code (languageId editor)
                (get (cfgTheme (configuration host)) "dark") Hlib)
      as (hl' & log' & html' & Hrun' & Hagain).
    rewrite Hrun in Hrun'. injection Hrun' as <- Hlog <-.
    apply app_inv_head in Hlog. subst log'.
    unfold w1 in Hrun2 at 1. rewrite Hagain in Hrun2.
    injection Hrun2 as _ Hlog2 <-.
    apply app_inv_head in Hlog2. subst log2.
    split; reflexivity.
  - intros <-. split.
    + intros Hsame. apply Some_inj in Hsame.
      apply buildWebviewHtml_nonce_inj in Hsame; [exact Hsame|].
      cbn [p_nonce paramsOf].
      destruct (nonceAt_shape host (randomCalls w0) Hrange) as [-> _].
      destruct (nonceAt_shape host (randomCalls w0 + 32) Hrange) as [-> _].
      reflexivity.
    + intros Htoken. unfold token1, token2 in Htoken. now rewrite Htoken.
Qed.

Lemma includes_last (x : string) (xs : list string) :
  includes x (xs ++ [x]) = true.
Proof.
  induction xs as [|y xs IH]; cbn [app includes].
  - now rewrite String.eqb_refl.
  - rewrite IH. apply orb_true_r.
Qed.

Lemma demo_loadsConsistently : loadsConsistently Demo.shiki.
Proof.
  split.
  - intros h lang h' H. cbn in H.
    destruct (String.eqb lang "rust"); [|discriminate].
    injection H as <-.
    exists (h ++ [lang]). split; [reflexivity | apply includes_last].
  - intros h lang h' err H. cbn in H.
    destruct (String.eqb lang "rust"); [discriminate|].
    now injection H as <- _.
Qed.

Lemma captureFile_twice_reuses_panel_witness :
  activeTextEditor Demo.host = Some Demo.editor
  /\ randomInRange Demo.host
  /\ exists log,
       trace (fst (captureFile Demo.shiki Demo.host
                     (fst (captureFile Demo.shiki Demo.host Demo.world0))))
       = trace (fst (captureFile Demo.shiki Demo.host Demo.world0))
           ++ log ++ [RevealPanel]
       /\ countCreated (log ++ [RevealPanel]) = 0.
Proof.
  split; [reflexivity|].
  split; [exact demo_randomInRange|].
  pose proof (captureFile_twice_reuses_panel
                Demo.shiki Demo.host Demo.world0 Demo.editor eq_refl
                demo_randomInRange) as H.
  cbv zeta in H.
  destruct H as (highlighted1 & highlighted2 & log1 & log2
                 & _ & _ & _ & Htrace & Hcreated & _).
  exists log2. split; [exact Htrace | exact Hcreated].
Defined.

(** C5, as stated, fails: with the first thirty-two draws [0] and the
    later ones [1/2], the two captures of the same document under the same
    settings show two different documents. *)
Lemma second_capture_differs :
  let w1 := fst (captureFile Demo.shiki Demo.host Demo.world0) in
  let w2 := fst (captureFile Demo.shiki Demo.host w1) in
  shownHtml Demo.shiki w1 <> shownHtml Demo.shiki w2.
Proof.
  cbv zeta. intros H.
  apply (f_equal (option_map (contains "nonce-AAAA"))) in H.
  vm_compute in H. discriminate H.
Qed.

(** A highlighter that does not load consistently can mark up the same
    text in two ways: with every draw the same, so that the two tokens are
    the same, the two captures still show two different documents. *)
Lemma flaky_highlighter_changes_markup :
  let w1 := fst (captureFile Sample.flakyShiki Sample.constantHost
                   (mkWorld None None 0 [])) in
  let w2 := fst (captureFile Sample.flakyShiki Sample.constantHost w1) in
  nonceAt Sample.constantHost 0 = nonceAt Sample.constantHost 32
  /\ shownHtml Sample.flakyShiki w1 <> shownHtml Sample.flakyShiki w2
  /\ ~ loadsConsistently Sample.flakyShiki.
Proof.
  cbv zeta.
  split; [reflexivity|].
  split.
  - intros H.
    apply (f_equal (option_map (contains "<pre style="))) in H.
    vm_compute in H. discriminate H.
  - intros [_ Hfailed].
    specialize (Hfailed false "cobol" true "Language not found" eq_refl).
    discriminate Hfailed.
Qed.

(** ** The message handler *)

Lemma strictEq_false (value : option string) (literal : string) :
  value <> Some literal -> strictEq value literal = false.
Proof.
  destruct value as [s|]; [|reflexivity].
  intros Hne. cbn. apply String.eqb_neq. congruence.
Qed.

(** C6. On the message [save] with the data URL
    [data:image/png;base64,AAAA] and the file name [foo-codesnap], the
    handler opens the save dialog on [foo-codesnap.png] in the default
    directory; when the user confirms a path, it strips the prefix of the
    data URL, decodes [AAAA] to the three octets 0, 0, 0 and writes exactly
    these to the chosen path, then reports the save if the write returns. *)
Theorem save_message_writes_decoded_bytes (lib : Shiki) (host : Host)
  (w : World lib) (uri : string) :
  let defaultUri :=
    pathJoin host (orElse (workspaceFolder host) (homedir host))
             "foo-codesnap.png" in
  saveDialogAnswer host defaultUri = Some uri ->
  Node.replacePrefix "data:image/png;base64," "data:image/png;base64,AAAA"
  = "AAAA"
  /\ Node.bufferFromBase64 "AAAA" = [0; 0; 0]%Z
  /\ trace (fst (onDidReceiveMessage lib host Demo.saveMessage w))
     = trace w
         ++ [ShowSaveDialog defaultUri; WriteFile uri [0; 0; 0]%Z]
         ++ match writeFileOutcome host uri [0; 0; 0]%Z with
            | Returns _ =>
                [ShowInformationMessage ("Screenshot saved to " ++ uri)]
            | Throws _ => []
            end.
Proof.
  intros defaultUri Hanswer.
  split; [reflexivity|]. split; [reflexivity|].
  unfold onDidReceiveMessage, Demo.saveMessage.
  cbn [command data fileName strictEq isTruthy String.eqb Ascii.eqb Bool.eqb
       andb Js.truthy orElse get String.append].
  fold defaultUri. unfold bind at 1. unfold emit at 1.
  cbn [currentPanel shikiHighlighter randomCalls trace].
  rewrite Hanswer.
  change (Node.bufferFromBase64
            (Node.replacePrefix "data:image/png;base64,"
                                "data:image/png;base64,AAAA"))
    with [0; 0; 0]%Z.
  unfold bind, emit, call.
  cbn [currentPanel shikiHighlighter randomCalls trace].
  destruct (writeFileOutcome host uri [0; 0; 0]%Z) as [[]|err];
    cbn [fst trace]; rewrite <- !app_assoc; reflexivity.
Qed.

Lemma save_message_writes_decoded_bytes_witness :
  saveDialogAnswer Demo.host
    (pathJoin Demo.host
       (orElse (workspaceFolder Demo.host) (homedir Demo.host))
       "foo-codesnap.png")
  = Some "/home/dev/shots/foo.png"
  /\ trace (fst (onDidReceiveMessage Demo.shiki Demo.host Demo.saveMessage
                                     Demo.world0))
     = [ShowSaveDialog "/home/dev/project/foo-codesnap.png";
        WriteFile "/home/dev/shots/foo.png" [0; 0; 0]%Z;
        ShowInformationMessage "Screenshot saved to /home/dev/shots/foo.png"].
Proof.
  split; [reflexivity|].
  exact (proj2 (proj2 (save_message_writes_decoded_bytes
                         Demo.shiki Demo.host Demo.world0
                         "/home/dev/shots/foo.png" eq_refl))).
Defined.

(** C10. A [save] message whose data is missing or empty, and a message
    whose command is none of [save], [copy] and [error], are ignored: the
    handler returns with the world as it was, so no dialog is opened, no
    file is written, nothing is shown to the user and the panel is
    untouched. *)
Theorem unhandled_message_is_ignored (lib : Shiki) (host : Host)
  (w : World lib) (message : Message) :
  (command message = Some "save"
   /\ (data message = None \/ data message = Some EmptyString))
  \/ (command message <> Some "save"
      /\ command message <> Some "copy"
      /\ command message <> Some "error") ->
  onDidReceiveMessage lib host message w = (w, Returns tt).
Proof.
  unfold onDidReceiveMessage.
  intros [[Hsave Hdata] | (Hsave & Hcopy & Herror)].
  - rewrite Hsave. cbn [strictEq].
    change (String.eqb "save" "copy") with false.
    change (String.eqb "save" "save") with true.
    change (String.eqb "save" "error") with false.
    destruct Hdata as [-> | ->]; reflexivity.
  - rewrite (strictEq_false _ _ Hsave), (strictEq_false _ _ Hcopy),
      (strictEq_false _ _ Herror).
    reflexivity.
Qed.

Lemma unhandled_message_is_ignored_witness :
  (command (mkMessage (Some "save") None (Some "foo-codesnap") None)
   = Some "save"
   /\ (data (mkMessage (Some "save") None (Some "foo-codesnap") None) = None
       \/ data (mkMessage (Some "save") None (Some "foo-codesnap") None)
          = Some EmptyString))
  /\ onDidReceiveMessage Demo.shiki Demo.host
       (mkMessage (Some "save") None (Some "foo-codesnap") None) Demo.world0
     = (Demo.world0, Returns tt)
  /\ onDidReceiveMessage Demo.shiki Demo.host
       (mkMessage (Some "resize") (Some "x") None None) Demo.world0
     = (Demo.world0, Returns tt).
Proof.
  split; [split; [reflexivity | left; reflexivity]|].
  split.
  - apply unhandled_message_is_ignored.
    left. split; [reflexivity | left; reflexivity].
  - apply unhandled_message_is_ignored.
    right. repeat split; discriminate.
Defined.

(** ** The commands *)

(** C8. Without an active editor both commands show the error
    [No active editor] and stop; with an editor whose selection is empty
    Capture Selection shows [No code selected. Select some code first.]
    and stops.  In each case the error message is the only call made: the
    panel, the highlighter and the random source are as they were, so no
    document is composed and no panel is created or changed. *)
Theorem capture_aborts_with_error_message (lib : Shiki) (host : Host)
  (w : World lib) :
  (activeTextEditor host = None ->
   captureSelection lib host w
   = (mkWorld (currentPanel w) (shikiHighlighter w) (randomCalls w)
              (trace w ++ [ShowErrorMessage "No active editor"]),
      Returns tt)
   /\ captureFile lib host w
      = (mkWorld (currentPanel w) (shikiHighlighter w) (randomCalls w)
                 (trace w ++ [ShowErrorMessage "No active editor"]),
         Returns tt))
  /\ (forall editor,
         activeTextEditor host = Some editor ->
         selectionIsEmpty editor = true ->
         captureSelection lib host w
         = (mkWorld (currentPanel w) (shikiHighlighter w) (randomCalls w)
                    (trace w
                       ++ [ShowErrorMessage
                             "No code selected. Select some code first."]),
            Returns tt)).
Proof.
  split.
  - intros Hnone. unfold captureSelection, captureFile.
    rewrite Hnone. split; reflexivity.
  - intros editor Hsome Hempty. unfold captureSelection.
    rewrite Hsome, Hempty. reflexivity.
Qed.

Lemma capture_aborts_with_error_message_witness :
  activeTextEditor Demo.hostWithoutEditor = None
  /\ activeTextEditor Demo.hostWithEmptySelection
     = Some Demo.emptySelectionEditor
  /\ selectionIsEmpty Demo.emptySelectionEditor = true
  /\ captureFile Demo.shiki Demo.hostWithoutEditor Demo.world0
     = (mkWorld None None 0 [ShowErrorMessage "No active editor"], Returns tt)
  /\ captureSelection Demo.shiki Demo.hostWithEmptySelection Demo.world0
     = (mkWorld None None 0
          [ShowErrorMessage "No code selected. Select some code first."],
        Returns tt).
Proof.
  split; [reflexivity|]. split; [reflexivity|]. split; [reflexivity|].
  split.
  - exact (proj2 (proj1 (capture_aborts_with_error_message
                           Demo.shiki Demo.hostWithoutEditor Demo.world0)
                        eq_refl)).
  - exact (proj2 (capture_aborts_with_error_message
                    Demo.shiki Demo.hostWithEmptySelection Demo.world0)
                 Demo.emptySelectionEditor eq_refl eq_refl).
Defined.

(** * Further properties *)

(** ** Escaping *)

Lemma existsChar_app (p : ascii -> bool) (a b : string) :
  existsChar p (a ++ b) = existsChar p a || existsChar p b.
Proof.
  induction a as [|c a IH]; simpl; [reflexivity|].
  now rewrite IH, orb_assoc.
Qed.

Lemma escapeChar_no_markup (c : ascii) :
  existsChar isMarkup (escapeChar c) = false.
Proof. destruct c as [[] [] [] [] [] [] [] []]; reflexivity. Qed.

Lemma escapeHtml_no_markup (text : string) :
  existsChar isMarkup (escapeHtml text) = false.
Proof.
  rewrite escapeHtml_each.
  induction text as [|c text IH]; [reflexivity|].
  cbn [escapeEach]. now rewrite existsChar_app, escapeChar_no_markup, IH.
Qed.

(** X1. Whatever the text, the result of [escapeHtml] holds no
    less-than sign, no greater-than sign, no double quote and no single
    quote: escaped text cannot open or close a tag or an attribute value. *)
Theorem escapeHtml_leaves_no_markup (text : string) :
  existsChar isMarkup (escapeHtml text) = false.
Proof. exact (escapeHtml_no_markup text). Qed.

Lemma unescapeHtml_escapeChar (c : ascii) (rest : string) :
  unescapeHtml (escapeChar c ++ rest) = String c (unescapeHtml rest).
Proof. destruct c as [[] [] [] [] [] [] [] []]; reflexivity. Qed.

Lemma unescapeHtml_escapeHtml (text : string) :
  unescapeHtml (escapeHtml text) = text.
Proof.
  rewrite escapeHtml_each.
  induction text as [|c text IH]; [reflexivity|].
  cbn [escapeEach]. now rewrite unescapeHtml_escapeChar, IH.
Qed.

(** X2. Reading the five entities back gives the text that was escaped:
    [escapeHtml] loses nothing, and two different texts never escape to the
    same markup. *)
Theorem escapeHtml_reads_back :
  (forall text, unescapeHtml (escapeHtml text) = text)
  /\ (forall a b, escapeHtml a = escapeHtml b -> a = b).
Proof.
  split; [exact unescapeHtml_escapeHtml|].
  intros a b Heq.
  rewrite <- (unescapeHtml_escapeHtml a), <- (unescapeHtml_escapeHtml b).
  now rewrite Heq.
Qed.

Lemma escapeChar_length (c : ascii) :
  if isHtmlSpecial c then 4 <= String.length (escapeChar c)
  else escapeChar c = String c EmptyString.
Proof. destruct c as [[] [] [] [] [] [] [] []]; cbn; try reflexivity; lia. Qed.

Lemma escapeEach_length (s : string) :
  String.length s <= String.length (escapeEach s)
  /\ (existsChar isHtmlSpecial s = true ->
      String.length s < String.length (escapeEach s)).
Proof.
  induction s as [|c s [IHle IHlt]]; [split; [reflexivity | discriminate]|].
  cbn [escapeEach existsChar String.length].
  rewrite length_append.
  pose proof (escapeChar_length c) as Hc.
  destruct (isHtmlSpecial c).
  - split; [lia | intros _; lia].
  - rewrite Hc. cbn [String.length orb].
    split; [lia | intros Hs; specialize (IHlt Hs); lia].
Qed.

(** X3. A text without ampersand, angle bracket or quote is returned as
    it is; any other text comes back strictly longer.  So [escapeHtml]
    changes a text exactly when it holds one of the five characters, and
    escaping twice is not escaping once. *)
Theorem escapeHtml_unchanged_iff (text : string) :
  (existsChar isHtmlSpecial text = false -> escapeHtml text = text)
  /\ (existsChar isHtmlSpecial text = true ->
      String.length text < String.length (escapeHtml text))
  /\ (escapeHtml text = text <-> existsChar isHtmlSpecial text = false).
Proof.
  assert (Hsame : forall s, existsChar isHtmlSpecial s = false ->
                            escapeHtml s = s).
  { intros s. rewrite escapeHtml_each.
    induction s as [|c s IH]; [reflexivity|].
    cbn [existsChar escapeEach]. intros H.
    apply orb_false_elim in H. destruct H as [Hc Hs].
    pose proof (escapeChar_length c) as Hlen. rewrite Hc in Hlen.
    rewrite Hlen, (IH Hs). reflexivity. }
  assert (Hlonger : existsChar isHtmlSpecial text = true ->
                    String.length text < String.length (escapeHtml text)).
  { rewrite escapeHtml_each. apply escapeEach_length. }
  split; [apply Hsame|]. split; [exact Hlonger|].
  split; [|apply Hsame].
  intros Heq. destruct (existsChar isHtmlSpecial text) eqn:E; [|reflexivity].
  specialize (Hlonger eq_refl). rewrite Heq in Hlonger. lia.
Qed.

Lemma escapeHtml_unchanged_iff_witness :
  existsChar isHtmlSpecial "const x = 1;" = false
  /\ escapeHtml "const x = 1;" = "const x = 1;"
  /\ existsChar isHtmlSpecial "a < b" = true
  /\ String.length "a < b" < String.length (escapeHtml "a < b").
Proof.
  split; [reflexivity|].
  split; [exact (proj1 (escapeHtml_unchanged_iff "const x = 1;") eq_refl)|].
  split; [reflexivity|].
  exact (proj1 (proj2 (escapeHtml_unchanged_iff "a < b")) eq_refl).
Defined.

(** ** The file name *)

Lemma noSlashNoDot_app_dot (stem ext : string) :
  Node.noSlashNoDot (stem ++ String "." ext) = false.
Proof.
  induction stem as [|c stem IH]; cbn [String.append Node.noSlashNoDot].
  - rewrite andb_false_r. reflexivity.
  - rewrite IH. apply andb_false_r.
Qed.

(** X4. [stripExtension] removes the last extension of a name: a dot and
    the non-empty run of characters after it that holds neither a dot nor a
    slash.  What stands before that dot, earlier dots included, is kept. *)
Theorem stripExtension_removes_last_extension (stem ext : string) :
  ext <> EmptyString ->
  Node.noSlashNoDot ext = true ->
  Node.stripExtension (stem ++ String "." ext) = stem.
Proof.
  intros Hne Hext.
  induction stem as [|c stem IH]; cbn [String.append Node.stripExtension].
  - rewrite Hext. destruct ext; [contradiction | reflexivity].
  - rewrite noSlashNoDot_app_dot, andb_false_r, IH. reflexivity.
Qed.

Lemma stripExtension_removes_last_extension_witness :
  "ts"%string <> EmptyString
  /\ Node.noSlashNoDot "ts" = true
  /\ Node.stripExtension ("main.test" ++ String "." "ts") = "main.test".
Proof.
  assert (Hne : "ts"%string <> EmptyString) by discriminate.
  split; [exact Hne|]. split; [reflexivity|].
  exact (stripExtension_removes_last_extension "main.test" "ts" Hne eq_refl).
Defined.

(** X5. A name that does not end in such an extension is returned as it
    is: a name without a dot, a name that ends in a dot, a name with a slash
    after its last dot. *)
Theorem stripExtension_keeps_other_names (name : string) :
  (forall stem ext,
      name = (stem ++ String "." ext)%string ->
      ext = EmptyString \/ Node.noSlashNoDot ext = false) ->
  Node.stripExtension name = name.
Proof.
  induction name as [|c name IH]; intros Hnone; [reflexivity|].
  cbn [Node.stripExtension].
  destruct (Ascii.eqb c "." && Js.truthy name && Node.noSlashNoDot name) eqn:E.
  - apply andb_true_iff in E. destruct E as [E Hext].
    apply andb_true_iff in E. destruct E as [Hdot Hne].
    apply Ascii.eqb_eq in Hdot. subst c.
    destruct (Hnone EmptyString name eq_refl) as [-> | Hbad].
    + discriminate Hne.
    + congruence.
  - f_equal. apply IH. intros stem ext Heq.
    apply (Hnone (String c stem) ext). cbn. now rewrite Heq.
Qed.

Lemma no_dot_no_extension (name : string) :
  existsChar (Ascii.eqb ".") name = false ->
  forall stem ext,
    name = (stem ++ String "." ext)%string ->
    ext = EmptyString \/ Node.noSlashNoDot ext = false.
Proof.
  intros Hnodot stem ext ->.
  rewrite existsChar_app in Hnodot. cbn in Hnodot.
  rewrite orb_true_r in Hnodot. discriminate.
Qed.

Lemma stripExtension_keeps_other_names_witness :
  (forall stem ext,
      "Makefile"%string = (stem ++ String "." ext)%string ->
      ext = EmptyString \/ Node.noSlashNoDot ext = false)
  /\ Node.stripExtension "Makefile" = "Makefile".
Proof.
  split; [exact (no_dot_no_extension "Makefile" eq_refl)|].
  exact (stripExtension_keeps_other_names "Makefile"
           (no_dot_no_extension "Makefile" eq_refl)).
Defined.

Lemma readStringBody_jsonEscape (c : ascii) (rest : string) :
  readStringBody (Node.jsonEscape c ++ rest)
  = match readStringBody rest with
    | Some (body, tail) => Some (String c body, tail)
    | None => None
    end.
Proof. destruct c as [[] [] [] [] [] [] [] []]; reflexivity. Qed.

Lemma readStringBody_jsonEscapeAll (s tail : string) :
  readStringBody (Node.jsonEscapeAll s ++ Js.dq ++ tail) = Some (s, tail).
Proof.
  induction s as [|c s IH]; [reflexivity|].
  cbn [Node.jsonEscapeAll].
  now rewrite append_assoc, readStringBody_jsonEscape, IH.
Qed.

(** X6. The text [JSON.stringify] writes for a string is read by the
    script as one string literal that ends where the text ends, whatever
    follows it, and whose value is the string: no quote, backslash, line
    break or control character of a file name ends the literal early or
    changes its value.  So the [fileName] the script posts with a save
    message is the file name without its extension, followed by
    [-codesnap]. *)
Theorem jsonStringify_reads_back :
  (forall s tail,
      readStringLiteral (Node.jsonStringify s ++ tail) = Some (s, tail))
  /\ (forall name tail,
         readStringLiteral (fileNameForJs name ++ tail)
         = Some ((Node.stripExtension name ++ "-codesnap")%string, tail)).
Proof.
  assert (H : forall s tail,
             readStringLiteral (Node.jsonStringify s ++ tail) = Some (s, tail)).
  { intros s tail. unfold Node.jsonStringify.
    rewrite !append_assoc.
    change (Js.dq ++ (Node.jsonEscapeAll s ++ (Js.dq ++ tail)))%string
      with (String "034" (Node.jsonEscapeAll s ++ (Js.dq ++ tail))).
    cbn [readStringLiteral]. rewrite Ascii.eqb_refl.
    apply readStringBody_jsonEscapeAll. }
  split; [exact H|].
  intros name tail. unfold fileNameForJs. apply H.
Qed.

Lemma jsonEscape_other (c : ascii) :
  isJsonEscaped c = false -> Node.jsonEscape c = String c EmptyString.
Proof. destruct c as [[] [] [] [] [] [] [] []]; cbn; congruence. Qed.

Lemma jsonEscapeAll_plain (s : string) :
  existsChar isJsonEscaped s = false -> Node.jsonEscapeAll s = s.
Proof.
  intros Hplain.
  induction s as [|c s IH]; [reflexivity|].
  cbn [existsChar] in Hplain. apply orb_false_elim in Hplain.
  destruct Hplain as [Hc Hs].
  cbn [Node.jsonEscapeAll]. now rewrite (jsonEscape_other c Hc), (IH Hs).
Qed.

Lemma template_around_fileName :
  documentTemplate
  = beforeFragment isFileNameForJs documentTemplate
      ++ FileNameForJs :: afterFragment isFileNameForJs documentTemplate.
Proof. vm_compute. reflexivity. Qed.

Lemma document_around_fileName (p : WebviewParams) :
  buildWebviewHtml p
  = (render p (beforeFragment isFileNameForJs documentTemplate)
       ++ fileNameForJs (p_fileName p)
       ++ render p (afterFragment isFileNameForJs documentTemplate))%string.
Proof.
  rewrite buildWebviewHtml_renders.
  transitivity
    (render p (beforeFragment isFileNameForJs documentTemplate
                 ++ FileNameForJs
                 :: afterFragment isFileNameForJs documentTemplate)).
  - f_equal; exact template_around_fileName.
  - now rewrite render_app, render_cons.
Qed.

(** X12. The file name stands once in the inline script of the composed
    document, as the value of [fileName] in the save message.  When the
    name without its extension holds no quote, backslash or control
    character, it is written there between two quotes as it is, followed by
    [-codesnap]: angle brackets and ampersands of the name are not escaped
    for HTML in the script, unlike in the window header. *)
Theorem jsonStringify_keeps_markup (p : WebviewParams) :
  existsChar isJsonEscaped (Node.stripExtension (p_fileName p)) = false ->
  let name := (Node.stripExtension (p_fileName p) ++ "-codesnap")%string in
  fileNameForJs (p_fileName p) = (Js.dq ++ name ++ Js.dq)%string
  /\ buildWebviewHtml p
     = (render p (beforeFragment isFileNameForJs documentTemplate)
          ++ (Js.dq ++ name ++ Js.dq)
          ++ render p (afterFragment isFileNameForJs documentTemplate))%string
  /\ existsb isFileNameForJs (beforeFragment isFileNameForJs documentTemplate)
     = false
  /\ existsb isFileNameForJs (afterFragment isFileNameForJs documentTemplate)
     = false
  /\ insideScriptAt isFileNameForJs false (symbols documentTemplate)
     = Some true
  /\ option_map (endsWith "fileName: ")
                (literalBefore isFileNameForJs EmptyString documentTemplate)
     = Some true
  /\ existsChar isMarkup name
     = existsChar isMarkup (Node.stripExtension (p_fileName p)).
Proof.
  intros Hplain name.
  assert (Hname : fileNameForJs (p_fileName p) = (Js.dq ++ name ++ Js.dq)%string).
  { unfold fileNameForJs, Node.jsonStringify. subst name.
    rewrite jsonEscapeAll_plain; [reflexivity|].
    rewrite existsChar_app, Hplain. reflexivity. }
  split; [exact Hname|].
  split; [rewrite <- Hname; apply document_around_fileName|].
  split; [vm_compute; reflexivity|].
  split; [vm_compute; reflexivity|].
  split; [vm_compute; reflexivity|].
  split; [vm_compute; reflexivity|].
  subst name. rewrite existsChar_app. cbn. apply orb_false_r.
Qed.

Lemma jsonStringify_keeps_markup_witness :
  existsChar isJsonEscaped (Node.stripExtension (p_fileName Sample.params))
  = false
  /\ fileNameForJs (p_fileName Sample.params)
     = (Js.dq ++ "a<b>-codesnap" ++ Js.dq)%string.
Proof.
  split; [reflexivity|].
  exact (proj1 (jsonStringify_keeps_markup Sample.params eq_refl)).
Defined.

(** ** Base64 *)

Lemma below_In (n : nat) (v : Z) :
  (0 <= v < Z.of_nat n)%Z -> In v (below n).
Proof.
  intros Hv. unfold below.
  replace v with (Z.of_nat (Z.to_nat v)) by lia.
  apply in_map, in_seq. lia.
Qed.

Lemma forall_below (n : nat) (check : Z -> bool) :
  forallb check (below n) = true ->
  forall v, (0 <= v < Z.of_nat n)%Z -> check v = true.
Proof.
  intros Hall v Hv.
  exact (proj1 (forallb_forall _ _) Hall v (below_In n v Hv)).
Qed.

Lemma forall_below2 (n m : nat) (check : Z -> Z -> bool) :
  forallb (fun a => forallb (check a) (below m)) (below n) = true ->
  forall a b, (0 <= a < Z.of_nat n)%Z -> (0 <= b < Z.of_nat m)%Z ->
              check a b = true.
Proof.
  intros Hall a b Ha Hb.
  apply (forall_below m (check a)); [|exact Hb].
  exact (forall_below n (fun a => forallb (check a) (below m)) Hall a Ha).
Qed.

(** A character of the alphabet is read back as the value it encodes. *)
Lemma unbase64_encodeChar (v : Z) :
  (0 <= v < 64)%Z ->
  Node.unbase64 (encodeChar v) = Some v /\ Ascii.eqb (encodeChar v) "=" = false.
Proof.
  intros Hv.
  pose proof (forall_below 64
                (fun v => match Node.unbase64 (encodeChar v) with
                          | Some u => (u =? v)%Z
                          | None => false
                          end && negb (Ascii.eqb (encodeChar v) "="))
                ltac:(vm_compute; reflexivity) v Hv) as H.
  cbv beta in H. apply andb_true_iff in H. destruct H as [Hu Hp].
  split.
  - destruct (Node.unbase64 (encodeChar v)) as [u|]; [|discriminate].
    apply Z.eqb_eq in Hu. now subst.
  - now apply negb_true_iff.
Qed.

Lemma inSextet_range (v : Z) : inSextet v = true -> (0 <= v < 64)%Z.
Proof. unfold inSextet. lia. Qed.

(** The first octet comes back from the first two groups, which depend on
    the second octet through its high four bits only. *)
Lemma first_octet (b0 b1 : Z) :
  isOctet b0 -> isOctet b1 ->
  inSextet (group0 b0) = true
  /\ inSextet (group1 b0 b1) = true
  /\ Z.lor (Z.shiftl (group0 b0) 2) (Z.shiftr (group1 b0 b1) 4) = b0
  /\ Z.land (group1 b0 b1) 15 = Z.shiftr b1 4.
Proof.
  intros H0 H1.
  assert (Hhigh : (0 <= Z.shiftr b1 4 < Z.of_nat 16)%Z).
  { rewrite Z.shiftr_div_pow2 by lia. change (2 ^ 4)%Z with 16%Z.
    unfold isOctet in H1.
    split; [apply Z.div_pos; lia | apply Z.div_lt_upper_bound; lia]. }
  pose proof (forall_below2 256 16
                (fun b0 h =>
                   let g1 := Z.lor (Z.shiftl (Z.land b0 3) 4) h in
                   inSextet (group0 b0) && inSextet g1
                   && (Z.lor (Z.shiftl (group0 b0) 2) (Z.shiftr g1 4) =? b0)%Z
                   && (Z.land g1 15 =? h)%Z)
                ltac:(vm_compute; reflexivity) b0 (Z.shiftr b1 4) H0 Hhigh) as H.
  cbv beta zeta in H. fold (group1 b0 b1) in H.
  do 3 (apply andb_true_iff in H; destruct H as [H ?]).
  repeat split; try assumption; now apply Z.eqb_eq.
Qed.

(** The second and third octets come back from the last three groups. *)
Lemma last_octets (b1 b2 : Z) :
  isOctet b1 -> isOctet b2 ->
  inSextet (group2 b1 b2) = true
  /\ inSextet (group3 b2) = true
  /\ Z.lor (Z.shiftl (Z.shiftr b1 4) 4) (Z.shiftr (group2 b1 b2) 2) = b1
  /\ Z.lor (Z.shiftl (Z.land (group2 b1 b2) 3) 6) (group3 b2) = b2.
Proof.
  intros H1 H2.
  pose proof (forall_below2 256 256
                (fun b1 b2 =>
                   inSextet (group2 b1 b2) && inSextet (group3 b2)
                   && (Z.lor (Z.shiftl (Z.shiftr b1 4) 4)
                             (Z.shiftr (group2 b1 b2) 2) =? b1)%Z
                   && (Z.lor (Z.shiftl (Z.land (group2 b1 b2) 3) 6)
                             (group3 b2) =? b2)%Z)
                ltac:(vm_compute; reflexivity) b1 b2 H1 H2) as H.
  cbv beta in H.
  do 3 (apply andb_true_iff in H; destruct H as [H ?]).
  repeat split; try assumption; now apply Z.eqb_eq.
Qed.

(** With a final group of one octet, or of two, the padded groups. *)
Lemma padded_octets (b0 b1 : Z) :
  isOctet b0 -> isOctet b1 ->
  inSextet (Z.shiftl (Z.land b0 3) 4) = true
  /\ Z.lor (Z.shiftl (group0 b0) 2) (Z.shiftr (Z.shiftl (Z.land b0 3) 4) 4) = b0
  /\ inSextet (Z.shiftl (Z.land b1 15) 2) = true
  /\ Z.lor (Z.shiftl (Z.shiftr b1 4) 4)
           (Z.shiftr (Z.shiftl (Z.land b1 15) 2) 2) = b1.
Proof.
  intros H0 H1.
  pose proof (forall_below 256
                (fun b =>
                   inSextet (Z.shiftl (Z.land b 3) 4)
                   && (Z.lor (Z.shiftl (group0 b) 2)
                             (Z.shiftr (Z.shiftl (Z.land b 3) 4) 4) =? b)%Z
                   && inSextet (Z.shiftl (Z.land b 15) 2)
                   && (Z.lor (Z.shiftl (Z.shiftr b 4) 4)
                             (Z.shiftr (Z.shiftl (Z.land b 15) 2) 2) =? b)%Z)
                ltac:(vm_compute; reflexivity)) as H.
  pose proof (H b0 H0) as Ha. pose proof (H b1 H1) as Hb.
  cbv beta in Ha, Hb.
  do 3 (apply andb_true_iff in Ha; destruct Ha as [Ha ?]).
  do 3 (apply andb_true_iff in Hb; destruct Hb as [Hb ?]).
  repeat split; try assumption; now apply Z.eqb_eq.
Qed.

Lemma sextets_encodeChar (v : Z) (rest : string) :
  inSextet v = true ->
  Node.sextets (String (encodeChar v) rest) = v :: Node.sextets rest.
Proof.
  intros Hv. apply inSextet_range in Hv.
  destruct (unbase64_encodeChar v Hv) as [Hu Hp].
  cbn [Node.sextets]. now rewrite Hp, Hu.
Qed.

Lemma list_ind3 {A : Type} (P : list A -> Prop) :
  P [] -> (forall a, P [a]) -> (forall a b, P [a; b]) ->
  (forall a b c l, P l -> P (a :: b :: c :: l)) ->
  forall l, P l.
Proof.
  intros H0 H1 H2 H3 l.
  assert (H : P l /\ (forall a, P (a :: l)) /\ (forall a b, P (a :: b :: l))).
  { induction l as [|x l (IH0 & IH1 & IH2)].
    - repeat split; auto.
    - repeat split; auto. }
  exact (proj1 H).
Qed.

Lemma base64_round_trip (bytes : list Z) :
  Forall isOctet bytes ->
  Node.bufferFromBase64 (base64Encode bytes) = bytes.
Proof.
  unfold Node.bufferFromBase64.
  induction bytes as [|b0|b0 b1|b0 b1 b2 rest IH] using list_ind3; intros Hoct.
  - reflexivity.
  - inversion Hoct as [|? ? H0 _]; subst.
    destruct (first_octet b0 b0 H0 H0) as (Hg0 & _ & _ & _).
    destruct (padded_octets b0 b0 H0 H0) as (Hp & Hb & _ & _).
    cbn [base64Encode].
    rewrite (sextets_encodeChar _ _ Hg0), (sextets_encodeChar _ _ Hp).
    cbn [Node.sextets Ascii.eqb Bool.eqb Node.bytesOfSextets].
    fold (group0 b0). now rewrite Hb.
  - inversion Hoct as [|? ? H0 Hrest]; subst.
    inversion Hrest as [|? ? H1 _]; subst.
    destruct (first_octet b0 b1 H0 H1) as (Hg0 & Hg1 & Hb0 & Hlow).
    destruct (padded_octets b1 b1 H1 H1) as (_ & _ & Hp & Hb1).
    cbn [base64Encode]. fold (group1 b0 b1).
    rewrite (sextets_encodeChar _ _ Hg0), (sextets_encodeChar _ _ Hg1),
      (sextets_encodeChar _ _ Hp).
    cbn [Node.sextets Ascii.eqb Bool.eqb Node.bytesOfSextets].
    fold (group0 b0). now rewrite Hb0, Hlow, Hb1.
  - inversion Hoct as [|? ? H0 Hrest]; subst.
    inversion Hrest as [|? ? H1 Hrest']; subst.
    inversion Hrest' as [|? ? H2 Hrest'']; subst.
    destruct (first_octet b0 b1 H0 H1) as (Hg0 & Hg1 & Hb0 & Hlow).
    destruct (last_octets b1 b2 H1 H2) as (Hg2 & Hg3 & Hb1 & Hb2).
    cbn [base64Encode].
    fold (group0 b0) (group1 b0 b1) (group2 b1 b2) (group3 b2).
    rewrite (sextets_encodeChar _ _ Hg0), (sextets_encodeChar _ _ Hg1),
      (sextets_encodeChar _ _ Hg2), (sextets_encodeChar _ _ Hg3).
    cbn [Node.bytesOfSextets].
    now rewrite Hb0, Hlow, Hb1, Hb2, (IH Hrest'').
Qed.

(** X7. Decoding the base64 text of a list of octets gives the list back:
    [Buffer.from(_, 'base64')] undoes the encoding for every length, padded
    or not. *)
Theorem bufferFromBase64_decodes_encoding (bytes : list Z) :
  Forall isOctet bytes ->
  Node.bufferFromBase64 (base64Encode bytes) = bytes.
Proof. exact (base64_round_trip bytes). Qed.

Lemma bufferFromBase64_decodes_encoding_witness :
  Forall isOctet [137; 80; 78; 71; 13]%Z
  /\ Node.bufferFromBase64 (base64Encode [137; 80; 78; 71; 13]%Z)
     = [137; 80; 78; 71; 13]%Z.
Proof.
  assert (H : Forall isOctet [137; 80; 78; 71; 13]%Z).
  { repeat constructor; unfold isOctet; lia. }
  split; [exact H|].
  exact (bufferFromBase64_decodes_encoding _ H).
Defined.

(** ** The save, copy and error messages *)

Lemma replacePrefix_app (prefix rest : string) :
  Node.replacePrefix prefix (prefix ++ rest) = rest.
Proof. unfold Node.replacePrefix. now rewrite stripPrefix_app. Qed.

Lemma strictEq_true (value : option string) (literal : string) :
  value = Some literal -> strictEq value literal = true.
Proof. intros ->. cbn. apply String.eqb_refl. Qed.

(** What the handler does with a [save] message that carries data. *)
Lemma onDidReceiveMessage_save (lib : Shiki) (host : Host) (w : World lib)
  (message : Message) :
  let defaultUri :=
    pathJoin host (orElse (workspaceFolder host) (homedir host))
             (orElse (fileName message) "codesnap" ++ ".png") in
  let bytes :=
    Node.bufferFromBase64
      (Node.replacePrefix "data:image/png;base64,"
                          (get (data message) EmptyString)) in
  command message = Some "save" ->
  isTruthy (data message) = true ->
  onDidReceiveMessage lib host message w
  = match saveDialogAnswer host defaultUri with
    | None =>
        (mkWorld (currentPanel w) (shikiHighlighter w) (randomCalls w)
                 (trace w ++ [ShowSaveDialog defaultUri]),
         Returns tt)
    | Some uri =>
        match writeFileOutcome host uri bytes with
        | Returns _ =>
            (mkWorld (currentPanel w) (shikiHighlighter w) (randomCalls w)
                     (trace w
                        ++ [ShowSaveDialog defaultUri; WriteFile uri bytes;
                            ShowInformationMessage
                              ("Screenshot saved to " ++ uri)]),
             Returns tt)
        | Throws err =>
            (mkWorld (currentPanel w) (shikiHighlighter w) (randomCalls w)
                     (trace w
                        ++ [ShowSaveDialog defaultUri; WriteFile uri bytes]),
             Throws err)
        end
    end.
Proof.
  intros defaultUri bytes Hsave Hdata.
  unfold onDidReceiveMessage.
  rewrite Hsave, Hdata.
  change (strictEq (Some "save") "copy") with false.
  change (strictEq (Some "save") "save") with true.
  cbn [andb]. fold defaultUri.
  unfold bind at 1. unfold emit at 1.
  destruct (saveDialogAnswer host defaultUri) as [uri|]; [|reflexivity].
  fold bytes. unfold bind, emit, call.
  cbn [currentPanel shikiHighlighter randomCalls trace].
  destruct (writeFileOutcome host uri bytes) as [[]|err];
    rewrite <- ?app_assoc; reflexivity.
Qed.

(** X8. For every list of octets: on a [save] message whose data is the
    PNG data URL of their base64 text, once the user confirms a path the
    handler writes exactly these octets to that path, and reports the save
    when the write returns. *)
Theorem save_writes_octets_of_data_url (lib : Shiki) (host : Host)
  (w : World lib) (message : Message) (uri : string) (octets : list Z) :
  let defaultUri :=
    pathJoin host (orElse (workspaceFolder host) (homedir host))
             (orElse (fileName message) "codesnap" ++ ".png") in
  command message = Some "save" ->
  data message = Some ("data:image/png;base64," ++ base64Encode octets)%string ->
  Forall isOctet octets ->
  saveDialogAnswer host defaultUri = Some uri ->
  trace (fst (onDidReceiveMessage lib host message w))
  = trace w
      ++ [ShowSaveDialog defaultUri; WriteFile uri octets]
      ++ match writeFileOutcome host uri octets with
         | Returns _ => [ShowInformationMessage ("Screenshot saved to " ++ uri)]
         | Throws _ => []
         end.
Proof.
  intros defaultUri Hsave Hdata Hoctets Hanswer.
  rewrite (onDidReceiveMessage_save lib host w message Hsave)
    by (rewrite Hdata; reflexivity).
  cbv zeta. fold defaultUri. rewrite Hanswer, Hdata.
  cbn [get]. rewrite replacePrefix_app.
  rewrite (base64_round_trip octets Hoctets).
  destruct (writeFileOutcome host uri octets); reflexivity.
Qed.

Lemma save_writes_octets_of_data_url_witness :
  let message :=
    mkMessage (Some "save")
      (Some ("data:image/png;base64," ++ base64Encode [137; 80; 78; 71]%Z)%string)
      (Some "main-codesnap") None in
  command message = Some "save"
  /\ Forall isOctet [137; 80; 78; 71]%Z
  /\ saveDialogAnswer Demo.host "/home/dev/project/main-codesnap.png"
     = Some "/home/dev/shots/foo.png"
  /\ trace (fst (onDidReceiveMessage Demo.shiki Demo.host message Demo.world0))
     = [ShowSaveDialog "/home/dev/project/main-codesnap.png";
        WriteFile "/home/dev/shots/foo.png" [137; 80; 78; 71]%Z;
        ShowInformationMessage "Screenshot saved to /home/dev/shots/foo.png"].
Proof.
  cbv zeta.
  assert (H : Forall isOctet [137; 80; 78; 71]%Z).
  { repeat constructor; unfold isOctet; lia. }
  split; [reflexivity|]. split; [exact H|]. split; [reflexivity|].
  exact (save_writes_octets_of_data_url Demo.shiki Demo.host Demo.world0
           (mkMessage (Some "save")
              (Some ("data:image/png;base64,"
                       ++ base64Encode [137; 80; 78; 71]%Z)%string)
              (Some "main-codesnap") None)
           "/home/dev/shots/foo.png" [137; 80; 78; 71]%Z
           eq_refl eq_refl H eq_refl).
Defined.

(** X9. When the user dismisses the save dialog, opening the dialog is
    all the handler has done: nothing is written and nothing is shown. *)
Theorem save_cancelled_writes_nothing (lib : Shiki) (host : Host)
  (w : World lib) (message : Message) :
  let defaultUri :=
    pathJoin host (orElse (workspaceFolder host) (homedir host))
             (orElse (fileName message) "codesnap" ++ ".png") in
  command message = Some "save" ->
  isTruthy (data message) = true ->
  saveDialogAnswer host defaultUri = None ->
  onDidReceiveMessage lib host message w
  = (mkWorld (currentPanel w) (shikiHighlighter w) (randomCalls w)
             (trace w ++ [ShowSaveDialog defaultUri]),
     Returns tt).
Proof.
  intros defaultUri Hsave Hdata Hanswer.
  rewrite (onDidReceiveMessage_save lib host w message Hsave Hdata).
  cbv zeta. fold defaultUri. now rewrite Hanswer.
Qed.

(** X10. When writing the file fails, the handler throws the error of the
    write: the dialog was opened and the write attempted, and no message
    tells the user that the screenshot was saved (or that it was not). *)
Theorem save_write_failure_is_thrown (lib : Shiki) (host : Host)
  (w : World lib) (message : Message) (uri err : string) :
  let defaultUri :=
    pathJoin host (orElse (workspaceFolder host) (homedir host))
             (orElse (fileName message) "codesnap" ++ ".png") in
  let bytes :=
    Node.bufferFromBase64
      (Node.replacePrefix "data:image/png;base64,"
                          (get (data message) EmptyString)) in
  command message = Some "save" ->
  isTruthy (data message) = true ->
  saveDialogAnswer host defaultUri = Some uri ->
  writeFileOutcome host uri bytes = Throws err ->
  snd (onDidReceiveMessage lib host message w) = Throws err
  /\ trace (fst (onDidReceiveMessage lib host message w))
     = trace w ++ [ShowSaveDialog defaultUri; WriteFile uri bytes]
  /\ countShown [ShowSaveDialog defaultUri; WriteFile uri bytes] = 0.
Proof.
  intros defaultUri bytes Hsave Hdata Hanswer Hwrite.
  rewrite (onDidReceiveMessage_save lib host w message Hsave Hdata).
  cbv zeta. fold defaultUri. rewrite Hanswer. fold bytes. rewrite Hwrite.
  repeat split; reflexivity.
Qed.

(** X11. The save dialog opens on a default path even when the message
    and the host give none: a missing or empty [fileName] stands for
    [codesnap], and without a workspace folder (or with one whose path is
    empty) the directory is the home directory. *)
Theorem save_dialog_defaults (lib : Shiki) (host : Host) (w : World lib)
  (message : Message) :
  command message = Some "save" ->
  isTruthy (data message) = true ->
  fileName message = None \/ fileName message = Some EmptyString ->
  workspaceFolder host = None \/ workspaceFolder host = Some EmptyString ->
  exists rest,
    trace (fst (onDidReceiveMessage lib host message w))
    = trace w
        ++ ShowSaveDialog (pathJoin host (homedir host) "codesnap.png") :: rest.
Proof.
  intros Hsave Hdata Hname Hdir.
  rewrite (onDidReceiveMessage_save lib host w message Hsave Hdata).
  cbv zeta.
  assert (Hn : orElse (fileName message) "codesnap" = "codesnap")
    by (destruct Hname as [-> | ->]; reflexivity).
  assert (Hd : orElse (workspaceFolder host) (homedir host) = homedir host)
    by (destruct Hdir as [-> | ->]; reflexivity).
  rewrite Hn, Hd.
  change ("codesnap" ++ ".png")%string with "codesnap.png".
  destruct (saveDialogAnswer host _) as [uri|]; [|eexists; reflexivity].
  destruct (writeFileOutcome host uri _); eexists; reflexivity.
Qed.

Lemma save_dialog_defaults_witness :
  let host :=
    mkHost None Demo.settings Demo.afterLastSlash
           (fun dir name => (dir ++ "/" ++ name)%string)
           "uri" "csp" None "/home/dev" (fun _ => None)
           (fun _ _ => Returns tt) Demo.draws in
  let message := mkMessage (Some "save") (Some "AAAA") None None in
  command message = Some "save"
  /\ isTruthy (data message) = true
  /\ trace (fst (onDidReceiveMessage Demo.shiki host message Demo.world0))
     = [ShowSaveDialog "/home/dev/codesnap.png"].
Proof.
  cbv zeta. split; [reflexivity|]. split; [reflexivity|].
  destruct (save_dialog_defaults Demo.shiki
              (mkHost None Demo.settings Demo.afterLastSlash
                      (fun dir name => (dir ++ "/" ++ name)%string)
                      "uri" "csp" None "/home/dev" (fun _ => None)
                      (fun _ _ => Returns tt) Demo.draws)
              Demo.world0 (mkMessage (Some "save") (Some "AAAA") None None)
              eq_refl eq_refl (or_introl eq_refl) (or_introl eq_refl))
    as [rest Hrest].
  reflexivity.
Defined.

(** ** The highlighter, on its successful paths *)

Ltac in_use Huse :=
  destruct Huse as [Huse | [Huse ?]];
  cbn [shikiHighlighter] in Huse; subst.

(** X13. When the library loads, the highlighter (memoized, or just
    created) lists the language and [codeToHtml] returns, the result is the
    markup of the library, the theme passed being the [shikiTheme] of the
    resolved profile.  The highlighter is memoized as it is, no language is
    loaded and nothing is logged. *)
Theorem getHighlightedHtml_uses_loaded_language (lib : Shiki) (w : World lib)
  (code language themeName : string) (h : Highlighter lib)
  (loadedLangs : list string) (html : string) :
  requireShiki lib = Returns tt ->
  highlighterInUse lib w h ->
  getLoadedLanguages lib h = Returns loadedLangs ->
  includes language loadedLangs = true ->
  codeToHtml lib h code language
             (readField shikiTheme (resolveConfig themeName)) = Returns html ->
  getHighlightedHtml lib code language themeName w
  = (mkWorld (currentPanel w) (Some h) (randomCalls w) (trace w),
     Returns html).
Proof.
  intros Hreq Huse Hlist Hin Hrender.
  destruct w as [panel hl rc tr].
  in_use Huse; run; repeat (known_step; run); reflexivity.
Qed.

(** X15. When the language is not listed, [loadLanguage] is called for it;
    if it returns, the markup is what [codeToHtml] gives on the highlighter
    with the language loaded, and that highlighter is the one memoized. *)
Theorem getHighlightedHtml_loads_on_demand (lib : Shiki) (w : World lib)
  (code language themeName : string) (h h' : Highlighter lib)
  (loadedLangs : list string) (html : string) :
  requireShiki lib = Returns tt ->
  highlighterInUse lib w h ->
  getLoadedLanguages lib h = Returns loadedLangs ->
  includes language loadedLangs = false ->
  loadLanguage lib h language = (h', Returns tt) ->
  codeToHtml lib h' code language
             (readField shikiTheme (resolveConfig themeName)) = Returns html ->
  getHighlightedHtml lib code language themeName w
  = (mkWorld (currentPanel w) (Some h') (randomCalls w) (trace w),
     Returns html).
Proof.
  intros Hreq Huse Hlist Hin Hload Hrender.
  destruct w as [panel hl rc tr].
  in_use Huse; run; repeat (known_step; run); reflexivity.
Qed.

(** X16. The two fallbacks differ in what they log.  A language that
    cannot be loaded falls back silently: nothing is logged.  Any other
    failure, here the library that cannot be required and [codeToHtml]
    that throws, is logged once on the console with its error. *)
Theorem getHighlightedHtml_logs_unexpected_failures (lib : Shiki)
  (w : World lib) (code language themeName : string) :
  (forall h h' loadedLangs err,
      requireShiki lib = Returns tt ->
      highlighterInUse lib w h ->
      getLoadedLanguages lib h = Returns loadedLangs ->
      includes language loadedLangs = false ->
      loadLanguage lib h language = (h', Throws err) ->
      getHighlightedHtml lib code language themeName w
      = (mkWorld (currentPanel w) (Some h') (randomCalls w) (trace w),
         Returns (plainCodeBlock code)))
  /\ (forall err,
         requireShiki lib = Throws err ->
         getHighlightedHtml lib code language themeName w
         = (mkWorld (currentPanel w) (shikiHighlighter w) (randomCalls w)
                    (trace w
                       ++ [ConsoleError "CodeSnap: Shiki highlighting failed:"
                                        err]),
            Returns (plainCodeBlock code)))
  /\ (forall h loadedLangs err,
         requireShiki lib = Returns tt ->
         highlighterInUse lib w h ->
         getLoadedLanguages lib h = Returns loadedLangs ->
         includes language loadedLangs = true ->
         codeToHtml lib h code language
                    (readField shikiTheme (resolveConfig themeName))
         = Throws err ->
         getHighlightedHtml lib code language themeName w
         = (mkWorld (currentPanel w) (Some h) (randomCalls w)
                    (trace w
                       ++ [ConsoleError "CodeSnap: Shiki highlighting failed:"
                                        err]),
            Returns (plainCodeBlock code))).
Proof.
  destruct w as [panel hl rc tr].
  split; [|split].
  - intros h h' loadedLangs err Hreq Huse Hlist Hin Hload.
    in_use Huse; run; repeat (known_step; run); reflexivity.
  - intros err Hreq. run; repeat (known_step; run); reflexivity.
  - intros h loadedLangs err Hreq Huse Hlist Hin Hrender.
    in_use Huse; run; repeat (known_step; run); reflexivity.
Qed.

(** X14. A run of [getHighlightedHtml], from its first step to its last
    with no other run in between, keeps the highlighter it finds: a
    memoized highlighter is not replaced by a new one, it stays as it is
    or as [loadLanguage] leaves it when the language is not listed.  A
    highlighter is created only when none is memoized, and the created one
    is memoized in the same way.  When the library cannot be required the
    memo is not touched, and when the highlighter cannot be created none is
    memoized. *)
Theorem highlighter_stays_memoized (lib : Shiki) (w : World lib)
  (code language themeName : string) :
  let w' := fst (getHighlightedHtml lib code language themeName w) in
  let created :=
    createHighlighter lib (map (fun t => shikiTheme (snd t)) themeConfigs)
                      initialLangs in
  (forall h,
      requireShiki lib = Returns tt ->
      shikiHighlighter w = Some h ->
      shikiHighlighter w' = Some (memoizedAfter lib h language))
  /\ (forall h,
         requireShiki lib = Returns tt ->
         shikiHighlighter w = None ->
         created = Returns h ->
         shikiHighlighter w' = Some (memoizedAfter lib h language))
  /\ (forall err,
         requireShiki lib = Throws err ->
         shikiHighlighter w' = shikiHighlighter w)
  /\ (forall err,
         requireShiki lib = Returns tt ->
         shikiHighlighter w = None ->
         created = Throws err ->
         shikiHighlighter w' = None)
  /\ (forall h loadedLangs,
         getLoadedLanguages lib h = Returns loadedLangs ->
         includes language loadedLangs = true ->
         memoizedAfter lib h language = h).
Proof.
  destruct w as [panel hl rc tr]. cbv zeta.
  split; [|split; [|split; [|split]]].
  - intros h Hreq Hmemo. cbn [shikiHighlighter] in Hmemo. subst hl.
    unfold memoizedAfter.
    run; repeat (known_step; run); repeat (case_step; run); reflexivity.
  - intros h Hreq Hmemo Hcreated. cbn [shikiHighlighter] in Hmemo. subst hl.
    unfold memoizedAfter.
    run; repeat (known_step; run); repeat (case_step; run); reflexivity.
  - intros err Hreq.
    run; repeat (known_step; run); reflexivity.
  - intros err Hreq Hmemo Hcreated. cbn [shikiHighlighter] in Hmemo. subst hl.
    run; repeat (known_step; run); reflexivity.
  - intros h loadedLangs Hlist Hin. unfold memoizedAfter.
    now rewrite Hlist, Hin.
Qed.

(** ** One panel at a time *)

Lemma countCreated_app (a b : list Event) :
  countCreated (a ++ b) = countCreated a + countCreated b.
Proof.
  induction a as [|e a IH]; [reflexivity|].
  destruct e; cbn [app countCreated]; rewrite IH; reflexivity.
Qed.

(** The message handler creates no panel and leaves the open one alone. *)
Lemma onDidReceiveMessage_keeps_panel (lib : Shiki) (host : Host)
  (w : World lib) (message : Message) :
  let w' := fst (onDidReceiveMessage lib host message w) in
  currentPanel w' = currentPanel w
  /\ countCreated (trace w') = countCreated (trace w).
Proof.
  cbv zeta. unfold onDidReceiveMessage.
  destruct (strictEq (command message) "copy").
  { cbn. rewrite countCreated_app. cbn. split; [reflexivity | lia]. }
  destruct (strictEq (command message) "save" && isTruthy (data message)).
  { unfold bind at 1. unfold emit at 1.
    destruct (saveDialogAnswer host _) as [uri|].
    - unfold bind, emit, call.
      cbn [currentPanel shikiHighlighter randomCalls trace].
      destruct (writeFileOutcome host uri _) as [[]|err]; cbn [fst currentPanel trace];
        rewrite !countCreated_app; cbn; split; (reflexivity || lia).
    - cbn. rewrite countCreated_app. cbn. split; [reflexivity | lia]. }
  destruct (strictEq (command message) "error").
  { cbn. rewrite countCreated_app. cbn. split; [reflexivity | lia]. }
  split; reflexivity.
Qed.

(** A capture leaves a panel open exactly when it got as far as
    [showCodeSnapPanel], and creates one only when none was open. *)
Lemma showCodeSnapPanel_keeps_onePanel (lib : Shiki) (host : Host)
  (w : World lib) (closed : nat) (code language name : string) (line : Z) :
  onePanel lib (w, closed) ->
  onePanel lib (fst (showCodeSnapPanel lib host code language name line w),
                closed).
Proof.
  unfold onePanel. cbn [fst snd]. intros Hone.
  destruct (showCodeSnapPanel_runs lib host w code language name line)
    as (hl & log & html & _ & Hcreated & _ & Hshow).
  rewrite Hshow. cbn [fst currentPanel trace].
  rewrite !countCreated_app, Hcreated, Hone. unfold panelEvent.
  destruct (currentPanel w); cbn; lia.
Qed.

Lemma runAction_keeps_onePanel (lib : Shiki) (host : Host) (a : Action)
  (state : World lib * nat) :
  onePanel lib state -> onePanel lib (runAction lib host a state).
Proof.
  destruct state as [w closed]. intros Hone.
  destruct a as [| | |message]; cbn [runAction].
  - unfold captureSelection.
    destruct (activeTextEditor host) as [editor|].
    + destruct (selectionIsEmpty editor).
      * unfold onePanel in *. cbn in *. rewrite countCreated_app. cbn. lia.
      * now apply showCodeSnapPanel_keeps_onePanel.
    + unfold onePanel in *. cbn in *. rewrite countCreated_app. cbn. lia.
  - unfold captureFile.
    destruct (activeTextEditor host) as [editor|].
    + now apply showCodeSnapPanel_keeps_onePanel.
    + unfold onePanel in *. cbn in *. rewrite countCreated_app. cbn. lia.
  - unfold onePanel in *. cbn [fst snd] in *.
    destruct (currentPanel w) eqn:E; cbn [fst snd]; [|now rewrite E].
    cbn. lia.
  - unfold onePanel in *. cbn [fst snd] in *.
    destruct (currentPanel w) eqn:E; cbn [fst snd]; [|now rewrite E].
    destruct (onDidReceiveMessage_keeps_panel lib host w message) as [Hp Hc].
    cbv zeta in Hp, Hc. rewrite Hp, Hc, E. exact Hone.
Qed.

(** X17. Through any sequence of captures, closings of the preview and
    messages from it, started with no panel, the panels created are the
    panels closed plus the open one, if one is open: a capture creates a
    panel only when none is open, so there is never more than one. *)
Theorem session_has_one_panel (lib : Shiki) (host : Host)
  (actions : list Action) (state : World lib * nat) :
  onePanel lib state ->
  onePanel lib (runSession lib host actions state).
Proof.
  unfold runSession. revert state.
  induction actions as [|a actions IH]; intros state Hone; [exact Hone|].
  cbn [fold_left]. apply IH. now apply runAction_keeps_onePanel.
Qed.

Lemma session_has_one_panel_witness :
  onePanel Demo.shiki (Demo.world0, 0)
  /\ onePanel Demo.shiki
       (runSession Demo.shiki Demo.host
          [RunCaptureFile; RunCaptureSelection; ClosePanel; RunCaptureFile;
           Post Demo.saveMessage]
          (Demo.world0, 0)).
Proof.
  assert (H : onePanel Demo.shiki (Demo.world0, 0)) by reflexivity.
  split; [exact H|].
  exact (session_has_one_panel Demo.shiki Demo.host _ _ H).
Defined.

(** ** The commands, when they go through *)

(** What a capture shows for a text and a start line: the document
    composed from them, with the gutter at its place; with line numbers
    on and the numbers in the range of exact additions, the gutter reads
    as the consecutive numbers of the lines. *)
Lemma showCodeSnapPanel_gutter (lib : Shiki) (host : Host) (w : World lib)
  (code language name : string) (startLine : Z) :
  let run := showCodeSnapPanel lib host code language name startLine w in
  let showLineNumbers := get (cfgShowLineNumbers (configuration host)) true in
  snd run = Returns tt
  /\ exists html,
       let p := paramsOf host html code name startLine
                         (nonceAt host (randomCalls w)) in
       shownHtml lib (fst run) = Some (buildWebviewHtml p)
       /\ buildWebviewHtml p
          = (render p (beforeFragment isGutter documentTemplate)
               ++ gutterSlot code startLine showLineNumbers
               ++ render p (afterFragment isGutter documentTemplate))%string
       /\ (showLineNumbers = true ->
           (0 <= startLine)%Z ->
           (startLine + Z.of_nat (lineCount code) - 1 <= 2 ^ 53)%Z ->
           readGutter (gutterSlot code startLine showLineNumbers)
           = Some (consecutive startLine (lineCount code)))
       /\ (showLineNumbers = false ->
           gutterSlot code startLine showLineNumbers = EmptyString).
Proof.
  cbv zeta.
  destruct (showCodeSnapPanel_runs lib host w code language name startLine)
    as (hl & log & html & _ & _ & _ & Hshow).
  rewrite Hshow. split; [reflexivity|].
  exists html. split; [reflexivity|].
  split; [apply document_around_gutter|].
  split.
  - intros -> Hlo Hhi. now apply readGutter_gutterSlot.
  - intros ->. reflexivity.
Qed.

(** X18. Capture Selection, with an editor and a selection that is not
    empty, never throws and leaves a panel that shows the document composed
    from the selected text, the base name of the file, the token drawn for
    this run and, as start line, the line after [selection.start.line]
    (which counts from zero).  The gutter stands at its one place in that
    document; with line numbers on it reads as the numbers of the lines of
    the selection, counted from that start line, as long as these stay in
    the range where additions are exact.  Capture Entire File does the same
    with the whole text and start line 1. *)
Theorem capture_shows_composed_document (lib : Shiki) (host : Host)
  (w : World lib) (editor : Editor) :
  activeTextEditor host = Some editor ->
  let name := basename host (documentFileName editor) in
  let token := nonceAt host (randomCalls w) in
  let showLineNumbers := get (cfgShowLineNumbers (configuration host)) true in
  (selectionIsEmpty editor = false ->
   let code := selectionText editor in
   let startLine := Js.add (selectionStartLine editor) 1 in
   snd (captureSelection lib host w) = Returns tt
   /\ exists html,
       let p := paramsOf host html code name startLine token in
       shownHtml lib (fst (captureSelection lib host w))
       = Some (buildWebviewHtml p)
       /\ buildWebviewHtml p
          = (render p (beforeFragment isGutter documentTemplate)
               ++ gutterSlot code startLine showLineNumbers
               ++ render p (afterFragment isGutter documentTemplate))%string
       /\ (showLineNumbers = true ->
           (0 <= selectionStartLine editor)%Z ->
           (selectionStartLine editor + Z.of_nat (lineCount code) <= 2 ^ 53)%Z ->
           startLine = (selectionStartLine editor + 1)%Z
           /\ readGutter (gutterSlot code startLine showLineNumbers)
              = Some (consecutive (selectionStartLine editor + 1)
                                  (lineCount code))))
  /\ (let code := documentText editor in
      snd (captureFile lib host w) = Returns tt
      /\ exists html,
          let p := paramsOf host html code name 1 token in
          shownHtml lib (fst (captureFile lib host w))
          = Some (buildWebviewHtml p)
          /\ buildWebviewHtml p
             = (render p (beforeFragment isGutter documentTemplate)
                  ++ gutterSlot code 1 showLineNumbers
                  ++ render p (afterFragment isGutter documentTemplate))%string
          /\ (showLineNumbers = true ->
              (Z.of_nat (lineCount code) <= 2 ^ 53)%Z ->
              readGutter (gutterSlot code 1 showLineNumbers)
              = Some (consecutive 1 (lineCount code)))).
Proof.
  intros Heditor name token showLineNumbers.
  split.
  - intros Hsel code startLine.
    unfold captureSelection. rewrite Heditor, Hsel.
    destruct (showCodeSnapPanel_gutter lib host w code (languageId editor)
                name startLine)
      as (Hret & html & Hshown & Hdoc & Hon & _).
    split; [exact Hret|].
    exists html. cbv zeta.
    split; [exact Hshown|].
    split; [exact Hdoc|].
    intros Hlines Hlo Hhi.
    assert (Hcount : (1 <= Z.of_nat (lineCount code))%Z)
      by (unfold lineCount; lia).
    assert (Hstart : startLine = (selectionStartLine editor + 1)%Z).
    { unfold startLine. apply add_exact. lia. }
    split; [exact Hstart|].
    rewrite <- Hstart. apply Hon; [exact Hlines | lia | lia].
  - intros code.
    unfold captureFile. rewrite Heditor.
    destruct (showCodeSnapPanel_gutter lib host w code (languageId editor)
                name 1)
      as (Hret & html & Hshown & Hdoc & Hon & _).
    split; [exact Hret|].
    exists html. cbv zeta.
    split; [exact Hshown|].
    split; [exact Hdoc|].
    intros Hlines Hhi. apply Hon; [exact Hlines | lia | lia].
Qed.

Lemma capture_shows_composed_document_witness :
  activeTextEditor Demo.host = Some Demo.editor
  /\ selectionIsEmpty Demo.editor = false
  /\ snd (captureSelection Demo.shiki Demo.host Demo.world0) = Returns tt
  /\ readGutter
       (gutterSlot (selectionText Demo.editor)
                   (Js.add (selectionStartLine Demo.editor) 1)
                   (get (cfgShowLineNumbers (configuration Demo.host)) true))
     = Some [10%Z].
Proof.
  split; [reflexivity|]. split; [reflexivity|].
  pose proof (capture_shows_composed_document Demo.shiki Demo.host Demo.world0
                Demo.editor eq_refl) as H.
  cbv zeta in H. destruct H as [Hsel _].
  destruct (Hsel eq_refl) as (Hret & html & _ & _ & Hon).
  split; [exact Hret|].
  exact (proj2 (Hon eq_refl ltac:(cbn; lia) ltac:(vm_compute; discriminate))).
Defined.

(** X21. Once the preview is closed the extension holds no panel, and the
    next capture creates a new one instead of revealing the old one. *)
Theorem capture_after_close_creates_panel (lib : Shiki) (host : Host)
  (w : World lib) (editor : Editor) :
  activeTextEditor host = Some editor ->
  let closed := fst (onDidDispose lib w) in
  let w' := fst (captureFile lib host closed) in
  currentPanel closed = None
  /\ trace closed = trace w
  /\ exists log,
       trace w' = trace w ++ log ++ [CreateWebviewPanel]
       /\ countCreated log = 0 /\ countRevealed log = 0
       /\ currentPanel w' <> None.
Proof.
  intros Heditor closed w'. subst closed w'.
  unfold captureFile. rewrite Heditor.
  split; [reflexivity|]. split; [reflexivity|].
  destruct (showCodeSnapPanel_runs lib host (fst (onDidDispose lib w))
              (documentText editor) (languageId editor)
              (basename host (documentFileName editor)) 1)
    as (hl & log & html & _ & Hcreated & Hrevealed & Hshow).
  rewrite Hshow. exists log.
  cbn [fst currentPanel trace]. unfold panelEvent.
  repeat split; try assumption. discriminate.
Qed.

Lemma capture_after_close_creates_panel_witness :
  activeTextEditor Demo.host = Some Demo.editor
  /\ trace (fst (captureFile Demo.shiki Demo.host
                   (fst (onDidDispose Demo.shiki
                           (fst (captureFile Demo.shiki Demo.host
                                   Demo.world0))))))
     = [CreateWebviewPanel; CreateWebviewPanel].
Proof.
  split; [reflexivity|].
  destruct (capture_after_close_creates_panel Demo.shiki Demo.host
              (fst (captureFile Demo.shiki Demo.host Demo.world0))
              Demo.editor eq_refl)
    as (_ & _ & log & Htrace & _).
  vm_compute. reflexivity.
Defined.

(** X20. [deactivate] forgets the memoized highlighter and never throws,
    even when disposing of the highlighter throws; without a highlighter it
    does nothing.  The panel and the trace are not touched. *)
Theorem deactivate_forgets_highlighter (lib : Shiki)
  (dispose : Highlighter lib -> outcome unit) (w : World lib) :
  deactivate lib dispose w
  = (mkWorld (currentPanel w) None (randomCalls w) (trace w), Returns tt).
Proof.
  destruct w as [panel [h|] rc tr]; unfold deactivate, bind, tryCatch, call, ret;
    cbn [shikiHighlighter currentPanel randomCalls trace];
    [destruct (dispose h) as [[]|err]|]; reflexivity.
Qed.

(** X22. Theme resolution, for every name: one of the five names of the
    table resolves to its own row; a name that is neither in the table nor a
    member of [Object.prototype] resolves to the dark row; a name of a member
    of [Object.prototype] resolves to that member and to no row. *)
Theorem theme_resolution (theme : string) :
  (forall c, In (theme, c) themeConfigs -> resolveConfig theme = PTheme c)
  /\ (includes theme themeNames = false ->
      includes theme objectPrototypeMembers = false ->
      resolveConfig theme = PTheme darkTheme)
  /\ (includes theme objectPrototypeMembers = true ->
      resolveConfig theme = PInherited theme).
Proof.
  split; [|split].
  - intros c Hin. unfold themeConfigs in Hin. cbn [In] in Hin.
    repeat (destruct Hin as [Hin | Hin];
            [injection Hin as <- <-; reflexivity|]).
    contradiction.
  - apply resolveConfig_unrecognized.
  - unfold objectPrototypeMembers. cbn [includes].
    rewrite !orb_true_iff, !String.eqb_eq.
    intros H.
    repeat (destruct H as [<- | H]; [reflexivity|]).
    discriminate.
Qed.

Lemma theme_resolution_witness :
  In ("nord", nordTheme) themeConfigs
  /\ resolveConfig "nord" = PTheme nordTheme
  /\ includes "solarized" themeNames = false
  /\ includes "solarized" objectPrototypeMembers = false
  /\ resolveConfig "solarized" = PTheme darkTheme.
Proof.
  assert (Hin : In ("nord", nordTheme) themeConfigs) by (cbn; tauto).
  split; [exact Hin|].
  split; [exact (proj1 (theme_resolution "nord") nordTheme Hin)|].
  split; [reflexivity|]. split; [reflexivity|].
  exact (proj1 (proj2 (theme_resolution "solarized")) eq_refl eq_refl).
Defined.

(** ** The window header and the fallback markup *)

Lemma template_around_header :
  documentTemplate
  = beforeFragment isWindowHeader documentTemplate
      ++ WindowHeader :: afterFragment isWindowHeader documentTemplate.
Proof. vm_compute. reflexivity. Qed.

Lemma document_around_header (p : WebviewParams) :
  buildWebviewHtml p
  = (render p (beforeFragment isWindowHeader documentTemplate)
       ++ windowHeader (p_fileName p) (p_windowControls p)
       ++ render p (afterFragment isWindowHeader documentTemplate))%string.
Proof.
  rewrite buildWebviewHtml_renders.
  transitivity
    (render p (beforeFragment isWindowHeader documentTemplate
                 ++ WindowHeader
                 :: afterFragment isWindowHeader documentTemplate)).
  - f_equal; exact template_around_header.
  - now rewrite render_app, render_cons.
Qed.

(** X19. The window header stands at one place of the document.  With
    window controls off nothing is written there.  With window controls on
    the header is a fixed text around the escaped file name: whatever the
    file name, the title holds no character that could open or close a tag,
    and reads back as the file name. *)
Theorem window_header_shows_escaped_name (p : WebviewParams) :
  let header := windowHeader (p_fileName p) (p_windowControls p) in
  buildWebviewHtml p
  = (render p (beforeFragment isWindowHeader documentTemplate)
       ++ header
       ++ render p (afterFragment isWindowHeader documentTemplate))%string
  /\ existsb isWindowHeader (beforeFragment isWindowHeader documentTemplate)
     = false
  /\ existsb isWindowHeader (afterFragment isWindowHeader documentTemplate)
     = false
  /\ (p_windowControls p = false -> header = EmptyString)
  /\ (exists before after,
        forall name,
          windowHeader name true
          = (before ++ escapeHtml name ++ after)%string
          /\ existsChar isMarkup (escapeHtml name) = false
          /\ unescapeHtml (escapeHtml name) = name).
Proof.
  cbv zeta.
  split; [apply document_around_header|].
  split; [vm_compute; reflexivity|].
  split; [vm_compute; reflexivity|].
  split.
  - intros ->. reflexivity.
  - unfold windowHeader. eexists _, _. intros name.
    split; [reflexivity|].
    split; [apply escapeHtml_no_markup | apply unescapeHtml_escapeHtml].
Qed.

(** X23. On every failure of the highlighter the markup returned is a
    fixed [pre] and [code] block around the escaped text: no character of
    the text reaches the markup as an angle bracket or a quote, and the
    text can be read back from it. *)
Theorem fallback_markup_is_escaped (lib : Shiki) (w : World lib)
  (code language themeName : string) :
  HighlightFailure lib w code language themeName ->
  exists inner,
    snd (getHighlightedHtml lib code language themeName w)
    = Returns (q "<pre style=`margin:0`><code>" ++ inner
                 ++ "</code></pre>")%string
    /\ existsChar isMarkup inner = false
    /\ unescapeHtml inner = code.
Proof.
  intros Hfail. exists (escapeHtml code).
  split; [|split].
  - rewrite (getHighlightedHtml_failure lib w code language themeName Hfail).
    unfold plainCodeBlock. reflexivity.
  - apply escapeHtml_no_markup.
  - apply unescapeHtml_escapeHtml.
Qed.

Lemma fallback_markup_is_escaped_witness :
  HighlightFailure Demo.shiki Demo.world0 "DISPLAY 'A < B'." "cobol" "dark"
  /\ exists inner,
       snd (getHighlightedHtml Demo.shiki "DISPLAY 'A < B'." "cobol" "dark"
                               Demo.world0)
       = Returns (q "<pre style=`margin:0`><code>" ++ inner
                    ++ "</code></pre>")%string
       /\ existsChar isMarkup inner = false
       /\ unescapeHtml inner = "DISPLAY 'A < B'.".
Proof.
  split; [exact demo_cobol_cannot_load|].
  exact (fallback_markup_is_escaped Demo.shiki Demo.world0 "DISPLAY 'A < B'."
           "cobol" "dark" demo_cobol_cannot_load).
Defined.

(** ** The earlier revision *)

Lemma legacy_captureFiles_handlers (host : Host) (editor : Editor) (n : nat) :
  activeTextEditor host = Some editor ->
  forall w panel,
    Legacy.currentPanel w = Some panel ->
    exists panel',
      Legacy.currentPanel (Legacy.captureFiles host n w) = Some panel'
      /\ Legacy.handlers panel'
         = Legacy.handlers panel
             ++ repeat (basename host (documentFileName editor)) n.
Proof.
  intros Heditor.
  induction n as [|n IH]; intros w panel Hpanel.
  - exists panel. split; [exact Hpanel | now rewrite app_nil_r].
  - cbn [Legacy.captureFiles].
    unfold Legacy.captureFile at 1. rewrite Heditor.
    unfold Legacy.showCodeSnapPanel at 1. rewrite Hpanel.
    match goal with
    | |- context [Legacy.captureFiles host n ?w1] =>
        destruct (IH w1 _ eq_refl) as (panel' & Hp & Hh)
    end.
    exists panel'. split; [exact Hp|].
    rewrite Hh. cbn [Legacy.handlers repeat].
    now rewrite <- app_assoc.
Qed.

Lemma legacy_copy_to_handlers (host : Host) (message : Message)
  (names : list string) :
  command message = Some "copy" ->
  forall w,
    Legacy.trace
      (fold_left (fun w' name => Legacy.onDidReceiveMessage host name message w')
                 names w)
    = Legacy.trace w
        ++ repeat (ShowInformationMessage "Screenshot copied to clipboard!")
                  (length names).
Proof.
  intros Hcopy.
  induction names as [|name names IH]; intros w.
  - cbn. now rewrite app_nil_r.
  - cbn [fold_left length repeat]. rewrite IH.
    unfold Legacy.onDidReceiveMessage. rewrite Hcopy.
    cbn. now rewrite <- app_assoc.
Qed.

(** X24. In the earlier revision every capture registers one more message
    handler on the open panel: after [n + 1] captures of a file, started
    without a panel, the panel holds [n + 1] handlers, and one [copy]
    message from the preview shows the notification [n + 1] times. *)
Theorem legacy_handlers_accumulate (host : Host) (editor : Editor) (n : nat)
  (w : Legacy.World) (message : Message) :
  activeTextEditor host = Some editor ->
  Legacy.currentPanel w = None ->
  command message = Some "copy" ->
  let w' := Legacy.captureFiles host (S n) w in
  (exists panel, Legacy.currentPanel w' = Some panel
                 /\ length (Legacy.handlers panel) = S n)
  /\ Legacy.trace (Legacy.postMessage host message w')
     = Legacy.trace w'
         ++ repeat (ShowInformationMessage "Screenshot copied to clipboard!")
                   (S n).
Proof.
  intros Heditor Hnone Hcopy w'. subst w'.
  cbn [Legacy.captureFiles].
  set (w1 := Legacy.captureFile host w).
  assert (Hfirst : exists html,
             Legacy.currentPanel w1
             = Some (Legacy.mkPanel html
                       [basename host (documentFileName editor)])).
  { subst w1. unfold Legacy.captureFile, Legacy.showCodeSnapPanel.
    rewrite Heditor, Hnone. eexists. reflexivity. }
  destruct Hfirst as [html Hfirst].
  destruct (legacy_captureFiles_handlers host editor n Heditor w1 _ Hfirst)
    as (panel' & Hp & Hh).
  cbn [Legacy.handlers] in Hh.
  assert (Hlen : length (Legacy.handlers panel') = S n).
  { rewrite Hh. cbn [app length]. now rewrite repeat_length. }
  split; [exists panel'; split; [exact Hp | exact Hlen]|].
  unfold Legacy.postMessage. rewrite Hp.
  rewrite (legacy_copy_to_handlers host message _ Hcopy), Hlen.
  reflexivity.
Qed.

Lemma legacy_handlers_accumulate_witness :
  activeTextEditor Demo.host = Some Demo.editor
  /\ Legacy.currentPanel (Legacy.mkWorld None []) = None
  /\ command (mkMessage (Some "copy") None None None) = Some "copy"
  /\ Legacy.trace
       (Legacy.postMessage Demo.host (mkMessage (Some "copy") None None None)
          (Legacy.captureFiles Demo.host 3 (Legacy.mkWorld None [])))
     = [CreateWebviewPanel; RevealPanel; RevealPanel;
        ShowInformationMessage "Screenshot copied to clipboard!";
        ShowInformationMessage "Screenshot copied to clipboard!";
        ShowInformationMessage "Screenshot copied to clipboard!"].
Proof.
  split; [reflexivity|]. split; [reflexivity|]. split; [reflexivity|].
  pose proof (legacy_handlers_accumulate Demo.host Demo.editor 2
                (Legacy.mkWorld None [])
                (mkMessage (Some "copy") None None None)
                eq_refl eq_refl eq_refl) as H.
  cbv zeta in H. destruct H as [_ H].
  rewrite H. vm_compute. reflexivity.
Defined.

Lemma legacy_countWritten_app (a b : list Event) :
  Legacy.countWritten (a ++ b) = Legacy.countWritten a + Legacy.countWritten b.
Proof.
  induction a as [|e a IH]; [reflexivity|].
  destruct e; cbn [app Legacy.countWritten]; rewrite IH; reflexivity.
Qed.

Lemma legacy_handler_writes_nothing (host : Host) (name : string)
  (message : Message) (w : Legacy.World) :
  Legacy.countWritten (Legacy.trace (Legacy.onDidReceiveMessage host name message w))
  = Legacy.countWritten (Legacy.trace w).
Proof.
  unfold Legacy.onDidReceiveMessage.
  destruct (strictEq (command message) "copy").
  { cbn. rewrite legacy_countWritten_app. cbn. lia. }
  destruct (strictEq (command message) "save"); [|reflexivity].
  cbv zeta.
  destruct (saveDialogAnswer host _); cbn;
    rewrite !legacy_countWritten_app; cbn; lia.
Qed.

(** X25. In the earlier revision no message makes the host write a file.
    On a [save] message the one handler of a first capture opens the save
    dialog on the file name without its extension followed by
    [-codesnap.png], and when the user confirms a path it reports the
    screenshot as saved to that path, although nothing was written. *)
Theorem legacy_save_writes_nothing (host : Host) (message : Message)
  (w : Legacy.World) :
  Legacy.countWritten (Legacy.trace (Legacy.postMessage host message w))
  = Legacy.countWritten (Legacy.trace w)
  /\ (forall html name uri,
         Legacy.currentPanel w = Some (Legacy.mkPanel html [name]) ->
         command message = Some "save" ->
         saveDialogAnswer host (Node.stripExtension name ++ "-codesnap.png")
         = Some uri ->
         Legacy.trace (Legacy.postMessage host message w)
         = Legacy.trace w
             ++ [ShowSaveDialog (Node.stripExtension name ++ "-codesnap.png");
                 ShowInformationMessage ("Screenshot saved to " ++ uri)]).
Proof.
  split.
  - unfold Legacy.postMessage.
    destruct (Legacy.currentPanel w) as [panel|]; [|reflexivity].
    generalize (Legacy.handlers panel). intros names. revert w.
    induction names as [|name names IH]; intros w; [reflexivity|].
    cbn [fold_left]. rewrite IH. apply legacy_handler_writes_nothing.
  - intros html name uri Hpanel Hsave Hanswer.
    unfold Legacy.postMessage. rewrite Hpanel.
    cbn [Legacy.handlers fold_left].
    unfold Legacy.onDidReceiveMessage. rewrite Hsave.
    change (strictEq (Some "save") "copy") with false.
    change (strictEq (Some "save") "save") with true.
    cbv zeta. rewrite Hanswer. cbn. now rewrite <- app_assoc.
Qed.

Lemma legacy_save_writes_nothing_witness :
  let w := Legacy.captureFile Demo.host (Legacy.mkWorld None []) in
  Legacy.trace (Legacy.postMessage Demo.host Demo.saveMessage w)
  = [CreateWebviewPanel; ShowSaveDialog "main-codesnap.png";
     ShowInformationMessage "Screenshot saved to /home/dev/shots/foo.png"]
  /\ Legacy.countWritten
       (Legacy.trace (Legacy.postMessage Demo.host Demo.saveMessage w)) = 0.
Proof.
  cbv zeta.
  pose proof (legacy_save_writes_nothing Demo.host Demo.saveMessage
                (Legacy.captureFile Demo.host (Legacy.mkWorld None [])))
    as [Hnone Hsave].
  split; [|rewrite Hnone; reflexivity].
  rewrite (Hsave _ "main.ts" "/home/dev/shots/foo.png" eq_refl eq_refl eq_refl).
  reflexivity.
Defined.

Lemma legacy_render_app (code fileName : string) (startLine : Z)
  (theme : string) (showLineNumbers windowControls shadow : bool)
  (a b : list Legacy.Fragment) :
  Legacy.render code fileName startLine theme showLineNumbers windowControls
                shadow (a ++ b)
  = (Legacy.render code fileName startLine theme showLineNumbers
                   windowControls shadow a
       ++ Legacy.render code fileName startLine theme showLineNumbers
                        windowControls shadow b)%string.
Proof. unfold Legacy.render. now rewrite map_app, join_app. Qed.

Lemma legacy_render_cons (code fileName : string) (startLine : Z)
  (theme : string) (showLineNumbers windowControls shadow : bool)
  (f : Legacy.Fragment) (t : list Legacy.Fragment) :
  Legacy.render code fileName startLine theme showLineNumbers windowControls
                shadow (f :: t)
  = (Legacy.renderFragment code fileName startLine theme showLineNumbers
                           windowControls shadow f
       ++ Legacy.render code fileName startLine theme showLineNumbers
                        windowControls shadow t)%string.
Proof. reflexivity. Qed.

Lemma legacy_template_around_code :
  Legacy.documentTemplate
  = Legacy.before Legacy.isCodeHtml Legacy.documentTemplate
      ++ Legacy.CodeHtml
      :: Legacy.after Legacy.isCodeHtml Legacy.documentTemplate.
Proof. vm_compute. reflexivity. Qed.

(** X26. The document of the earlier revision shows the text escaped: it
    is the rendered template before the code, the result of [escapeHtml]
    on the text, and the rendered template after it, so no character of
    the text reaches the markup as an angle bracket or a quote. *)
Theorem legacy_document_shows_escaped_code (code language fileName : string)
  (startLine : Z) (theme : string)
  (showLineNumbers windowControls shadow : bool) :
  let r :=
    Legacy.render code fileName startLine theme showLineNumbers windowControls
                  shadow in
  Legacy.getWebviewContent code language fileName startLine theme
                           showLineNumbers windowControls shadow
  = (r (Legacy.before Legacy.isCodeHtml Legacy.documentTemplate)
       ++ escapeHtml code
       ++ r (Legacy.after Legacy.isCodeHtml Legacy.documentTemplate))%string
  /\ existsb Legacy.isCodeHtml
             (Legacy.before Legacy.isCodeHtml Legacy.documentTemplate) = false
  /\ existsb Legacy.isCodeHtml
             (Legacy.after Legacy.isCodeHtml Legacy.documentTemplate) = false
  /\ existsChar isMarkup (escapeHtml code) = false
  /\ unescapeHtml (escapeHtml code) = code.
Proof.
  cbv zeta.
  split.
  - unfold Legacy.getWebviewContent.
    transitivity
      (Legacy.render code fileName startLine theme showLineNumbers
         windowControls shadow
         (Legacy.before Legacy.isCodeHtml Legacy.documentTemplate
            ++ Legacy.CodeHtml
            :: Legacy.after Legacy.isCodeHtml Legacy.documentTemplate)).
    + f_equal; exact legacy_template_around_code.
    + now rewrite legacy_render_app, legacy_render_cons.
  - split; [vm_compute; reflexivity|].
    split; [vm_compute; reflexivity|].
    split; [apply escapeHtml_no_markup | apply unescapeHtml_escapeHtml].
Qed.

(** ** The properties above on sample inputs *)

Lemma escapeHtml_reads_back_witness :
  escapeHtml "a < b" = escapeHtml "a < b" /\ unescapeHtml (escapeHtml "a < b") = "a < b".
Proof.
  split; [reflexivity|].
  exact (proj1 escapeHtml_reads_back "a < b").
Defined.

Lemma save_cancelled_writes_nothing_witness :
  command Demo.saveMessage = Some "save"
  /\ isTruthy (data Demo.saveMessage) = true
  /\ saveDialogAnswer Sample.cancellingHost "/home/dev/project/foo-codesnap.png"
     = None
  /\ trace (fst (onDidReceiveMessage Demo.shiki Sample.cancellingHost
                   Demo.saveMessage Demo.world0))
     = [ShowSaveDialog "/home/dev/project/foo-codesnap.png"].
Proof.
  split; [reflexivity|]. split; [reflexivity|]. split; [reflexivity|].
  rewrite (save_cancelled_writes_nothing Demo.shiki Sample.cancellingHost
             Demo.world0 Demo.saveMessage eq_refl eq_refl eq_refl).
  reflexivity.
Defined.

Lemma save_write_failure_is_thrown_witness :
  command Demo.saveMessage = Some "save"
  /\ isTruthy (data Demo.saveMessage) = true
  /\ writeFileOutcome Sample.readOnlyHost "/etc/shot.png" [0; 0; 0]%Z
     = Throws "EACCES"
  /\ snd (onDidReceiveMessage Demo.shiki Sample.readOnlyHost Demo.saveMessage
                              Demo.world0)
     = Throws "EACCES".
Proof.
  split; [reflexivity|]. split; [reflexivity|]. split; [reflexivity|].
  exact (proj1 (save_write_failure_is_thrown Demo.shiki Sample.readOnlyHost
                  Demo.world0 Demo.saveMessage "/etc/shot.png" "EACCES"
                  eq_refl eq_refl eq_refl eq_refl)).
Defined.

Lemma demo_creates_highlighter :
  highlighterInUse Demo.shiki Demo.world0 initialLangs.
Proof. right. split; reflexivity. Qed.

Lemma getHighlightedHtml_uses_loaded_language_witness :
  requireShiki Demo.shiki = Returns tt
  /\ highlighterInUse Demo.shiki Demo.world0 initialLangs
  /\ includes "typescript" initialLangs = true
  /\ getHighlightedHtml Demo.shiki "a < b" "typescript" "nord" Demo.world0
     = (@mkWorld Demo.shiki None (Some initialLangs) 0 [],
        Returns (q "<pre class=`shiki nord`><code>a &lt; b</code></pre>")).
Proof.
  split; [reflexivity|]. split; [exact demo_creates_highlighter|].
  split; [reflexivity|].
  exact (getHighlightedHtml_uses_loaded_language Demo.shiki Demo.world0
           "a < b" "typescript" "nord" initialLangs initialLangs _
           eq_refl demo_creates_highlighter eq_refl eq_refl eq_refl).
Defined.

Lemma getHighlightedHtml_loads_on_demand_witness :
  requireShiki Demo.shiki = Returns tt
  /\ highlighterInUse Demo.shiki Demo.world0 initialLangs
  /\ includes "rust" initialLangs = false
  /\ loadLanguage Demo.shiki initialLangs "rust"
     = (initialLangs ++ ["rust"], Returns tt)
  /\ getHighlightedHtml Demo.shiki "fn main" "rust" "dark" Demo.world0
     = (@mkWorld Demo.shiki None (Some (initialLangs ++ ["rust"])) 0 [],
        Returns (q "<pre class=`shiki dark-plus`><code>fn main</code></pre>")).
Proof.
  split; [reflexivity|]. split; [exact demo_creates_highlighter|].
  split; [reflexivity|]. split; [reflexivity|].
  exact (getHighlightedHtml_loads_on_demand Demo.shiki Demo.world0
           "fn main" "rust" "dark" initialLangs (initialLangs ++ ["rust"])
           initialLangs _
           eq_refl demo_creates_highlighter eq_refl eq_refl eq_refl eq_refl).
Defined.

Lemma getHighlightedHtml_logs_unexpected_failures_witness :
  requireShiki Demo.shiki = Returns tt
  /\ highlighterInUse Demo.shiki Demo.world0 initialLangs
  /\ loadLanguage Demo.shiki initialLangs "cobol"
     = (initialLangs, Throws "Language not found")
  /\ trace (fst (getHighlightedHtml Demo.shiki "DISPLAY" "cobol" "dark"
                                    Demo.world0)) = [].
Proof.
  split; [reflexivity|]. split; [exact demo_creates_highlighter|].
  split; [reflexivity|].
  rewrite (proj1 (getHighlightedHtml_logs_unexpected_failures
                    Demo.shiki Demo.world0 "DISPLAY" "cobol" "dark")
                 initialLangs initialLangs initialLangs "Language not found"
                 eq_refl demo_creates_highlighter eq_refl eq_refl eq_refl).
  reflexivity.
Defined.

Lemma highlighter_stays_memoized_witness :
  requireShiki Demo.shiki = Returns tt
  /\ shikiHighlighter
       (fst (getHighlightedHtml Demo.shiki "x" "rust" "dark"
               (@mkWorld Demo.shiki None (Some initialLangs) 0 [])))
     = Some (initialLangs ++ ["rust"]).
Proof.
  split; [reflexivity|].
  pose proof (highlighter_stays_memoized Demo.shiki
                (@mkWorld Demo.shiki None (Some initialLangs) 0 [])
                "x" "rust" "dark") as H.
  cbv zeta in H. destruct H as (Hkept & _).
  exact (Hkept initialLangs eq_refl eq_refl).
Defined.

Lemma window_header_shows_escaped_name_witness :
  p_windowControls Sample.params = false
  /\ windowHeader (p_fileName Sample.params) (p_windowControls Sample.params)
     = EmptyString.
Proof.
  split; [reflexivity|].
  pose proof (window_header_shows_escaped_name Sample.params) as H.
  cbv zeta in H. destruct H as (_ & _ & _ & Hoff & _).
  exact (Hoff eq_refl).
Defined.
